(** * Order normalisation and EIP-712 order signing (src/signer.py)

    A shallow embedding of [Order.__post_init__] and [OrderSigner].

    - [price] and [size] are floats, as the dataclass declares them:
      binary64 values of the IEEE-754 specification of the Standard Library
      ([SpecFloat], precision 53, emax 1024), with [round], [*] and the
      comparisons computed exactly as CPython computes them.
    - Strings are ASCII; ints are [Z]; dicts are [gmap]s.
    - Exceptions are values of an error monad; the random module is a state
      passed along; eth_account and eth_utils are an interface ([Backend]),
      except for the EIP-55 capitalisation, written out over an abstract
      hash.

    The API clients of src/client.py and [sign_auth_message] come second,
    with their own notes; the theorems follow all the definitions. *)

From Stdlib Require Import ZArith QArith Qabs Qpower Bool String Ascii List Lia Lqa.
From Stdlib Require Import SpecFloat DecimalString DecimalZ DecimalPos.
From stdpp Require Import base strings gmap.
Import ListNotations.
Local Open Scope string_scope.
Local Open Scope Z_scope.

(** ** Python floats *)

Module PyFloat.

Definition prec : Z := 53.
Definition emax : Z := 1024.

Abbreviation float := spec_float.

(** The doubles: finite values have a canonical mantissa and exponent. *)
Definition is_double (x : float) : bool := valid_binary prec emax x.

Definition fmul : float -> float -> float := SFmul prec emax.
Definition fdiv : float -> float -> float := SFdiv prec emax.
Definition fltb : float -> float -> bool := SFltb.
Definition fleb : float -> float -> bool := SFleb.

(** Nearest integer to [a / b], ties to the even one ([0 <= a], [0 < b]). *)
Definition rhe_div (a b : Z) : Z :=
  let q := a / b in
  match 2 * (a mod b) ?= b with
  | Lt => q
  | Eq => if Z.even q then q else q + 1
  | Gt => q + 1
  end.

(** Nearest integer to [m * 2^e * 10^n], ties to even. *)
Definition scaled_rhe (m : positive) (e : Z) (n : Z) : Z :=
  match e with
  | Zneg p => rhe_div (Zpos m * 10 ^ n) (2 ^ Zpos p)
  | _ => Zpos m * 2 ^ e * 10 ^ n
  end.

(** The double nearest to [k / 10^n] with sign [s] ([0 < k]): what reading
    the decimal literal [k]e-[n] gives. *)
Definition of_decimal (s : bool) (k : positive) (n : Z) : float :=
  fdiv (S754_finite s k 0) (S754_finite false (Z.to_pos (10 ^ n)) 0).

(** Conversion of a Python int, correctly rounded. *)
Definition of_Z (z : Z) : float := binary_normalize prec emax z 0 false.

(** The rational a finite double stands for (0 for the others). *)
Definition to_Q (x : float) : Q :=
  match x with
  | S754_finite s m e => (inject_Z (if s then Zneg m else Zpos m) * 2 ^ e)%Q
  | _ => 0%Q
  end.

End PyFloat.

(** ** Exceptions and results *)

(** The exceptions the modelled code can raise, with the Python class of
    each one. Messages that interpolate a value carry that value. *)
Inductive exn : Type :=
| Invalid_side (side : string)          (* ValueError("Invalid side: ...") *)
| Invalid_price (price : PyFloat.float) (* ValueError("Invalid price: ...") *)
| Invalid_size (size : PyFloat.float)   (* ValueError("Invalid size: ...") *)
| Float_nan_to_int     (* ValueError: cannot convert float NaN to integer *)
| Float_inf_to_int     (* OverflowError: cannot convert float infinity to integer *)
| Round_too_large      (* OverflowError: rounded value too large to represent *)
| Invalid_literal (s : string)    (* ValueError: invalid literal for int() *)
| Key_error (key : string)        (* KeyError on a dict *)
| Library_error (msg : string)    (* raised inside eth_account / eth_utils *)
| Invalid_private_key (cause : exn)  (* ValueError("Invalid private key: ...") *)
| Failed_to_sign (cause : exn).      (* SignerError("Failed to sign order: ...") *)

Inductive exn_class : Type := ValueError | OverflowError | SignerError | OtherError.

Definition class_of (e : exn) : exn_class :=
  match e with
  | Invalid_side _ | Invalid_price _ | Invalid_size _ => ValueError
  | Float_nan_to_int | Invalid_literal _ | Invalid_private_key _ => ValueError
  | Float_inf_to_int | Round_too_large => OverflowError
  | Failed_to_sign _ => SignerError
  | Key_error _ | Library_error _ => OtherError
  end.

Inductive result (A : Type) : Type :=
| Ok (a : A)
| Raise (e : exn).
Arguments Ok {A} a.
Arguments Raise {A} e.

Definition bind {A B : Type} (c : result A) (k : A -> result B) : result B :=
  match c with
  | Ok a => k a
  | Raise e => Raise e
  end.

Notation "'do' x <- c 'in' k" := (bind c (fun x => k))
  (at level 10, x name, c at level 100, k at level 200).

(** [try: c except Exception as e: raise h(e)] *)
Definition reraise {A : Type} (h : exn -> exn) (c : result A) : result A :=
  match c with
  | Ok a => Ok a
  | Raise e => Raise (h e)
  end.

(** ** Python built-ins on floats, ints and strings *)

Module Py.
Import PyFloat.

(** [round(x, n)] on a float, [0 <= n]: the decimal with [n] places nearest
    to the exact value of [x] (ties to even), read back as a double; the
    sign is kept, non-finite values round to themselves. *)
Definition round_ndigits (x : float) (n : Z) : result float :=
  match x with
  | S754_finite s m e =>
      match scaled_rhe m e n with
      | Zpos k =>
          match of_decimal s k n with
          | S754_infinity _ => Raise Round_too_large
          | r => Ok r
          end
      | _ => Ok (S754_zero s)
      end
  | _ => Ok x
  end.

(** [round(x)] on a float: the nearest int, ties to even. *)
Definition round_int (x : float) : result Z :=
  match x with
  | S754_zero _ => Ok 0
  | S754_finite s m e =>
      let k := scaled_rhe m e 0 in Ok (if s then - k else k)
  | S754_infinity _ => Raise Float_inf_to_int
  | S754_nan => Raise Float_nan_to_int
  end.

(** [x * n] for a float [x] and an int [n] that converts exactly. *)
Definition mul_int (x : float) (n : Z) : float := fmul x (of_Z n).

(** [0 < x] and [x <= 1] against int constants: exact comparisons. *)
Definition lt_int (n : Z) (x : float) : bool := fltb (of_Z n) x.
Definition le_int (x : float) (n : Z) : bool := fleb x (of_Z n).

(** [str(n)] for an int. *)
Definition str (n : Z) : string :=
  DecimalString.NilZero.string_of_int (Z.to_int n).

Definition digit_val (c : ascii) : option Z :=
  let n := Z.of_N (N_of_ascii c) in
  if (48 <=? n) && (n <=? 57) then Some (n - 48) else None.

(** White space of an ASCII string as [int] sees it: tab, line feed,
    vertical tab, form feed, carriage return and the space.  The
    separators 28 to 31 are white space for [str.isspace] only. *)
Definition is_space (c : ascii) : bool :=
  let n := Z.of_N (N_of_ascii c) in
  ((9 <=? n) && (n <=? 13)) || (n =? 32).

Fixpoint all_space (s : string) : bool :=
  match s with
  | EmptyString => true
  | String c s' => is_space c && all_space s'
  end.

Fixpoint lstrip (s : string) : string :=
  match s with
  | String c s' => if is_space c then lstrip s' else s
  | EmptyString => EmptyString
  end.

(** The value of a digit list read from the left, after [acc]. *)
Fixpoint uint_val (acc : Z) (d : Decimal.uint) : Z :=
  match d with
  | Decimal.Nil => acc
  | Decimal.D0 d' => uint_val (10 * acc) d'
  | Decimal.D1 d' => uint_val (10 * acc + 1) d'
  | Decimal.D2 d' => uint_val (10 * acc + 2) d'
  | Decimal.D3 d' => uint_val (10 * acc + 3) d'
  | Decimal.D4 d' => uint_val (10 * acc + 4) d'
  | Decimal.D5 d' => uint_val (10 * acc + 5) d'
  | Decimal.D6 d' => uint_val (10 * acc + 6) d'
  | Decimal.D7 d' => uint_val (10 * acc + 7) d'
  | Decimal.D8 d' => uint_val (10 * acc + 8) d'
  | Decimal.D9 d' => uint_val (10 * acc + 9) d'
  end.

(** Digits, single underscores between digits, trailing white space. *)
Fixpoint int_digits (acc : Z) (after_digit : bool) (s : string) : option Z :=
  match s with
  | EmptyString => if after_digit then Some acc else None
  | String c s' =>
      match digit_val c with
      | Some d => int_digits (10 * acc + d) true s'
      | None =>
          if after_digit then
            if Ascii.eqb c "_" then int_digits acc false s'
            else if all_space s then Some acc else None
          else None
      end
  end.

(** [int(s)] for an ASCII string, base 10.  The interpreter's bound on
    the digits of a conversion ([sys.set_int_max_str_digits], 4300
    unless configured otherwise) is left out of [int] and [str]: the
    amounts an [Order] is built with from doubles have fewer than 320
    digits, and a [token_id] of more digits than the bound, which a
    default interpreter refuses with a ValueError, is converted here. *)
Definition int (s : string) : result Z :=
  let body := lstrip s in
  let parsed :=
    match body with
    | String c r =>
        if Ascii.eqb c "-" then option_map Z.opp (int_digits 0 false r)
        else if Ascii.eqb c "+" then int_digits 0 false r
        else int_digits 0 false body
    | EmptyString => None
    end in
  match parsed with
  | Some z => Ok z
  | None => Raise (Invalid_literal s)
  end.

Definition upper_char (c : ascii) : ascii :=
  let n := N_of_ascii c in
  if (97 <=? n)%N && (n <=? 122)%N then ascii_of_N (n - 32) else c.

Definition lower_char (c : ascii) : ascii :=
  let n := N_of_ascii c in
  if (65 <=? n)%N && (n <=? 90)%N then ascii_of_N (n + 32) else c.

Fixpoint map_string (f : ascii -> ascii) (s : string) : string :=
  match s with
  | EmptyString => EmptyString
  | String c s' => String (f c) (map_string f s')
  end.

(** [s.upper()] and [s.lower()] on ASCII strings. *)
Definition upper (s : string) : string := map_string upper_char s.
Definition lower (s : string) : string := map_string lower_char s.

(** [s.startswith(p)] *)
Fixpoint startswith (s p : string) {struct p} : bool :=
  match p with
  | EmptyString => true
  | String a p' =>
      match s with
      | String b s' => Ascii.eqb a b && startswith s' p'
      | EmptyString => false
      end
  end.

(** [s[n:]] *)
Fixpoint drop (n : nat) (s : string) : string :=
  match n, s with
  | S n', String _ s' => drop n' s'
  | _, _ => s
  end.

End Py.

(** ** The Order dataclass *)

(** The fields [Order(...)] receives; [nonce] is [None] when omitted. *)
Record OrderInit : Type := mkOrderInit {
  init_token_id : string;
  init_price : PyFloat.float;
  init_size : PyFloat.float;
  init_side : string;
  init_maker : string;
  init_nonce : option Z;
  init_fee_rate_bps : Z;
  init_signature_type : Z;
  init_order_type : string
}.

(** The object once [__post_init__] has run: the dataclass fields as it
    left them, and the three attributes it adds. *)
Record Order : Type := mkOrder {
  token_id : string;
  price : PyFloat.float;
  size : PyFloat.float;
  side : string;
  maker : string;
  nonce : Z;
  fee_rate_bps : Z;
  signature_type : Z;
  order_type : string;
  maker_amount : string;
  taker_amount : string;
  side_value : Z
}.

Definition USDC_DECIMALS : Z := 6.

Definition string_in (s : string) (l : list string) : bool :=
  existsb (String.eqb s) l.

(** [Order.__post_init__], run by [Order(...)] on the fields received. *)
Definition Order_post_init (o : OrderInit) : result Order :=
  let side := Py.upper (init_side o) in
  if negb (string_in side ["BUY"; "SELL"]) then Raise (Invalid_side side) else
  if negb (Py.lt_int 0 (init_price o) && Py.le_int (init_price o) 1)
  then Raise (Invalid_price (init_price o)) else
  if Py.le_int (init_size o) 0 then Raise (Invalid_size (init_size o)) else
  let nonce := match init_nonce o with None => 0 | Some n => n end in
  do price <- Py.round_ndigits (init_price o) 2 in
  let is_market_order := string_in (init_order_type o) ["FOK"; "FAK"] in
  do amounts <-
    (if String.eqb side "BUY" then
       if is_market_order then
         do shares_amount <- Py.round_ndigits (init_size o) 4 in
         do usdc_amount <- Py.round_ndigits (PyFloat.fmul shares_amount price) 2 in
         do mk <- Py.round_int (Py.mul_int usdc_amount (10 ^ 2)) in
         do tk <- Py.round_int (Py.mul_int shares_amount (10 ^ 4)) in
         Ok (Py.str (mk * 10 ^ 4), Py.str (tk * 10 ^ 2))
       else
         do shares_amount <- Py.round_ndigits (init_size o) 2 in
         do usdc_amount <- Py.round_ndigits (PyFloat.fmul shares_amount price) 4 in
         do mk <- Py.round_int (Py.mul_int usdc_amount (10 ^ 4)) in
         do tk <- Py.round_int (Py.mul_int shares_amount (10 ^ 2)) in
         Ok (Py.str (mk * 10 ^ 2), Py.str (tk * 10 ^ 4))
     else
       do shares_amount <- Py.round_ndigits (init_size o) 2 in
       do usdc_amount <- Py.round_ndigits (PyFloat.fmul shares_amount price) 4 in
       do mk <- Py.round_int (Py.mul_int shares_amount (10 ^ 2)) in
       do tk <- Py.round_int (Py.mul_int usdc_amount (10 ^ 4)) in
       Ok (Py.str (mk * 10 ^ 4), Py.str (tk * 10 ^ 2))) in
  Ok {| token_id := init_token_id o;
        price := price;
        size := init_size o;
        side := side;
        maker := init_maker o;
        nonce := nonce;
        fee_rate_bps := init_fee_rate_bps o;
        signature_type := init_signature_type o;
        order_type := init_order_type o;
        maker_amount := fst amounts;
        taker_amount := snd amounts;
        side_value := if String.eqb side "BUY" then 0 else 1 |}.

(** ** The precision table of the specification *)

(** Section 4.1 of the specification, in its own words: a table of decimal
    ceilings by (side, order class) and one algorithm over it. It is what
    [Order_post_init] is compared with. *)
Module Spec.
Import PyFloat.

Inductive order_class : Type := LIMIT | MARKET.
Inductive order_side : Type := BUY | SELL.

Definition class_of_order_type (ot : string) : option order_class :=
  if String.eqb ot "GTC" || String.eqb ot "GTD" then Some LIMIT
  else if String.eqb ot "FOK" || String.eqb ot "FAK" then Some MARKET
  else None.

Definition side_of_string (s : string) : option order_side :=
  if String.eqb s "BUY" then Some BUY
  else if String.eqb s "SELL" then Some SELL
  else None.

Definition shares_decimals (sd : order_side) (c : order_class) : Z :=
  match sd, c with
  | BUY, LIMIT => 2
  | BUY, MARKET => 4
  | SELL, _ => 2
  end.

Definition quote_decimals (sd : order_side) (c : order_class) : Z :=
  match sd, c with
  | BUY, LIMIT => 4
  | BUY, MARKET => 2
  | SELL, _ => 4
  end.

Definition side_code (sd : order_side) : Z :=
  match sd with BUY => 0 | SELL => 1 end.

(** [round(value * 10^d) * 10^(6-d)] *)
Definition base_units (value : float) (d : Z) : result Z :=
  do k <- Py.round_int (Py.mul_int value (10 ^ d)) in
  Ok (k * 10 ^ (6 - d)).

Record NormalizedAmounts : Type := mkNormalized {
  norm_price : float;
  norm_maker_amount : Z;
  norm_taker_amount : Z;
  norm_side_code : Z
}.

Definition normalize (c : order_class) (sd : order_side) (price size : float)
  : result NormalizedAmounts :=
  do p <- Py.round_ndigits price 2 in
  do shares <- Py.round_ndigits size (shares_decimals sd c) in
  do quote <- Py.round_ndigits (fmul shares p) (quote_decimals sd c) in
  let legs :=
    match sd with
    | BUY => ((quote, quote_decimals sd c), (shares, shares_decimals sd c))
    | SELL => ((shares, shares_decimals sd c), (quote, quote_decimals sd c))
    end in
  do mk <- base_units (fst (fst legs)) (snd (fst legs)) in
  do tk <- base_units (fst (snd legs)) (snd (snd legs)) in
  Ok (mkNormalized p mk tk (side_code sd)).

End Spec.

(** ** Values of Python dicts *)

Inductive pyval : Type :=
| PyInt (z : Z)
| PyStr (s : string).

(** [str(v)] *)
Definition str_value (v : pyval) : pyval :=
  match v with
  | PyInt z => PyStr (Py.str z)
  | PyStr s => PyStr s
  end.

(** [d[k]] *)
Definition getitem (d : gmap string pyval) (k : string) : result pyval :=
  match d !! k with
  | Some v => Ok v
  | None => Raise (Key_error k)
  end.

(** ** eth_account, eth_utils and random, as signer.py uses them *)

Class Backend : Type := {
  LocalAccount : Type;
  SignableMessage : Type;
  RandomState : Type;
  (** [Account.from_key(key)] *)
  from_key : string -> result LocalAccount;
  (** [account.address] *)
  account_address : LocalAccount -> string;
  (** hex digest of the Keccak-256 hash of a text *)
  keccak_hex : string -> string;
  (** [encode_typed_data(domain_data, message_types, message_data)] *)
  encode_typed_data :
    gmap string pyval -> list (string * string) -> gmap string pyval ->
    result SignableMessage;
  (** [account.sign_message(signable).signature.hex()] *)
  sign_message_hex : LocalAccount -> SignableMessage -> result string;
  (** [random.Random._randbelow(n)]: a draw from [0, n) *)
  randbelow : Z -> RandomState -> Z * RandomState;
  randbelow_range : forall n g, 0 < n -> 0 <= fst (randbelow n g) < n
}.

Module Eth.

Definition is_hex_digit (c : ascii) : bool :=
  let n := Z.of_N (N_of_ascii c) in
  ((48 <=? n) && (n <=? 57)) || ((97 <=? n) && (n <=? 102))
  || ((65 <=? n) && (n <=? 70)).

Definition hex_val (c : ascii) : Z :=
  let n := Z.of_N (N_of_ascii c) in
  if (48 <=? n) && (n <=? 57) then n - 48
  else if (97 <=? n) && (n <=? 102) then n - 87
  else if (65 <=? n) && (n <=? 70) then n - 55
  else 0.

Fixpoint all_hex (s : string) : bool :=
  match s with
  | EmptyString => true
  | String c s' => is_hex_digit c && all_hex s'
  end.

Definition ZERO_ADDRESS : string :=
  "0x0000000000000000000000000000000000000000".

(** [eth_utils.to_normalized_address]: lower case, "0x" added when absent;
    anything but 40 hex digits is refused. *)
Definition to_normalized_address (value : string) : result string :=
  let v := Py.lower value in
  let body := if Py.startswith v "0x" then Py.drop 2 v else v in
  if (String.length body =? 40)%nat && all_hex body
  then Ok ("0x" +:+ body)
  else Raise (Library_error "Unknown format, attempted to normalize to address").

(** Upper-case the i-th digit when the i-th nibble of the hash exceeds 7. *)
Fixpoint checksum_case (body hash : string) : string :=
  match body with
  | EmptyString => EmptyString
  | String c body' =>
      match hash with
      | String h hash' =>
          String (if 7 <? hex_val h then Py.upper_char c else c)
                 (checksum_case body' hash')
      | EmptyString => body
      end
  end.

Section WithBackend.
Context `{Backend}.

(** [eth_utils.to_checksum_address] (EIP-55) *)
Definition to_checksum_address (value : string) : result string :=
  do norm <- to_normalized_address value in
  let body := Py.drop 2 norm in
  Ok ("0x" +:+ checksum_case body (keccak_hex body)).

(** [random.randint(a, b)] *)
Definition randint (a b : Z) (g : RandomState) : Z * RandomState :=
  let (r, g') := randbelow (b - a + 1) g in (a + r, g').

End WithBackend.
End Eth.

(** ** OrderSigner *)

Section Signer.
Context `{Backend}.

Record OrderSigner : Type := mkOrderSigner {
  wallet : LocalAccount;
  address : string
}.

Definition AUTH_DOMAIN : gmap string pyval :=
  {[ "name" := PyStr "ClobAuthDomain";
     "version" := PyStr "1";
     "chainId" := PyInt 137 ]}.

Definition ORDER_DOMAIN : gmap string pyval :=
  {[ "name" := PyStr "Polymarket CTF Exchange";
     "version" := PyStr "1";
     "chainId" := PyInt 137;
     "verifyingContract" := PyStr "0x4bFb41d5B3570DeFd03C39a9A4D8dE6Bd8B8982E" ]}.

(** [ORDER_TYPES["Order"]]: (name, type) in the order of the type hash. *)
Definition ORDER_TYPES : list (string * string) :=
  [ ("salt", "uint256"); ("maker", "address"); ("signer", "address");
    ("taker", "address"); ("tokenId", "uint256"); ("makerAmount", "uint256");
    ("takerAmount", "uint256"); ("expiration", "uint256"); ("nonce", "uint256");
    ("feeRateBps", "uint256"); ("side", "uint8"); ("signatureType", "uint8") ].

(** [OrderSigner.__init__] *)
Definition OrderSigner_init (private_key : string) : result OrderSigner :=
  let private_key :=
    if Py.startswith private_key "0x" then Py.drop 2 private_key
    else private_key in
  do w <- reraise Invalid_private_key (from_key ("0x" +:+ private_key)) in
  Ok {| wallet := w; address := account_address w |}.

(** The dict [order_message] that [sign_order] hashes and signs. *)
Definition build_order_message (self : OrderSigner) (order : Order) (salt : Z)
  : result (gmap string pyval) :=
  do mk <- Eth.to_checksum_address (maker order) in
  do sg <- Eth.to_checksum_address (address self) in
  do tk <- Eth.to_checksum_address Eth.ZERO_ADDRESS in
  do tokenId <- Py.int (token_id order) in
  do makerAmount <- Py.int (maker_amount order) in
  do takerAmount <- Py.int (taker_amount order) in
  Ok ({[ "salt" := PyInt salt;
         "maker" := PyStr mk;
         "signer" := PyStr sg;
         "taker" := PyStr tk;
         "tokenId" := PyInt tokenId;
         "makerAmount" := PyInt makerAmount;
         "takerAmount" := PyInt takerAmount;
         "expiration" := PyInt 0;
         "nonce" := PyInt (nonce order);
         "feeRateBps" := PyInt (fee_rate_bps order);
         "side" := PyInt (side_value order);
         "signatureType" := PyInt (signature_type order) ]} : gmap string pyval).

(** The dict [sign_order] returns under the key "order", read back from
    [order_message] entry by entry. *)
Definition order_payload (order : Order) (msg : gmap string pyval)
  (signature : string) : result (gmap string pyval) :=
  do salt <- getitem msg "salt" in
  do maker <- getitem msg "maker" in
  do signer <- getitem msg "signer" in
  do taker <- getitem msg "taker" in
  do tokenId <- getitem msg "tokenId" in
  do makerAmount <- getitem msg "makerAmount" in
  do takerAmount <- getitem msg "takerAmount" in
  do expiration <- getitem msg "expiration" in
  do nonce <- getitem msg "nonce" in
  do feeRateBps <- getitem msg "feeRateBps" in
  do signatureType <- getitem msg "signatureType" in
  Ok ({[ "salt" := salt;
         "maker" := maker;
         "signer" := signer;
         "taker" := taker;
         "tokenId" := str_value tokenId;
         "makerAmount" := str_value makerAmount;
         "takerAmount" := str_value takerAmount;
         "expiration" := str_value expiration;
         "nonce" := str_value nonce;
         "feeRateBps" := str_value feeRateBps;
         "side" := PyStr (side order);
         "signatureType" := signatureType;
         "signature" := PyStr ("0x" +:+ signature) ]} : gmap string pyval).

(** [OrderSigner.sign_order]: the draw of the salt advances the random
    state whether or not the rest succeeds. *)
Definition sign_order (self : OrderSigner) (order : Order) (g : RandomState)
  : result (gmap string (gmap string pyval)) * RandomState :=
  let (salt, g') := Eth.randint 1 (2 ^ 40 - 1) g in
  (reraise Failed_to_sign
     (do order_message <- build_order_message self order salt in
      do signable <- encode_typed_data ORDER_DOMAIN ORDER_TYPES order_message in
      do signature <- sign_message_hex (wallet self) signable in
      do body <- order_payload order order_message signature in
      Ok ({[ "order" := body ]} : gmap string (gmap string pyval))),
   g').

(** [OrderSigner.sign_order_dict]: [Order(...)] is built with the
    dataclass defaults [signature_type=2] and [order_type="GTC"]. *)
Definition sign_order_dict (self : OrderSigner)
  (token_id : string) (price size : PyFloat.float) (side maker : string)
  (nonce : option Z) (fee_rate_bps : Z) (g : RandomState)
  : result (gmap string (gmap string pyval)) * RandomState :=
  match Order_post_init
          {| init_token_id := token_id;
             init_price := price;
             init_size := size;
             init_side := side;
             init_maker := maker;
             init_nonce := nonce;
             init_fee_rate_bps := fee_rate_bps;
             init_signature_type := 2;
             init_order_type := "GTC" |} with
  | Ok order => sign_order self order g
  | Raise e => (Raise e, g)
  end.

End Signer.

(** ** Valid inputs *)

(** [price] in (0, 1] and [size > 0], as Python compares floats with ints. *)
Definition price_in_range (p : PyFloat.float) : Prop :=
  Py.lt_int 0 p = true /\ Py.le_int p 1 = true.

Definition size_positive (s : PyFloat.float) : Prop :=
  Py.lt_int 0 s = true.

(** The decimal ceiling of each leg, by the position it ends up in. *)
Definition maker_decimals (sd : Spec.order_side) (c : Spec.order_class) : Z :=
  match sd with
  | Spec.BUY => Spec.quote_decimals sd c
  | Spec.SELL => Spec.shares_decimals sd c
  end.

Definition taker_decimals (sd : Spec.order_side) (c : Spec.order_class) : Z :=
  match sd with
  | Spec.BUY => Spec.shares_decimals sd c
  | Spec.SELL => Spec.quote_decimals sd c
  end.

(** The object [Order(...)] yields when normalisation gives [n]. *)
Definition order_of (o : OrderInit) (n : Spec.NormalizedAmounts) : Order :=
  {| token_id := init_token_id o;
     price := Spec.norm_price n;
     size := init_size o;
     side := Py.upper (init_side o);
     maker := init_maker o;
     nonce := match init_nonce o with None => 0 | Some v => v end;
     fee_rate_bps := init_fee_rate_bps o;
     signature_type := init_signature_type o;
     order_type := init_order_type o;
     maker_amount := Py.str (Spec.norm_maker_amount n);
     taker_amount := Py.str (Spec.norm_taker_amount n);
     side_value := Spec.norm_side_code n |}.

(** ** The orders of test_decimal_precision.py *)

Definition test_maker : string := "0x81E16FFAED0357FCB6514F5F59B961Bbf29152a5".

(** LIMIT BUY, price 0.70, size 1.47 *)
Definition limit_order : OrderInit :=
  {| init_token_id :=
       "17677295341284404301684190429353870897397456800894496393305525348207706127476";
     init_price := PyFloat.of_decimal false 70 2;
     init_size := PyFloat.of_decimal false 147 2;
     init_side := "BUY";
     init_maker := test_maker;
     init_nonce := None;
     init_fee_rate_bps := 1000;
     init_signature_type := 1;
     init_order_type := "GTC" |}.

(** MARKET (FOK) BUY, price 0.61, size 1.68 *)
Definition market_buy : OrderInit :=
  {| init_token_id :=
       "76997023535667477195165391948542290629515300652387516563120146046953694422176";
     init_price := PyFloat.of_decimal false 61 2;
     init_size := PyFloat.of_decimal false 168 2;
     init_side := "BUY";
     init_maker := test_maker;
     init_nonce := None;
     init_fee_rate_bps := 1000;
     init_signature_type := 1;
     init_order_type := "FOK" |}.

(** MARKET (FOK) SELL, price 0.11, size 5.5556 *)
Definition market_sell : OrderInit :=
  {| init_token_id :=
       "90278214017514619867617721590099295713109600573292137004415444312307556372916";
     init_price := PyFloat.of_decimal false 11 2;
     init_size := PyFloat.of_decimal false 55556 4;
     init_side := "SELL";
     init_maker := test_maker;
     init_nonce := None;
     init_fee_rate_bps := 1000;
     init_signature_type := 1;
     init_order_type := "FOK" |}.

(** ** A test double for the libraries *)

(** Keys are kept as they come, the address is the last 40 digits of the
    key, the hash is the identity, signing yields a fixed signature and the
    random state is a counter. *)
Definition test_backend : Backend :=
  {| LocalAccount := string;
     SignableMessage := gmap string pyval;
     RandomState := Z;
     from_key := fun k =>
       if Py.startswith k "0x" && (String.length k =? 66)%nat
          && Eth.all_hex (Py.drop 2 k)
       then Ok k else Raise (Library_error "invalid key");
     account_address := fun k => "0x" +:+ Py.drop 26 (Py.lower k);
     keccak_hex := fun s => s;
     encode_typed_data := fun _ _ m => Ok m;
     sign_message_hex := fun _ _ => Ok "1b";
     randbelow := fun n g => (g mod n, g + 1);
     randbelow_range := fun n g Hn => Z.mod_pos_bound g n Hn |}.

Definition test_key : string :=
  "00000000000000000000000000000000000000000000000000000000000000ab".

(** A 64-digit hexadecimal key, without prefix. *)
Definition is_hex_key (k : string) : Prop :=
  String.length k = 64%nat /\ Eth.all_hex k = true.

(** Characters that [upper] leaves alone. *)
Fixpoint caseless (s : string) : bool :=
  match s with
  | EmptyString => true
  | String c s' => Ascii.eqb (Py.upper_char c) c && caseless s'
  end.

(** The signer built from [test_key], the order of the first test, and
    the payload that signing it yields when the random state is 41. *)
Definition test_signer : @OrderSigner test_backend :=
  @mkOrderSigner test_backend
    ("0x" +:+ test_key : string)
    "0x00000000000000000000000000000000000000ab".

Definition test_order : Order :=
  order_of limit_order
    (Spec.mkNormalized (PyFloat.of_decimal false 70 2) 1029000 1470000 0).

Definition test_payload : gmap string (gmap string pyval) :=
  {[ "order" :=
         {[ "salt" := PyInt 42;
            "maker" := PyStr "0x81E16FFAED0357FCB6514F5F59B961BBF29152A5";
            "signer" := PyStr "0x00000000000000000000000000000000000000AB";
            "taker" := PyStr "0x0000000000000000000000000000000000000000";
            "tokenId" := PyStr (init_token_id limit_order);
            "makerAmount" := PyStr "1029000";
            "takerAmount" := PyStr "1470000";
            "expiration" := PyStr "0";
            "nonce" := PyStr "0";
            "feeRateBps" := PyStr "1000";
            "side" := PyStr "BUY";
            "signatureType" := PyInt 1;
            "signature" := PyStr "0x1b" ]} ]}.

(** The payload of [sign_order_dict] on the same intent: signatureType 2. *)
Definition test_dict_payload : gmap string (gmap string pyval) :=
  {[ "order" :=
         {[ "salt" := PyInt 42;
            "maker" := PyStr "0x81E16FFAED0357FCB6514F5F59B961BBF29152A5";
            "signer" := PyStr "0x00000000000000000000000000000000000000AB";
            "taker" := PyStr "0x0000000000000000000000000000000000000000";
            "tokenId" := PyStr (init_token_id limit_order);
            "makerAmount" := PyStr "1029000";
            "takerAmount" := PyStr "1470000";
            "expiration" := PyStr "0";
            "nonce" := PyStr "0";
            "feeRateBps" := PyStr "1000";
            "side" := PyStr "BUY";
            "signatureType" := PyInt 2;
            "signature" := PyStr "0x1b" ]} ]}.

(** ** Orders at the edges of the domain *)

Definition order_with (price size : PyFloat.float) (side order_type : string)
  : OrderInit :=
  {| init_token_id := "1";
     init_price := price;
     init_size := size;
     init_side := side;
     init_maker := test_maker;
     init_nonce := None;
     init_fee_rate_bps := 0;
     init_signature_type := 2;
     init_order_type := order_type |}.


(** LIMIT BUY of 1e80 shares at 0.5 *)
Definition huge_limit_buy : OrderInit :=
  order_with (PyFloat.of_decimal false 5 1) (PyFloat.of_Z (10 ^ 80))
    "BUY" "GTC".

(** LIMIT BUY of 1e305 shares at 0.5 *)
Definition overflowing_limit_buy : OrderInit :=
  order_with (PyFloat.of_decimal false 5 1) (PyFloat.of_Z (10 ^ 305))
    "BUY" "GTC".

(** LIMIT BUY at 1.0 of 4722366482869645 * 2^184 shares (1.15792e71):
    the last double below 2^256 / 10^6 *)
Definition threshold_limit_buy : OrderInit :=
  order_with (PyFloat.of_Z 1) (PyFloat.of_Z (4722366482869645 * 2 ^ 184))
    "BUY" "GTC".

(** LIMIT BUY of 1e70 shares at 0.5 *)
Definition wide_limit_buy : OrderInit :=
  order_with (PyFloat.of_decimal false 5 1) (PyFloat.of_Z (10 ^ 70))
    "BUY" "GTC".

(** LIMIT BUY of a NaN size at 0.5 *)
Definition nan_limit_buy : OrderInit :=
  order_with (PyFloat.of_decimal false 5 1) S754_nan "BUY" "GTC".

(** ** Reading the rounding of [SpecFloat] *)

Module Rounding.
Import PyFloat.

(** A shift record [mrs] holds the integer part, the half bit and the
    sticky bit of the rational [N / D]. *)
Definition located (mrs : shr_record) (N D : Z) : Prop :=
  shr_m mrs = N / D /\
  shr_r mrs = (D <=? 2 * (N mod D)) /\
  shr_s mrs = negb (2 * (N mod D) mod D =? 0).

(** The unit roundoff of binary64. *)
Definition eps : Q := 1 # 9007199254740992.

(** Mantissas of normal doubles. *)
Definition normal (m : positive) : Prop := 2 ^ 52 <= Zpos m < 2 ^ 53.

(** [x] is +0.0 and [q] is 0, or [x] is a positive normal double with its
    exponent in [lo, hi] and its value within [u] of [q], relatively. *)
Definition approx (x : float) (q u : Q) (lo hi : Z) : Prop :=
  match x with
  | S754_zero false => (q == 0)%Q
  | S754_finite false m e =>
      normal m /\ lo <= e <= hi /\
      (0 < q /\ q * (1 - u) <= to_Q x <= q * (1 + u))%Q
  | _ => False
  end.

(** Not below zero: a zero, a positive finite value, +infinity, or NaN
    (which no comparison puts below zero). *)
Definition not_negative (x : float) : Prop :=
  match x with
  | S754_finite s _ _ | S754_infinity s => s = false
  | _ => True
  end.

(** The double nearest to [K / 10^n], for [0 <= K]. *)
Definition dec (K : Z) (n : Z) : float :=
  match K with
  | Zpos k => of_decimal false k n
  | _ => S754_zero false
  end.

(** [round(x * 10^n)] for a finite [x] (0 for the others): the number of
    units of [10^-n] nearest to [x]. *)
Definition units (x : float) (n : Z) : Z :=
  match x with
  | S754_finite s m e => if s then - scaled_rhe m e n else scaled_rhe m e n
  | _ => 0
  end.

End Rounding.


(** * The API clients (src/client.py) and the callers of the signer

    - A JSON value is a tree; a JSON object keeps the order of insertion of
      its keys, as a Python dict does and as [json.dumps] prints it, so it
      is an association list. Headers and query parameters, whose order
      never shows, are [gmap]s.
    - The network, the clock, [hmac]/[hashlib] and [json.dumps] are an
      interface ([Services]). What a request is answered, and what the
      clock reads, may depend on everything that happened before: the
      requests sent, the pauses made and the clock readings taken, kept as
      a trace.
    - src/config.py is not among the sources: a [BuilderConfig] is what
      client.py reads of it. *)

(** ** More of the Python built-ins *)

Module PyStr.

(** [s.lstrip(c)] for a one-character [c] *)
Fixpoint lstrip_char (c : ascii) (s : string) : string :=
  match s with
  | String a s' => if Ascii.eqb a c then lstrip_char c s' else s
  | EmptyString => EmptyString
  end.

(** [s.rstrip(c)] for a one-character [c] *)
Fixpoint rstrip_char (c : ascii) (s : string) : string :=
  match s with
  | String a s' =>
      match rstrip_char c s' with
      | EmptyString =>
          if Ascii.eqb a c then EmptyString else String a EmptyString
      | r => String a r
      end
  | EmptyString => EmptyString
  end.

(** [s.endswith(c)] for a one-character [c] *)
Fixpoint ends_with_char (c : ascii) (s : string) : bool :=
  match s with
  | EmptyString => false
  | String a EmptyString => Ascii.eqb a c
  | String _ s' => ends_with_char c s'
  end.

(** [bool(s)] *)
Definition nonempty (s : string) : bool :=
  match s with
  | EmptyString => false
  | String _ _ => true
  end.

End PyStr.

(** The dataclass fields of a built order [ord]: what [Order(...)]
    receives when the order is built again from them, as
    [dataclasses.replace(ord)] does. *)
Definition fields_of (ord : Order) : OrderInit :=
  {| init_token_id := token_id ord;
     init_price := price ord;
     init_size := size ord;
     init_side := side ord;
     init_maker := maker ord;
     init_nonce := Some (nonce ord);
     init_fee_rate_bps := fee_rate_bps ord;
     init_signature_type := signature_type ord;
     init_order_type := order_type ord |}.

(** The same intent with another side or another order type. *)
Definition with_side (o : OrderInit) (s : string) : OrderInit :=
  {| init_token_id := init_token_id o;
     init_price := init_price o;
     init_size := init_size o;
     init_side := s;
     init_maker := init_maker o;
     init_nonce := init_nonce o;
     init_fee_rate_bps := init_fee_rate_bps o;
     init_signature_type := init_signature_type o;
     init_order_type := init_order_type o |}.

Definition with_order_type (o : OrderInit) (t : string) : OrderInit :=
  {| init_token_id := init_token_id o;
     init_price := init_price o;
     init_size := init_size o;
     init_side := init_side o;
     init_maker := init_maker o;
     init_nonce := init_nonce o;
     init_fee_rate_bps := init_fee_rate_bps o;
     init_signature_type := init_signature_type o;
     init_order_type := t |}.

(** A built order with another [order_type] field. *)
Definition retyped (ord : Order) (t : string) : Order :=
  {| token_id := token_id ord;
     price := price ord;
     size := size ord;
     side := side ord;
     maker := maker ord;
     nonce := nonce ord;
     fee_rate_bps := fee_rate_bps ord;
     signature_type := signature_type ord;
     order_type := t;
     maker_amount := maker_amount ord;
     taker_amount := taker_amount ord;
     side_value := side_value ord |}.

(** The result of [Order(...)] with the [order_type] field of the order
    replaced. *)
Definition retyped_result (t : string) (r : result Order) : result Order :=
  match r with
  | Ok ord => Ok (retyped ord t)
  | Raise e => Raise e
  end.

(** The same float, bit for bit. *)
Definition float_same (x y : PyFloat.float) : bool :=
  match x, y with
  | S754_zero s, S754_zero s' => Bool.eqb s s'
  | S754_infinity s, S754_infinity s' => Bool.eqb s s'
  | S754_nan, S754_nan => true
  | S754_finite s m e, S754_finite s' m' e' =>
      Bool.eqb s s' && (m =? m')%positive && (e =? e')
  | _, _ => false
  end.

(** A number of cents [P] whose double passes the price check and is left
    alone by [round(price, 2)]. *)
Definition tick_is_stable (P : Z) : bool :=
  let p := Rounding.dec P 2 in
  Py.lt_int 0 p && Py.le_int p 1 &&
  match Py.round_ndigits p 2 with
  | Ok r => float_same r p
  | Raise _ => false
  end.

(** The leg of a built order that holds the shares, and the one that holds
    the quote asset. *)
Definition shares_leg (sd : Spec.order_side) (ord : Order) : string :=
  match sd with
  | Spec.BUY => taker_amount ord
  | Spec.SELL => maker_amount ord
  end.

Definition quote_leg (sd : Spec.order_side) (ord : Order) : string :=
  match sd with
  | Spec.BUY => maker_amount ord
  | Spec.SELL => taker_amount ord
  end.

(** LIMIT BUY of 2.5 shares at 0.75 *)
Definition larger_limit_order : OrderInit :=
  order_with (PyFloat.of_decimal false 75 2) (PyFloat.of_decimal false 25 1)
    "BUY" "GTC".

(** SELL of 0.004 share at 0.5 *)
Definition dust_sell : OrderInit :=
  order_with (PyFloat.of_decimal false 5 1) (PyFloat.of_decimal false 4 3)
    "SELL" "GTC".

(** BUY of 5 shares at 0.004, of type FOK *)
Definition sub_tick_buy : OrderInit :=
  order_with (PyFloat.of_decimal false 4 3) (PyFloat.of_Z 5) "BUY" "FOK".

(** The first test order with a maker that is no address, what is built
    from it, and the error of eth_utils on that maker. *)
Definition order_of_nobody : OrderInit :=
  {| init_token_id := init_token_id limit_order;
     init_price := init_price limit_order;
     init_size := init_size limit_order;
     init_side := "BUY";
     init_maker := "nobody";
     init_nonce := None;
     init_fee_rate_bps := 1000;
     init_signature_type := 1;
     init_order_type := "GTC" |}.

Definition nobody_order : Order :=
  order_of order_of_nobody
    (Spec.mkNormalized (PyFloat.of_decimal false 70 2) 1029000 1470000 0).

Definition not_an_address : exn :=
  Library_error "Unknown format, attempted to normalize to address".

(** ** JSON values *)

Local Set Warnings "-register-all".

Inductive json : Type :=
| JNull
| JBool (b : bool)
| JInt (z : Z)
| JFloat (x : PyFloat.float)
| JStr (s : string)
| JList (l : list json)
| JDict (d : list (string * json)).

(** A Python dict with string keys: the keys are distinct and stay in the
    order of their first insertion. *)
Abbreviation pydict := (list (string * json)).

Module Dict.

(** [d.get(k)] *)
Fixpoint get (d : pydict) (k : string) : option json :=
  match d with
  | [] => None
  | (k', v) :: d' => if String.eqb k' k then Some v else get d' k
  end.

(** [d[k] = v] *)
Fixpoint set (d : pydict) (k : string) (v : json) : pydict :=
  match d with
  | [] => [(k, v)]
  | (k', v') :: d' =>
      if String.eqb k' k then (k', v) :: d' else (k', v') :: set d' k v
  end.

Definition keys (d : pydict) : list string := map fst d.

End Dict.

(** [bool(v)] *)
Definition truthy (v : json) : bool :=
  match v with
  | JNull => false
  | JBool b => b
  | JInt z => negb (z =? 0)
  | JFloat (S754_zero _) => false
  | JFloat _ => true
  | JStr s => PyStr.nonempty s
  | JList [] => false
  | JList _ => true
  | JDict [] => false
  | JDict _ => true
  end.

(** The value a [sign_order] payload holds under each key, and the payload
    as the dict literal of [sign_order] builds it, key after key. *)
Definition json_of_pyval (v : pyval) : json :=
  match v with
  | PyInt z => JInt z
  | PyStr s => JStr s
  end.

Definition ORDER_PAYLOAD_KEYS : list string :=
  [ "salt"; "maker"; "signer"; "taker"; "tokenId"; "makerAmount";
    "takerAmount"; "expiration"; "nonce"; "feeRateBps"; "side";
    "signatureType"; "signature" ].

Definition json_of_payload (payload : gmap string (gmap string pyval))
  : pydict :=
  match payload !! "order" with
  | Some body =>
      [("order",
        JDict (omap (fun k => (fun v => (k, json_of_pyval v)) <$> body !! k)
                 ORDER_PAYLOAD_KEYS))]
  | None => []
  end.

(** ** The world outside: network, clock, hashing *)

(** A call of [session.get], [session.post] or [session.delete]. *)
Record Request : Type := mkRequest {
  req_verb : string;
  req_url : string;
  req_headers : gmap string string;
  req_params : option (gmap string string);
  req_json : option pydict;
  req_timeout : Z
}.

Inductive event : Type :=
| Sent (r : Request)       (* a request left through the session *)
| Slept (seconds : Z)      (* time.sleep(seconds) *)
| Clock_read.              (* time.time() *)

Definition World : Type := list event.

(** The pauses of a trace, in seconds, and its requests. *)
Definition seconds_slept (w : World) : Z :=
  fold_right (fun e acc => match e with Slept s => s + acc | _ => acc end) 0 w.

Definition requests_sent (w : World) : list Request :=
  omap (fun e => match e with Sent r => Some r | _ => None end) w.

(** [k] attempts in a row with the same request, the first one numbered
    [attempt]: between two attempts a pause of 2^attempt seconds, none
    after the last. *)
Fixpoint backoff_trace (r : Request) (k : nat) (attempt : Z) : list event :=
  match k with
  | O => []
  | S k' =>
      Sent r ::
      match k' with
      | O => []
      | S _ => Slept (2 ^ attempt) :: backoff_trace r k' (attempt + 1)
      end
  end.

(** [i] failed attempts, each one followed by its pause. *)
Fixpoint failed_attempts (r : Request) (i : nat) (attempt : Z) : list event :=
  match i with
  | O => []
  | S i' =>
      Sent r :: Slept (2 ^ attempt) :: failed_attempts r i' (attempt + 1)
  end.

(** The seconds that [k] attempts pause in all: 2^(k-1) - 1. *)
Definition backoff_seconds (k : nat) : Z :=
  match k with
  | O => 0
  | S j => 2 ^ Z.of_nat j - 1
  end.

(** Exceptions of the libraries: [requests.exceptions.RequestException]
    and its subclasses, and all the others. *)
Inductive lib_exn : Type :=
| Request_exception (what : string)
| Other_exception (what : string).

(** A [requests.Response], as [_request] reads it: what
    [raise_for_status()] raises (an [HTTPError], a [RequestException]),
    [text], and what [json()] returns or raises. *)
Record Response : Type := mkResponse {
  http_error : option string;
  text : string;
  json_value : lib_exn + json
}.

Inductive reply : Type :=
| Responded (r : Response)
| Send_raised (e : lib_exn).

Class Services : Type := {
  (** what the session answers to a request, after the trace so far *)
  session_send : World -> Request -> reply;
  (** [int(time.time())], after the trace so far *)
  clock_seconds : World -> Z;
  (** [hmac.new(key.encode(), msg.encode(), hashlib.sha256).hexdigest()] *)
  hmac_sha256_hex : string -> string -> string;
  (** [json.dumps(d, separators=(',', ':'))] *)
  json_dumps_compact : pydict -> string
}.

(** ** [OrderSigner.sign_auth_message] *)

Section AuthMessage.
Context `{Backend} `{Services}.

(** [auth_types["ClobAuth"]]: (name, type) in the order of the type hash. *)
Definition AUTH_TYPES : list (string * string) :=
  [ ("address", "address"); ("timestamp", "string"); ("nonce", "uint256");
    ("message", "string") ].

(** The dict [message_data] of [sign_auth_message]. *)
Definition auth_message_data (self : OrderSigner) (timestamp : string)
  (nonce : Z) : gmap string pyval :=
  {[ "address" := PyStr (address self);
     "timestamp" := PyStr timestamp;
     "nonce" := PyInt nonce;
     "message" :=
       PyStr "This message attests that I control the given wallet" ]}.

(** [OrderSigner.sign_auth_message]: the clock is read when no timestamp
    is given; nothing is caught. *)
Definition sign_auth_message (self : OrderSigner) (timestamp : option string)
  (nonce : Z) (w : World) : result string * World :=
  let (timestamp, w) :=
    match timestamp with
    | None => (Py.str (clock_seconds w), (w ++ [Clock_read])%list)
    | Some t => (t, w)
    end in
  (do signable <-
     encode_typed_data AUTH_DOMAIN AUTH_TYPES
       (auth_message_data self timestamp nonce) in
   do signature <- sign_message_hex (wallet self) signable in
   Ok ("0x" +:+ signature),
   w).

End AuthMessage.

(** ** Exceptions and results of the clients *)

Inductive api_exn : Type :=
| Unsupported_method (method : string)
    (* ApiError("Unsupported method: ...") *)
| Request_failed (retry_count : Z) (last_error : option string)
    (* ApiError("Request failed after ... attempts: ...") *)
| Builder_credentials_required
    (* AuthenticationError("Builder credentials required for relayer") *)
| Uncaught (what : string).
    (* an exception of a library that is no RequestException *)

Inductive api_result (A : Type) : Type :=
| Return (a : A)
| Raises (e : api_exn).
Arguments Return {A} a.
Arguments Raises {A} e.

(** ** ApiCredentials *)

Module ApiCredentials.

Record t : Type := mk {
  api_key : json;
  secret : json;
  passphrase : json
}.

(** [ApiCredentials.load], from the dict [data] that [json.load(f)]
    returned: [data.get(key, "")] for each field. *)
Definition load (data : pydict) : t :=
  {| api_key := default (JStr "") (Dict.get data "apiKey");
     secret := default (JStr "") (Dict.get data "secret");
     passphrase := default (JStr "") (Dict.get data "passphrase") |}.

(** [bool(self.api_key and self.secret and self.passphrase)] *)
Definition is_valid (self : t) : bool :=
  truthy (if truthy (api_key self)
          then if truthy (secret self) then passphrase self else secret self
          else api_key self).

End ApiCredentials.

(** ** BuilderConfig, as client.py reads it *)

Module BuilderConfig.

(** [bool(creds)], [creds.is_configured()] and the three attributes. *)
Record t : Type := mk {
  as_bool : bool;
  is_configured : bool;
  api_key : string;
  api_secret : string;
  api_passphrase : string
}.

End BuilderConfig.

(** [creds and creds.is_configured()] on an optional [BuilderConfig]. *)
Definition builder_ready (creds : option BuilderConfig.t) : bool :=
  match creds with
  | Some c => BuilderConfig.as_bool c && BuilderConfig.is_configured c
  | None => false
  end.

Section BuilderAuthentication.
Context `{Services}.

(** The four headers of the Builder HMAC authentication; the clock is read
    once. *)
Definition builder_headers (c : BuilderConfig.t) (method path body : string)
  (w : World) : gmap string string * World :=
  let timestamp := Py.str (clock_seconds w) in
  let w := (w ++ [Clock_read])%list in
  let message := timestamp +:+ method +:+ path +:+ body in
  let signature := hmac_sha256_hex (BuilderConfig.api_secret c) message in
  ({[ "POLY_BUILDER_API_KEY" := BuilderConfig.api_key c;
      "POLY_BUILDER_TIMESTAMP" := timestamp;
      "POLY_BUILDER_PASSPHRASE" := BuilderConfig.api_passphrase c;
      "POLY_BUILDER_SIGNATURE" := signature ]}, w).

End BuilderAuthentication.

(** ** ApiClient *)

Module ApiClient.

Record t : Type := mk {
  base_url : string;
  timeout : Z;
  retry_count : Z
}.

(** [ApiClient.__init__] *)
Definition init (base_url : string) (timeout retry_count : Z) : t :=
  {| base_url := PyStr.rstrip_char "/" base_url;
     timeout := timeout;
     retry_count := retry_count |}.

(** The [try] body once the session has answered:
    [response.raise_for_status()], then
    [response.json() if response.text else {}]. *)
Definition read_reply (r : reply) : lib_exn + json :=
  match r with
  | Responded resp =>
      match http_error resp with
      | Some what => inl (Request_exception what)
      | None =>
          if PyStr.nonempty (text resp) then json_value resp
          else inr (JDict [])
      end
  | Send_raised e => inl e
  end.

(** The session call that the [if]/[elif] chain on [method.upper()]
    selects; none for another method. *)
Definition session_call (self : t) (method url : string)
  (request_headers : gmap string string) (data : option pydict)
  (params : option (gmap string string)) : option Request :=
  if String.eqb (Py.upper method) "GET" then
    Some (mkRequest "GET" url request_headers params None (timeout self))
  else if String.eqb (Py.upper method) "POST" then
    Some (mkRequest "POST" url request_headers params data (timeout self))
  else if String.eqb (Py.upper method) "DELETE" then
    Some (mkRequest "DELETE" url request_headers params data (timeout self))
  else None.

Section WithServices.
Context `{Services}.

(** The [for attempt in range(self.retry_count)] loop of [_request], over
    the attempts that remain. *)
Fixpoint attempts (self : t) (method url : string)
  (request_headers : gmap string string) (data : option pydict)
  (params : option (gmap string string))
  (remaining : list Z) (last_error : option string) (w : World)
  : api_result json * World :=
  match remaining with
  | [] => (Raises (Request_failed (retry_count self) last_error), w)
  | attempt :: remaining' =>
      match session_call self method url request_headers data params with
      | None => (Raises (Unsupported_method method), w)
      | Some r =>
          let answer := session_send w r in
          let w := (w ++ [Sent r])%list in
          match read_reply answer with
          | inr v => (Return v, w)
          | inl (Request_exception what) =>
              let w :=
                if attempt <? retry_count self - 1
                then (w ++ [Slept (2 ^ attempt)])%list else w in
              attempts self method url request_headers data params
                remaining' (Some what) w
          | inl (Other_exception what) => (Raises (Uncaught what), w)
          end
      end
  end.

End WithServices.

(** The URL and the headers of [_request]. *)
Definition url_of (self : t) (endpoint : string) : string :=
  base_url self +:+ "/" +:+ PyStr.lstrip_char "/" endpoint.

Definition headers_of (headers : option (gmap string string))
  : gmap string string :=
  let request_headers : gmap string string :=
    {[ "Content-Type" := "application/json" ]} in
  match headers with
  | Some h =>
      if bool_decide (h = ∅) then request_headers else h ∪ request_headers
  | None => request_headers
  end.

(** [ApiClient._request] *)
Definition request `{Services} (self : t) (method endpoint : string)
  (data : option pydict) (headers params : option (gmap string string))
  (w : World) : api_result json * World :=
  attempts self method (url_of self endpoint) (headers_of headers) data
    params (seqZ 0 (retry_count self)) None w.

(** The session call of [_request]. *)
Definition call_of (self : t) (method endpoint : string)
  (data : option pydict) (headers params : option (gmap string string))
  : option Request :=
  session_call self method (url_of self endpoint) (headers_of headers) data
    params.

End ApiClient.

(** What the loop of [_request] may end with when [len] attempts remained
    and [k] requests left: a value or an uncaught exception of an attempt,
    or, after all the attempts, the error of the loop. *)
Definition loop_outcome (self : ApiClient.t) (len k : nat)
  (res : api_result json) : Prop :=
  match res with
  | Return _ | Raises (Uncaught _) => True
  | Raises (Request_failed m _) => m = ApiClient.retry_count self /\ k = len
  | Raises _ => False
  end.

(** ** ClobClient *)

Module ClobClient.

Record t : Type := mk {
  api : ApiClient.t;
  host : string;
  chain_id : Z;
  signature_type : Z;
  funder : string;
  api_creds : option ApiCredentials.t;
  builder_creds : option BuilderConfig.t
}.

(** [ClobClient.__init__]: the base class is initialised with its default
    [retry_count], 3. *)
Definition init (host : string) (chain_id signature_type : Z)
  (funder : string) (api_creds : option ApiCredentials.t)
  (builder_creds : option BuilderConfig.t) (timeout : Z) : t :=
  {| api := ApiClient.init host timeout 3;
     host := host;
     chain_id := chain_id;
     signature_type := signature_type;
     funder := funder;
     api_creds := api_creds;
     builder_creds := builder_creds |}.

Section WithServices.
Context `{Services}.

(** [ClobClient._build_headers]: the branch of the user credentials is
    [pass]. *)
Definition build_headers (self : t) (method path body : string) (w : World)
  : gmap string string * World :=
  let headers : gmap string string := ∅ in
  let (headers, w) :=
    match builder_creds self with
    | Some c =>
        if BuilderConfig.as_bool c && BuilderConfig.is_configured c then
          let (added, w) := builder_headers c method path body w in
          (added ∪ headers, w)
        else (headers, w)
    | None => (headers, w)
    end in
  let headers :=
    match api_creds self with
    | Some c => if ApiCredentials.is_valid c then headers else headers
    | None => headers
    end in
  (headers, w).

(** [x or []] *)
Definition or_empty_list (r : api_result json) : api_result json :=
  match r with
  | Return v => Return (if truthy v then v else JList [])
  | Raises e => Raises e
  end.

Definition get_order_book (self : t) (token_id : string) (w : World)
  : api_result json * World :=
  ApiClient.request (api self) "GET" ("/orderbook/" +:+ token_id)
    None None None w.

Definition get_market_price (self : t) (token_id : string) (w : World)
  : api_result json * World :=
  ApiClient.request (api self) "GET" ("/price/" +:+ token_id)
    None None None w.

Definition get_open_orders (self : t) (w : World)
  : api_result json * World :=
  let endpoint := "/orders" in
  let params : gmap string string := {[ "maker" := funder self ]} in
  let (headers, w) := build_headers self "GET" endpoint "" w in
  let (r, w) :=
    ApiClient.request (api self) "GET" endpoint None (Some headers)
      (Some params) w in
  (or_empty_list r, w).

Definition get_order (self : t) (order_id : string) (w : World)
  : api_result json * World :=
  ApiClient.request (api self) "GET" ("/order/" +:+ order_id)
    None None None w.

Definition get_trades (self : t) (token_id : option string) (limit : Z)
  (w : World) : api_result json * World :=
  let endpoint := "/trades" in
  let params : gmap string string := {[ "limit" := Py.str limit ]} in
  let params :=
    match token_id with
    | Some tid =>
        if PyStr.nonempty tid then <[ "token_id" := tid ]> params else params
    | None => params
    end in
  let (headers, w) := build_headers self "GET" endpoint "" w in
  let (r, w) :=
    ApiClient.request (api self) "GET" endpoint None (Some headers)
      (Some params) w in
  (or_empty_list r, w).

(** The request body of [post_order]. *)
Definition order_body (self : t) (signed_order : pydict)
  (order_type : string) : pydict :=
  let body :=
    [ ("order", default (JDict signed_order) (Dict.get signed_order "order"));
      ("owner", JStr (funder self));
      ("orderType", JStr order_type) ] in
  match Dict.get signed_order "signature" with
  | Some s => Dict.set body "signature" s
  | None => body
  end.

Definition post_order (self : t) (signed_order : pydict)
  (order_type : string) (w : World) : api_result json * World :=
  let endpoint := "/order" in
  let body := order_body self signed_order order_type in
  let body_json := json_dumps_compact body in
  let (headers, w) := build_headers self "POST" endpoint body_json w in
  ApiClient.request (api self) "POST" endpoint (Some body) (Some headers)
    None w.

Definition cancel_order (self : t) (order_id : string) (w : World)
  : api_result json * World :=
  let endpoint := "/order/" +:+ order_id in
  let (headers, w) := build_headers self "DELETE" endpoint "" w in
  ApiClient.request (api self) "DELETE" endpoint None (Some headers) None w.

Definition cancel_all_orders (self : t) (token_id : option string)
  (w : World) : api_result json * World :=
  let endpoint := "/orders" in
  let params : gmap string string := ∅ in
  let params :=
    match token_id with
    | Some tid =>
        if PyStr.nonempty tid then <[ "token_id" := tid ]> params else params
    | None => params
    end in
  let body := [("maker", JStr (funder self))] in
  let body_json := json_dumps_compact body in
  let (headers, w) := build_headers self "DELETE" endpoint body_json w in
  ApiClient.request (api self) "DELETE" endpoint (Some body) (Some headers)
    (Some params) w.

End WithServices.
End ClobClient.

(** ** RelayerClient *)

Module RelayerClient.

Record t : Type := mk {
  api : ApiClient.t;
  chain_id : Z;
  builder_creds : option BuilderConfig.t;
  tx_type : string
}.

(** [RelayerClient.__init__] *)
Definition init (host : string) (chain_id : Z)
  (builder_creds : option BuilderConfig.t) (tx_type : string) (timeout : Z)
  : t :=
  {| api := ApiClient.init host timeout 3;
     chain_id := chain_id;
     builder_creds := builder_creds;
     tx_type := tx_type |}.

Section WithServices.
Context `{Services}.

(** [RelayerClient._build_headers] *)
Definition build_headers (self : t) (method path body : string) (w : World)
  : api_result (gmap string string) * World :=
  match builder_creds self with
  | Some c =>
      if negb (BuilderConfig.as_bool c) || negb (BuilderConfig.is_configured c)
      then (Raises Builder_credentials_required, w)
      else
        let (headers, w) := builder_headers c method path body w in
        (Return headers, w)
  | None => (Raises Builder_credentials_required, w)
  end.

(** The common end of the three operations: sign the compact JSON of the
    body, then POST the body. *)
Definition post (self : t) (endpoint : string) (body : pydict) (w : World)
  : api_result json * World :=
  let body_json := json_dumps_compact body in
  match build_headers self "POST" endpoint body_json w with
  | (Return headers, w) =>
      ApiClient.request (api self) "POST" endpoint (Some body)
        (Some headers) None w
  | (Raises e, w) => (Raises e, w)
  end.

Definition deploy_safe (self : t) (safe_address : string) (w : World)
  : api_result json * World :=
  post self "/deploy" [("safeAddress", JStr safe_address)] w.

Definition approve_usdc (self : t) (safe_address spender : string)
  (amount : Z) (w : World) : api_result json * World :=
  post self "/approve-usdc"
    [ ("safeAddress", JStr safe_address);
      ("spender", JStr spender);
      ("amount", JStr (Py.str amount)) ] w.

Definition approve_token (self : t) (safe_address token_id spender : string)
  (amount : Z) (w : World) : api_result json * World :=
  post self "/approve-token"
    [ ("safeAddress", JStr safe_address);
      ("tokenId", JStr token_id);
      ("spender", JStr spender);
      ("amount", JStr (Py.str amount)) ] w.

End WithServices.
End RelayerClient.

(** A client with other user credentials. *)
Definition with_api_creds (self : ClobClient.t)
  (creds : option ApiCredentials.t) : ClobClient.t :=
  {| ClobClient.api := ClobClient.api self;
     ClobClient.host := ClobClient.host self;
     ClobClient.chain_id := ClobClient.chain_id self;
     ClobClient.signature_type := ClobClient.signature_type self;
     ClobClient.funder := ClobClient.funder self;
     ClobClient.api_creds := creds;
     ClobClient.builder_creds := ClobClient.builder_creds self |}.

(** ** A test double for the services *)

(** The first two requests time out and the third is answered with an
    empty list; the clock starts at 1700000000 and advances with the
    pauses. *)
Definition test_services : Services :=
  {| session_send := fun w r =>
       if (length (requests_sent w) <? 2)%nat
       then Send_raised (Request_exception "timed out")
       else Responded (mkResponse None "[]" (inr (JList [])));
     clock_seconds := fun w => 1700000000 + seconds_slept w;
     hmac_sha256_hex := fun key msg => key +:+ "/" +:+ msg;
     json_dumps_compact := fun d => String.concat "," (Dict.keys d) |}.

Definition test_client : ApiClient.t :=
  ApiClient.init "https://clob.polymarket.com/" 30 3.

Definition impatient_client : ApiClient.t :=
  ApiClient.init "https://clob.polymarket.com/" 30 2.

Definition price_request : Request :=
  mkRequest "GET" "https://clob.polymarket.com/price/1"
    {[ "Content-Type" := "application/json" ]} None None 30.

Definition test_builder : BuilderConfig.t :=
  BuilderConfig.mk true true "key" "secret" "phrase".

Definition test_clob : ClobClient.t :=
  ClobClient.init "https://clob.polymarket.com" 137 2 test_maker None
    (Some test_builder) 30.

Definition test_relayer : RelayerClient.t :=
  RelayerClient.init "https://relayer-v2.polymarket.com" 137 None "SAFE" 60.

(** A server that answers every request with an empty text. *)
Definition quiet_services : Services :=
  {| session_send := fun _ _ =>
       Responded (mkResponse None "" (inl (Other_exception "no JSON")));
     clock_seconds := fun w => 1700000000 + seconds_slept w;
     hmac_sha256_hex := fun key msg => key +:+ "/" +:+ msg;
     json_dumps_compact := fun d => String.concat "," (Dict.keys d) |}.

Definition empty_response : Response :=
  mkResponse None "" (inl (Other_exception "no JSON")).

(** * Proofs *)

(** ** [int(str(n)) = n] *)

Module PyStrFacts.
Import Py.

Ltac eval_digit :=
  match goal with
  | |- context [digit_val ?c] =>
      let v := eval vm_compute in (digit_val c) in
      change (digit_val c) with v; cbv iota beta
  end.

Lemma int_digits_string_of_uint d : forall acc,
  int_digits acc true (NilEmpty.string_of_uint d) = Some (uint_val acc d).
Proof.
  induction d; intros acc; cbn -[Z.mul Z.add digit_val];
    try reflexivity; eval_digit; rewrite IHd; f_equal; f_equal; lia.
Qed.

Lemma int_digits_fresh d acc :
  d <> Decimal.Nil ->
  int_digits acc false (NilEmpty.string_of_uint d) = Some (uint_val acc d).
Proof.
  destruct d; intros Hd; try congruence; cbn -[Z.mul Z.add digit_val];
    eval_digit; rewrite int_digits_string_of_uint; f_equal; f_equal; lia.
Qed.

Lemma uint_val_of_uint_acc d : forall acc,
  uint_val (Zpos acc) d = Zpos (Pos.of_uint_acc d acc).
Proof.
  induction d; intros acc; cbn -[Z.mul Z.add Pos.mul Pos.add];
    try reflexivity;
    match goal with
    | |- uint_val ?a _ = Zpos (Pos.of_uint_acc _ ?b) =>
        replace a with (Zpos b) by lia; apply IHd
    end.
Qed.

Lemma uint_val_of_uint d : uint_val 0 d = Z.of_N (Pos.of_uint d).
Proof.
  induction d; cbn -[Z.mul Z.add Pos.mul Pos.add]; try reflexivity;
    try (rewrite <- uint_val_of_uint_acc; f_equal; lia).
  exact IHd.
Qed.

Lemma leading_digit d :
  d <> Decimal.Nil ->
  exists c s, NilEmpty.string_of_uint d = String c s /\
              is_space c = false /\ c <> "-"%char /\ c <> "+"%char.
Proof.
  destruct d; intros Hd; try congruence; cbn;
    eexists _, _; (split; [reflexivity |]); repeat split; discriminate.
Qed.

Lemma int_pos_digits d :
  d <> Decimal.Nil ->
  int (NilEmpty.string_of_uint d) = Ok (Z.of_N (Pos.of_uint d)).
Proof.
  intros Hd. destruct (leading_digit d Hd) as (c & s & E & Hsp & Hm & Hp).
  unfold int. rewrite E. cbn [lstrip]. rewrite Hsp.
  apply Ascii.eqb_neq in Hm, Hp. rewrite Hm, Hp, <- E.
  rewrite int_digits_fresh, uint_val_of_uint by assumption.
  reflexivity.
Qed.

Lemma int_str (z : Z) : int (str z) = Ok z.
Proof.
  destruct z as [| p | p]; [reflexivity | |]; unfold str; cbn [Z.to_int];
    pose proof (Unsigned.to_uint_nonnil p) as Hn;
    assert (Hs : NilZero.string_of_uint (Pos.to_uint p)
                 = NilEmpty.string_of_uint (Pos.to_uint p))
      by (unfold NilZero.string_of_uint; destruct (Pos.to_uint p); congruence);
    cbn [NilZero.string_of_int]; rewrite Hs.
  - rewrite int_pos_digits, Unsigned.of_to by assumption. reflexivity.
  - unfold int. cbn [lstrip].
    change (is_space "-") with false. cbv iota.
    change (Ascii.eqb "-" "-") with true. cbv iota.
    rewrite int_digits_fresh, uint_val_of_uint, Unsigned.of_to by assumption.
    reflexivity.
Qed.

End PyStrFacts.


(** ** Rounding to nearest even, on integers *)

Module RoundingFacts.
Import PyFloat Rounding.

Lemma digits2_pos_bounds p :
  2 ^ (Zpos (digits2_pos p) - 1) <= Zpos p < 2 ^ Zpos (digits2_pos p).
Proof.
  induction p as [p IH | p IH |]; cbn [digits2_pos].
  - rewrite Pos2Z.inj_succ.
    replace (Z.succ (Zpos (digits2_pos p)) - 1)
      with (Z.succ (Zpos (digits2_pos p) - 1)) by lia.
    rewrite !Z.pow_succ_r by lia. lia.
  - rewrite Pos2Z.inj_succ.
    replace (Z.succ (Zpos (digits2_pos p)) - 1)
      with (Z.succ (Zpos (digits2_pos p) - 1)) by lia.
    rewrite !Z.pow_succ_r by lia. lia.
  - cbn. lia.
Qed.

Lemma Zdigits2_bounds m :
  0 < m -> 2 ^ (Zdigits2 m - 1) <= m < 2 ^ Zdigits2 m.
Proof.
  destruct m as [| p | p]; try lia. intros _. apply digits2_pos_bounds.
Qed.

Lemma Zdigits2_pos m : 0 < m -> 0 < Zdigits2 m.
Proof. destruct m; cbn; lia. Qed.

(** The digit count is the only [d] with [2^(d-1) <= m < 2^d]. *)
Lemma Zdigits2_unique m d :
  0 < m -> 2 ^ (d - 1) <= m < 2 ^ d -> Zdigits2 m = d.
Proof.
  intros Hm [Hlo Hhi].
  pose proof (Zdigits2_bounds m Hm) as [Hlo' Hhi'].
  pose proof (Zdigits2_pos m Hm) as Hd'.
  assert (0 < d).
  { destruct (Z.lt_trichotomy d 0) as [Hd | [-> | Hd]]; [| | assumption].
    - rewrite (Z.pow_neg_r 2 d) in Hhi by assumption. lia.
    - cbn in Hhi. lia. }
  destruct (Z.lt_trichotomy (Zdigits2 m) d) as [Hlt | [Heq | Hgt]];
    [| assumption |].
  - assert (2 ^ Zdigits2 m <= 2 ^ (d - 1))
      by (apply Z.pow_le_mono_r; lia). lia.
  - assert (2 ^ d <= 2 ^ (Zdigits2 m - 1))
      by (apply Z.pow_le_mono_r; lia). lia.
Qed.

(** *** Shifting keeps the position of the exact value *)

Lemma shr_1_spec m r s :
  0 <= m ->
  shr_1 (Build_shr_record m r s) = Build_shr_record (m / 2) (Z.odd m) (r || s).
Proof.
  intros Hm. rewrite <- Z.div2_div.
  destruct m as [| [p | p |] |]; try lia; reflexivity.
Qed.

Lemma located_nonneg mrs N D : 0 < D -> 0 <= N -> located mrs N D -> 0 <= shr_m mrs.
Proof.
  intros HD HN (Hm & _). rewrite Hm. apply Z.div_pos; lia.
Qed.

Lemma shr_1_located mrs N D :
  0 < D -> 0 <= N -> located mrs N D -> located (shr_1 mrs) N (2 * D).
Proof.
  intros HD HN Hloc. pose proof (located_nonneg _ _ _ HD HN Hloc) as Hm0.
  destruct mrs as [m r s]. destruct Hloc as (Hm & Hr & Hs).
  cbn [shr_m shr_r shr_s] in *.
  rewrite shr_1_spec by assumption. unfold located. cbn [shr_m shr_r shr_s].
  pose proof (Z.mod_pos_bound N D HD) as Hmod.
  assert (Hrem : N mod (2 * D) = N mod D + D * ((N / D) mod 2)).
  { rewrite (Z.mul_comm 2 D). apply Z.rem_mul_r; lia. }
  pose proof (Z.mod_pos_bound (N / D) 2 ltac:(lia)) as Hbit.
  assert (Hodd : Z.odd m = negb (m mod 2 =? 0)).
  { rewrite Zmod_odd. destruct (Z.odd m); reflexivity. }
  repeat split.
  - rewrite Hm, (Z.mul_comm 2 D). apply Z.div_div; lia.
  - rewrite Hodd, Hrem, Hm.
    destruct (Z.eqb_spec ((N / D) mod 2) 0) as [E | E]; cbn [negb].
    + rewrite E. symmetry. apply Z.leb_gt. lia.
    + symmetry. apply Z.leb_le. nia.
  - rewrite Hr, Hs, Hrem.
    assert (E2 : 2 * (N mod D + D * ((N / D) mod 2)) mod (2 * D)
                 = 2 * (N mod D)).
    { replace (2 * (N mod D + D * ((N / D) mod 2)))
        with (2 * (N mod D) + ((N / D) mod 2) * (2 * D)) by lia.
      rewrite Z.mod_add by lia. apply Z.mod_small. lia. }
    rewrite E2.
    destruct (Z.leb_spec D (2 * (N mod D))) as [Hle | Hlt]; cbn [orb].
    + symmetry. apply negb_true_iff, Z.eqb_neq. lia.
    + rewrite (Z.mod_small (2 * (N mod D)) D) by lia. reflexivity.
Qed.

Lemma pow2_xI p : 2 ^ Zpos p~1 = 2 ^ Zpos p * 2 ^ Zpos p * 2.
Proof.
  rewrite (Pos2Z.inj_xI p).
  replace (2 * Zpos p + 1) with (Zpos p + Zpos p + 1) by lia.
  rewrite Z.pow_add_r, Z.pow_add_r by lia. reflexivity.
Qed.

Lemma pow2_xO p : 2 ^ Zpos p~0 = 2 ^ Zpos p * 2 ^ Zpos p.
Proof.
  rewrite (Pos2Z.inj_xO p).
  replace (2 * Zpos p) with (Zpos p + Zpos p) by lia.
  rewrite Z.pow_add_r by lia. reflexivity.
Qed.

Lemma iter_pos_shr_1_located p : forall mrs N D,
  0 < D -> 0 <= N -> located mrs N D ->
  located (SpecFloat.iter_pos shr_1 p mrs) N (2 ^ Zpos p * D).
Proof.
  induction p as [p IH | p IH |]; intros mrs N D HD HN Hloc;
    cbn [SpecFloat.iter_pos];
    try assert (Hpow : 0 < 2 ^ Zpos p) by (apply Z.pow_pos_nonneg; lia).
  - replace (2 ^ Zpos p~1 * D) with (2 ^ Zpos p * (2 ^ Zpos p * (2 * D)))
      by (rewrite pow2_xI; ring).
    apply IH; [nia | lia |]. apply IH; [lia | lia |].
    apply shr_1_located; assumption.
  - replace (2 ^ Zpos p~0 * D) with (2 ^ Zpos p * (2 ^ Zpos p * D))
      by (rewrite pow2_xO; ring).
    apply IH; [nia | lia |]. apply IH; assumption.
  - change (2 ^ 1) with 2. apply shr_1_located; assumption.
Qed.

(** *** The nearest integer to a quotient *)

Ltac rhe_div_cases N D :=
  unfold rhe_div;
  pose proof (Z.div_mod N D ltac:(lia));
  pose proof (Z.mod_pos_bound N D ltac:(lia));
  destruct (Z.compare_spec (2 * (N mod D)) D);
  try destruct (Z.even (N / D)).

Lemma rhe_div_ge N D K : 0 < D -> K * D <= N -> K <= rhe_div N D.
Proof. intros HD HK. rhe_div_cases N D; nia. Qed.

Lemma rhe_div_le N D K : 0 < D -> N <= K * D -> rhe_div N D <= K.
Proof. intros HD HK. rhe_div_cases N D; nia. Qed.

Lemma rhe_div_err N D :
  0 < D -> - D <= 2 * rhe_div N D * D - 2 * N <= D.
Proof. intros HD. rhe_div_cases N D; nia. Qed.

Lemma rhe_div_near N D K :
  0 < D -> - D < 2 * N - 2 * K * D < D -> rhe_div N D = K.
Proof. intros HD HK. rhe_div_cases N D; nia. Qed.

Lemma rhe_div_exact N K : rhe_div (K * N) N = K \/ N <= 0.
Proof.
  destruct (Z_lt_le_dec 0 N) as [HN | HN]; [left | right; assumption].
  apply rhe_div_near; lia.
Qed.

Lemma rne_located mrs N D :
  0 < D -> 0 <= N -> located mrs N D ->
  round_nearest_even (shr_m mrs) (loc_of_shr_record mrs) = rhe_div N D.
Proof.
  intros HD HN. destruct mrs as [m r s]. intros (Hm & Hr & Hs).
  cbn [shr_m shr_r shr_s] in *. unfold rhe_div. rewrite <- Hm.
  pose proof (Z.mod_pos_bound N D HD) as Hmod.
  destruct (Z.compare_spec (2 * (N mod D)) D) as [E | E | E].
  - assert (Hr' : r = true) by (rewrite Hr; apply Z.leb_le; lia).
    assert (Hs' : s = false).
    { rewrite Hs, E, Z.mod_same by lia. reflexivity. }
    rewrite Hr', Hs'. reflexivity.
  - assert (Hr' : r = false) by (rewrite Hr; apply Z.leb_gt; lia).
    rewrite Hr'. destruct s; reflexivity.
  - assert (Hr' : r = true) by (rewrite Hr; apply Z.leb_le; lia).
    assert (Hs' : s = true).
    { rewrite Hs. apply negb_true_iff, Z.eqb_neq.
      replace (2 * (N mod D)) with ((2 * (N mod D) - D) + 1 * D) by lia.
      rewrite Z.mod_add by lia. rewrite Z.mod_small; lia. }
    rewrite Hr', Hs'. reflexivity.
Qed.

Lemma located_exact m : located (shr_record_of_loc m loc_Exact) m 1.
Proof.
  unfold located. cbn [shr_record_of_loc shr_m shr_r shr_s].
  rewrite Z.div_1_r, Z.mod_1_r. repeat split.
Qed.

Lemma shr_spec mrs e n N D :
  0 < D -> 0 <= N -> located mrs N D ->
  located (fst (shr mrs e n)) N (2 ^ Z.max 0 n * D) /\
  snd (shr mrs e n) = e + Z.max 0 n.
Proof.
  intros HD HN Hloc. destruct n as [| p | p]; cbn [shr fst snd].
  - change (2 ^ Z.max 0 0) with 1. rewrite Z.mul_1_l. split; [assumption | lia].
  - rewrite Z.max_r by lia. split; [| reflexivity].
    apply iter_pos_shr_1_located; assumption.
  - rewrite Z.max_l by lia. change (2 ^ 0) with 1. rewrite Z.mul_1_l.
    split; [assumption | lia].
Qed.

(** *** [binary_round_aux] in closed form *)

Lemma binary_round_aux_spec sx mx ex lx N D :
  0 < D -> 0 <= N -> located (shr_record_of_loc mx lx) N D ->
  let n1 := Z.max 0 (fexp prec emax (Zdigits2 mx + ex) - ex) in
  let e1 := ex + n1 in
  let m1 := rhe_div N (2 ^ n1 * D) in
  let n2 := Z.max 0 (fexp prec emax (Zdigits2 m1 + e1) - e1) in
  binary_round_aux prec emax sx mx ex lx =
    match m1 / 2 ^ n2 with
    | Z0 => S754_zero sx
    | Zpos m =>
        if e1 + n2 <=? emax - prec then S754_finite sx m (e1 + n2)
        else S754_infinity sx
    | Zneg _ => S754_nan
    end.
Proof.
  intros HD HN Hloc n1 e1 m1 n2.
  unfold binary_round_aux, shr_fexp.
  pose proof (shr_spec _ ex (fexp prec emax (Zdigits2 mx + ex) - ex) _ _
                HD HN Hloc) as [Hl1 He1].
  destruct (shr (shr_record_of_loc mx lx) ex _) as [mrs1 e1'].
  cbn [fst snd] in Hl1, He1. fold n1 in Hl1, He1. fold e1 in He1. subst e1'.
  assert (HD1 : 0 < 2 ^ n1 * D).
  { apply Z.mul_pos_pos; [apply Z.pow_pos_nonneg; lia | assumption]. }
  rewrite (rne_located _ _ _ HD1 HN Hl1). fold m1.
  assert (Hm1 : 0 <= m1).
  { apply (rhe_div_ge N (2 ^ n1 * D) 0); lia. }
  pose proof (shr_spec _ e1 (fexp prec emax (Zdigits2 m1 + e1) - e1) _ _
                Z.lt_0_1 Hm1 (located_exact m1)) as [Hl2 He2].
  destruct (shr (shr_record_of_loc m1 loc_Exact) e1 _) as [mrs2 e2].
  cbn [fst snd] in Hl2, He2. fold n2 in Hl2, He2. subst e2.
  destruct Hl2 as (Hm2 & _). rewrite Hm2, Z.mul_1_r. reflexivity.
Qed.

Lemma located_bounds mrs N D :
  0 < D -> located mrs N D -> shr_m mrs * D <= N < (shr_m mrs + 1) * D.
Proof.
  intros HD (Hm & _). rewrite Hm.
  pose proof (Z.div_mod N D ltac:(lia)).
  pose proof (Z.mod_pos_bound N D HD). nia.
Qed.

Lemma shr_m_of_loc m l : shr_m (shr_record_of_loc m l) = m.
Proof. destruct l as [| []]; reflexivity. Qed.

(** In the normal range and away from overflow the result is a normal
    double: the exact value [N/D * 2^ex], whose integer part [mx] has at
    least 53 bits, rounded at its own exponent. *)
Lemma binary_round_aux_normal sx mx ex lx N D :
  0 < D -> 0 <= N -> located (shr_record_of_loc mx lx) N D -> 0 < mx ->
  let d := Zdigits2 mx in
  53 <= d -> -1074 <= d + ex - 53 -> d + ex <= 1023 ->
  let M := rhe_div N (2 ^ (d - 53) * D) in
  exists m e,
    binary_round_aux prec emax sx mx ex lx = S754_finite sx m e /\
    normal m /\
    2 ^ 52 <= M <= 2 ^ 53 /\
    ((Zpos m = M /\ e = ex + d - 53) \/
     (M = 2 ^ 53 /\ Zpos m = 2 ^ 52 /\ e = ex + d - 53 + 1)).
Proof.
  intros HD HN Hloc Hmx d Hd Hlo Hhi M.
  rewrite (binary_round_aux_spec sx mx ex lx N D HD HN Hloc).
  fold d.
  assert (Hn1 : Z.max 0 (fexp prec emax (d + ex) - ex) = d - 53)
    by (unfold fexp, SpecFloat.emin, prec, emax; lia).
  rewrite Hn1. fold M.
  pose proof (located_bounds _ _ _ HD Hloc) as HNb.
  rewrite shr_m_of_loc in HNb.
  pose proof (Zdigits2_bounds mx Hmx) as Hdig. fold d in Hdig.
  set (T := 2 ^ (d - 53)) in *.
  assert (HT : 0 < T) by (apply Z.pow_pos_nonneg; lia).
  assert (Hlow : 2 ^ (d - 1) = 2 ^ 52 * T).
  { unfold T. rewrite <- Z.pow_add_r by lia. f_equal. lia. }
  assert (Hupp : 2 ^ d = 2 ^ 53 * T).
  { unfold T. rewrite <- Z.pow_add_r by lia. f_equal. lia. }
  assert (HM : 2 ^ 52 <= M <= 2 ^ 53).
  { split.
    - apply rhe_div_ge; [nia |]. nia.
    - apply rhe_div_le; [nia |]. nia. }
  destruct (Z_lt_le_dec M (2 ^ 53)) as [Hlt | Hge].
  - assert (HdM : Zdigits2 M = 53) by (apply Zdigits2_unique; lia).
    rewrite HdM.
    assert (Hn2 : Z.max 0 (fexp prec emax (53 + (ex + (d - 53)))
                           - (ex + (d - 53))) = 0)
      by (unfold fexp, SpecFloat.emin, prec, emax; lia).
    rewrite Hn2. change (2 ^ 0) with 1. rewrite Z.div_1_r.
    destruct M as [| m | m]; try lia.
    exists m, (ex + (d - 53) + 0). 
    replace (ex + (d - 53) + 0 <=? emax - prec) with true
      by (symmetry; apply Z.leb_le; unfold emax, prec; lia).
    split; [reflexivity |]. split; [unfold normal; lia |].
    split; [lia |]. left. lia.
  - assert (HMeq : M = 2 ^ 53) by lia.
    rewrite HMeq.
    assert (HdM : Zdigits2 (2 ^ 53) = 54) by reflexivity.
    rewrite HdM.
    assert (Hn2 : Z.max 0 (fexp prec emax (54 + (ex + (d - 53)))
                           - (ex + (d - 53))) = 1)
      by (unfold fexp, SpecFloat.emin, prec, emax; lia).
    rewrite Hn2. change (2 ^ 53 / 2 ^ 1) with (2 ^ 52).
    change (2 ^ 52) with (Zpos (2 ^ 52)%positive) at 1.
    cbv iota.
    exists (2 ^ 52)%positive, (ex + (d - 53) + 1).
    replace (ex + (d - 53) + 1 <=? emax - prec) with true
      by (symmetry; apply Z.leb_le; unfold emax, prec; lia).
    split; [reflexivity |]. split; [unfold normal; lia |].
    split; [lia |]. right. lia.
Qed.

(** *** Values as rationals *)

Local Open Scope Q_scope.

Lemma pow2_pos e : 0 < 2 ^ e.
Proof. apply Qpower_0_lt. reflexivity. Qed.

Lemma pow2_add a b : 2 ^ (a + b) == 2 ^ a * 2 ^ b.
Proof. apply Qpower_plus. discriminate. Qed.

Lemma pow2_inject n : (0 <= n)%Z -> inject_Z (2 ^ n) == 2 ^ n.
Proof. intros Hn. apply (Zpower_Qpower 2 n Hn). Qed.

Lemma eps_value : eps == 1 # 9007199254740992.
Proof. reflexivity. Qed.

Ltac push_inject H :=
  unfold Z.sub in H;
  repeat (rewrite inject_Z_plus in H || rewrite inject_Z_mult in H
          || rewrite inject_Z_opp in H).

(** The relative error of [binary_round_aux] in the normal range. *)
Lemma binary_round_aux_error sx mx ex lx N D :
  (0 < D)%Z -> (0 <= N)%Z -> located (shr_record_of_loc mx lx) N D ->
  (0 < mx)%Z ->
  let d := Zdigits2 mx in
  (53 <= d)%Z -> (-1074 <= d + ex - 53)%Z -> (d + ex <= 1023)%Z ->
  exists m e,
    binary_round_aux prec emax sx mx ex lx = S754_finite sx m e /\
    normal m /\
    (ex + d - 53 <= e <= ex + d - 52)%Z /\
    inject_Z N * 2 ^ ex * (1 - eps)
      <= inject_Z D * (inject_Z (Zpos m) * 2 ^ e)
      <= inject_Z N * 2 ^ ex * (1 + eps).
Proof.
  intros HD HN Hloc Hmx d Hd Hlo Hhi.
  destruct (binary_round_aux_normal sx mx ex lx N D HD HN Hloc Hmx Hd Hlo Hhi)
    as (m & e & Hbra & Hnorm & HM & Hcase).
  fold d in Hcase, HM.
  exists m, e. split; [exact Hbra |]. split; [exact Hnorm |].
  split; [lia |].
  set (T := (2 ^ (d - 53))%Z) in *.
  set (M := rhe_div N (T * D)) in *.
  assert (HT : (0 < T)%Z) by (apply Z.pow_pos_nonneg; lia).
  pose proof (rhe_div_err N (T * D) ltac:(nia)) as Herr. fold M in Herr.
  pose proof (located_bounds _ _ _ HD Hloc) as HNb.
  rewrite shr_m_of_loc in HNb.
  pose proof (Zdigits2_bounds mx Hmx) as Hdig. fold d in Hdig.
  assert (Hlow : (2 ^ (d - 1) = 2 ^ 52 * T)%Z).
  { unfold T. rewrite <- Z.pow_add_r by lia. f_equal. lia. }
  assert (Hbig : (2 ^ 52 * (T * D) <= N)%Z) by nia.
  (* the value is M * 2^(ex + d - 53) *)
  assert (Hval : inject_Z (Zpos m) * 2 ^ e
                 == inject_Z M * (inject_Z T * 2 ^ ex)).
  { assert (HTq : inject_Z T == 2 ^ (d - 53)) by (apply pow2_inject; lia).
    destruct Hcase as [[Hm He] | (HM53 & Hm & He)].
    - rewrite Hm, He, HTq.
      replace (ex + d - 53)%Z with ((d - 53) + ex)%Z by lia.
      rewrite pow2_add. reflexivity.
    - rewrite Hm, He, HM53, HTq.
      replace (ex + d - 53 + 1)%Z with (1 + ((d - 53) + ex))%Z by lia.
      rewrite !pow2_add.
      change (inject_Z (2 ^ 52)) with (4503599627370496 # 1).
      change (inject_Z (2 ^ 53)) with (9007199254740992 # 1).
      change (2 ^ 1) with (2 # 1). ring. }
  rewrite Hval.
  rewrite Zle_Qle in Hbig. destruct Herr as [Herr1 Herr2].
  rewrite Zle_Qle in Herr1, Herr2.
  push_inject Hbig. push_inject Herr1. push_inject Herr2.
  change (inject_Z (2 ^ 52)) with (4503599627370496 # 1) in Hbig.
  change (inject_Z 2) with (2 # 1) in Herr1, Herr2.
  pose proof (pow2_pos ex) as HP.
  set (a := inject_Z N) in *. set (t := inject_Z T) in *.
  set (b := inject_Z D) in *. set (mq := inject_Z M) in *.
  set (P := 2 ^ ex) in *.
  assert (Hlin : a * (1 - eps) <= mq * (t * b) <= a * (1 + eps)).
  { rewrite eps_value. split; lra. }
  destruct Hlin as [Hl1 Hl2].
  split.
  - apply (Qmult_le_compat_r _ _ P) in Hl1; [| lra]. lra.
  - apply (Qmult_le_compat_r _ _ P) in Hl2; [| lra]. lra.
Qed.

Local Close Scope Q_scope.

(** *** Division: reading a decimal *)

Lemma new_location_located D q r :
  0 < D -> 0 <= r < D -> 0 <= q ->
  located (shr_record_of_loc q (new_location D r)) (q * D + r) D.
Proof.
  intros HD Hr Hq.
  assert (Hdiv : (q * D + r) / D = q).
  { rewrite Z.div_add_l by lia. rewrite Z.div_small; lia. }
  assert (Hmod : (q * D + r) mod D = r).
  { rewrite Z.add_comm, Z.mod_add by lia. apply Z.mod_small; lia. }
  unfold located. rewrite Hdiv, Hmod, shr_m_of_loc.
  split; [reflexivity |].
  assert (Hloc : new_location D r =
                 if r =? 0 then loc_Exact
                 else loc_Inexact (2 * r ?= D)).
  { unfold new_location, new_location_even, new_location_odd.
    destruct (Z.even D) eqn:Ev; [reflexivity |].
    destruct (r =? 0); [reflexivity |]. f_equal.
    assert (Hodd : D mod 2 = 1).
    { rewrite Zmod_even, Ev. reflexivity. }
    pose proof (Z.div_mod D 2 ltac:(lia)).
    destruct (Z.compare_spec (2 * r + 1) D);
      destruct (Z.compare_spec (2 * r) D); try reflexivity; lia. }
  rewrite Hloc.
  destruct (Z.eqb_spec r 0) as [-> | Hr0].
  - cbn [shr_record_of_loc shr_r shr_s]. rewrite Z.mul_0_r, Z.mod_0_l by lia.
    split; [symmetry; apply Z.leb_gt; lia | reflexivity].
  - destruct (Z.compare_spec (2 * r) D) as [E | E | E];
      cbn [shr_record_of_loc shr_r shr_s].
    + rewrite E, Z.mod_same by lia.
      split; [symmetry; apply Z.leb_le; lia | reflexivity].
    + rewrite (Z.mod_small (2 * r) D) by lia.
      split; [symmetry; apply Z.leb_gt; lia |].
      symmetry. apply negb_true_iff, Z.eqb_neq. lia.
    + split; [symmetry; apply Z.leb_le; lia |].
      symmetry. apply negb_true_iff, Z.eqb_neq.
      replace (2 * r) with ((2 * r - D) + 1 * D) by lia.
      rewrite Z.mod_add by lia. rewrite Z.mod_small; lia.
Qed.

Lemma div_eucl_div_mod a b :
  Z.div_eucl a b = (a / b, a mod b).
Proof.
  unfold Z.div, Z.modulo. destruct (Z.div_eucl a b). reflexivity.
Qed.

(** The quotient of [k * 2^s] by [D] has 53 or 54 bits when [k * 2^s]
    has 53 bits more than [D]. *)
Lemma quotient_digits k D d1 d2 s :
  2 ^ (d1 - 1) <= k < 2 ^ d1 -> 2 ^ (d2 - 1) <= D < 2 ^ d2 ->
  0 < d1 -> 0 < d2 -> s = 53 + d2 - d1 -> 0 <= s ->
  2 ^ 52 <= k * 2 ^ s / D < 2 ^ 54.
Proof.
  intros Hk HD Hd1 Hd2 -> Hs.
  assert (HD0 : 0 < D).
  { assert (0 < 2 ^ (d2 - 1)) by (apply Z.pow_pos_nonneg; lia). lia. }
  set (S := 2 ^ (53 + d2 - d1)).
  assert (HS : 0 < S) by (apply Z.pow_pos_nonneg; lia).
  assert (E1 : 2 ^ (d1 - 1) * S = 2 ^ 52 * 2 ^ d2).
  { unfold S. rewrite <- !Z.pow_add_r by lia. f_equal. lia. }
  assert (E2 : 2 ^ d1 * S = 2 ^ 54 * 2 ^ (d2 - 1)).
  { unfold S. rewrite <- !Z.pow_add_r by lia. f_equal. lia. }
  split.
  - apply Z.div_le_lower_bound; [assumption |]. nia.
  - apply Z.div_lt_upper_bound; [assumption |]. nia.
Qed.

Lemma Zdigits2_range m a b :
  0 < m -> 0 <= a -> 2 ^ a <= m < 2 ^ b -> a < Zdigits2 m <= b.
Proof.
  intros Hm Ha [Hlo Hhi].
  pose proof (Zdigits2_bounds m Hm) as [Hlo' Hhi'].
  pose proof (Zdigits2_pos m Hm) as Hd.
  split.
  - destruct (Z_lt_le_dec a (Zdigits2 m)) as [| Hle]; [assumption |].
    assert (2 ^ Zdigits2 m <= 2 ^ a) by (apply Z.pow_le_mono_r; lia). lia.
  - destruct (Z_le_gt_dec (Zdigits2 m) b) as [| Hgt]; [assumption |].
    assert (0 <= b).
    { destruct (Z_lt_le_dec b 0) as [Hb |]; [| assumption].
      rewrite (Z.pow_neg_r 2 b) in Hhi by assumption. lia. }
    assert (2 ^ b <= 2 ^ (Zdigits2 m - 1)) by (apply Z.pow_le_mono_r; lia).
    lia.
Qed.

Lemma SFdiv_core_binary_spec k D :
  0 < k -> 0 < D ->
  let d1 := Zdigits2 k in
  let d2 := Zdigits2 D in
  let s := 53 + d2 - d1 in
  0 <= s -> -1074 <= d1 - d2 - 53 ->
  SFdiv_core_binary prec emax k 0 D 0 =
    (k * 2 ^ s / D, - s, new_location D ((k * 2 ^ s) mod D)).
Proof.
  intros Hk HD d1 d2 s Hs Hlo.
  unfold SFdiv_core_binary. fold d1 d2.
  assert (He : Z.min (fexp prec emax (d1 + 0 - (d2 + 0))) (0 - 0) = - s)
    by (unfold fexp, SpecFloat.emin, prec, emax, s; lia).
  rewrite He.
  replace (0 - 0 - - s) with s by lia.
  assert (Hm : match s with
               | Z0 => k
               | Zpos _ => Z.shiftl k s
               | Zneg _ => 0
               end = k * 2 ^ s).
  { clear He. clearbody s. destruct s as [| p | p]; try lia.
    apply Z.shiftl_mul_pow2. lia. }
  rewrite Hm, div_eucl_div_mod. reflexivity.
Qed.

Local Open Scope Q_scope.

(** Reading the decimal [k]e-[n] gives a normal double within [eps] of
    [k / 10^n]. *)
Lemma of_decimal_error k n :
  let D := (10 ^ n)%Z in
  let d1 := Zdigits2 (Zpos k) in
  let d2 := Zdigits2 D in
  (0 <= n)%Z -> (d1 <= d2 + 53)%Z -> (d2 <= 1000)%Z ->
  exists m e,
    of_decimal false k n = S754_finite false m e /\
    normal m /\
    (d1 - d2 - 53 <= e <= d1 - d2 - 51)%Z /\
    inject_Z (Zpos k) * (1 - eps)
      <= inject_Z D * to_Q (S754_finite false m e)
      <= inject_Z (Zpos k) * (1 + eps).
Proof.
  intros D d1 d2 Hn Hd1 Hd2.
  assert (HD : (0 < D)%Z) by (apply Z.pow_pos_nonneg; lia).
  assert (Hd1pos : (0 < d1)%Z) by (apply Zdigits2_pos; reflexivity).
  assert (Hd2pos : (0 < d2)%Z) by (apply Zdigits2_pos; lia).
  set (s := (53 + d2 - d1)%Z).
  unfold of_decimal, fdiv, SFdiv.
  rewrite Z2Pos.id by exact HD. fold D.
  pose proof (SFdiv_core_binary_spec (Zpos k) D (Pos2Z.is_pos k) HD) as Hcore.
  cbv zeta in Hcore. fold d1 d2 s in Hcore.
  rewrite Hcore by lia. cbn [xorb].
  set (N := (Zpos k * 2 ^ s)%Z).
  assert (Hpow : (0 < 2 ^ s)%Z) by (apply Z.pow_pos_nonneg; lia).
  assert (HN : (0 <= N)%Z) by (unfold N; nia).
  assert (Hs : (0 <= s)%Z) by (unfold s; lia).
  pose proof (quotient_digits (Zpos k) D d1 d2 s
                (Zdigits2_bounds _ (Pos2Z.is_pos k)) (Zdigits2_bounds _ HD)
                Hd1pos Hd2pos eq_refl Hs) as Hq.
  fold N in Hq.
  assert (Hq0 : (0 < N / D)%Z) by lia.
  pose proof (Zdigits2_range (N / D) 52 54 Hq0 ltac:(lia) Hq) as Hdq.
  assert (Hloc : located (shr_record_of_loc (N / D) (new_location D (N mod D)))
                   N D).
  { replace N with ((N / D) * D + N mod D)%Z at 3
      by (pose proof (Z.div_mod N D ltac:(lia)); lia).
    apply new_location_located; [assumption | | lia].
    apply Z.mod_pos_bound. assumption. }
  destruct (binary_round_aux_error false (N / D) (- s) _ N D HD HN Hloc Hq0
              ltac:(lia) ltac:(lia) ltac:(lia))
    as (m & e & Hbra & Hnorm & He & Hval).
  exists m, e. split; [exact Hbra |]. split; [exact Hnorm |].
  split; [lia |].
  assert (HNq : inject_Z N * 2 ^ (- s) == inject_Z (Zpos k)).
  { unfold N. rewrite inject_Z_mult, pow2_inject by lia.
    rewrite <- Qmult_assoc, <- pow2_add.
    replace (s + - s)%Z with 0%Z by lia. change (2 ^ 0) with 1. ring. }
  rewrite HNq in Hval. exact Hval.
Qed.

Lemma approx_weaken x q u lo hi u' lo' hi' :
  approx x q u lo hi -> u <= u' -> (lo' <= lo)%Z -> (hi <= hi')%Z ->
  approx x q u' lo' hi'.
Proof.
  unfold approx. destruct x as [[] | | | [] m e]; try tauto.
  intros (Hn & He & Hq & Hl & Hu) Huu Hlo Hhi.
  split; [assumption |]. split; [lia |]. split; [assumption |].
  split; nra.
Qed.

Lemma approx_proper x q q' u lo hi :
  q == q' -> approx x q u lo hi -> approx x q' u lo hi.
Proof.
  unfold approx. destruct x as [[] | | | [] m e]; try tauto.
  - intros <-. tauto.
  - intros E (Hn & He & Hq & Hl & Hu). rewrite <- E. tauto.
Qed.

Lemma approx_dec K n :
  (0 <= K < 2 ^ 60)%Z -> n = 2%Z \/ n = 4%Z ->
  approx (dec K n) (inject_Z K / inject_Z (10 ^ n)) eps (-66) 2.
Proof.
  intros HK Hn. destruct K as [| k | k]; [| | lia].
  - cbn [dec approx]. unfold Qdiv. apply Qmult_0_l.
  - cbn [dec].
    assert (Hd1 : (0 < Zdigits2 (Zpos k) <= 60)%Z)
      by (apply (Zdigits2_range (Zpos k) 0 60); lia).
    assert (Hd2 : (Zdigits2 (10 ^ n) = 7 \/ Zdigits2 (10 ^ n) = 14)%Z)
      by (destruct Hn as [-> | ->]; [left | right]; reflexivity).
    destruct (of_decimal_error k n ltac:(lia) ltac:(lia) ltac:(lia))
      as (m & e & -> & Hnorm & He & Hlo & Hhi).
    unfold approx. split; [assumption |]. split; [lia |].
    assert (Hk : 0 < inject_Z (Zpos k)) by reflexivity.
    destruct Hn as [-> | ->];
      [change (inject_Z (10 ^ 2)) with (100 # 1) in *
      | change (inject_Z (10 ^ 4)) with (10000 # 1) in *];
      set (v := to_Q _) in *; set (kq := inject_Z (Zpos k)) in *;
      rewrite eps_value in *; unfold Qdiv;
      [change (/ (100 # 1)) with (1 # 100)
      | change (/ (10000 # 1)) with (1 # 10000)];
      repeat split; lra.
Qed.

Lemma to_Q_mul mx ex my ey :
  inject_Z (Zpos (mx * my)) * 2 ^ (ex + ey)
  == to_Q (S754_finite false mx ex) * to_Q (S754_finite false my ey).
Proof.
  cbn [to_Q]. rewrite Pos2Z.inj_mul, inject_Z_mult, pow2_add. ring.
Qed.

(** The product of two approximations approximates the product. *)
Lemma approx_mul x y qx qy ux uy lx hx ly hy :
  approx x qx ux lx hx -> approx y qy uy ly hy ->
  0 <= ux <= 1 -> 0 <= uy <= 1 ->
  (-1126 <= lx + ly)%Z -> (hx + hy <= 917)%Z ->
  approx (fmul x y) (qx * qy) ((1 + ux) * (1 + uy) * (1 + eps) - 1)
    (lx + ly + 52) (hx + hy + 54).
Proof.
  unfold approx at 1 2.
  destruct x as [[] | | | [] mx ex]; try tauto;
    destruct y as [[] | | | [] my ey]; try tauto.
  - intros Hx Hy _ _ _ _. cbn. rewrite Hx. ring.
  - intros Hx _ _ _ _ _. cbn. rewrite Hx. ring.
  - intros _ Hy _ _ _ _. cbn. rewrite Hy. ring.
  - intros (Hnx & Hex & Hqx & Hxl & Hxu) (Hny & Hey & Hqy & Hyl & Hyu)
      Hux Huy Hlo Hhi.
    unfold fmul, SFmul. cbn [xorb].
    unfold normal in Hnx, Hny.
    assert (Hprod : (2 ^ 104 <= Zpos (mx * my) < 2 ^ 106)%Z).
    { rewrite Pos2Z.inj_mul.
      change (2 ^ 104)%Z with (2 ^ 52 * 2 ^ 52)%Z.
      change (2 ^ 106)%Z with (2 ^ 53 * 2 ^ 53)%Z. nia. }
    pose proof (Zdigits2_range _ 104 106 (Pos2Z.is_pos _) ltac:(lia) Hprod)
      as Hd.
    destruct (binary_round_aux_error false (Zpos (mx * my)) (ex + ey)
                loc_Exact (Zpos (mx * my)) 1 Z.lt_0_1
                (Pos2Z.is_nonneg _) (located_exact _) (Pos2Z.is_pos _)
                ltac:(lia) ltac:(lia) ltac:(lia))
      as (m & e & -> & Hnorm & He & Hvl & Hvu).
    unfold approx. split; [assumption |]. split; [lia |].
    rewrite to_Q_mul in Hvl, Hvu.
    set (vx := to_Q (S754_finite false mx ex)) in *.
    set (vy := to_Q (S754_finite false my ey)) in *.
    change (inject_Z (Zpos m) * 2 ^ e) with (to_Q (S754_finite false m e))
      in Hvl, Hvu.
    set (v := to_Q (S754_finite false m e)) in *.
    change (inject_Z 1) with 1 in Hvl, Hvu.
    rewrite eps_value in *.
    split; [nra |].
    assert (Hxy1 : qx * (1 - ux) * (qy * (1 - uy)) <= vx * vy)
      by (apply Qmult_le_compat_nonneg; split; nra).
    assert (Hxy2 : vx * vy <= qx * (1 + ux) * (qy * (1 + uy)))
      by (apply Qmult_le_compat_nonneg; split; nra).
    assert (Hq : 0 < qx * qy) by nra.
    assert (Hu1 : 0 <= ux * uy) by nra.
    split; nra.
Qed.

(** *** Rounding a double to an integer or to a decimal *)

Lemma scaled_rhe_bounds m e n :
  (0 <= n)%Z ->
  (0 <= scaled_rhe m e n)%Z /\
  to_Q (S754_finite false m e) * inject_Z (10 ^ n) - (1 # 2)
    <= inject_Z (scaled_rhe m e n)
    <= to_Q (S754_finite false m e) * inject_Z (10 ^ n) + (1 # 2).
Proof.
  intros Hn.
  assert (HT : (0 < 10 ^ n)%Z) by (apply Z.pow_pos_nonneg; lia).
  cbn [to_Q]. set (T := (10 ^ n)%Z) in *.
  destruct e as [| p | p]; cbn [scaled_rhe]; fold T.
  - split; [lia |]. rewrite !inject_Z_mult.
    change (inject_Z (2 ^ 0)) with 1. change (2 ^ 0) with 1.
    split; lra.
  - assert (0 < 2 ^ Zpos p)%Z by (apply Z.pow_pos_nonneg; lia).
    split; [nia |]. rewrite !inject_Z_mult, pow2_inject by lia.
    split; lra.
  - set (D := (2 ^ Zpos p)%Z).
    assert (HD : (0 < D)%Z) by (apply Z.pow_pos_nonneg; lia).
    split; [apply (rhe_div_ge _ _ 0); lia |].
    pose proof (rhe_div_err (Zpos m * T) D HD) as [H1 H2].
    set (R := rhe_div (Zpos m * T) D) in *.
    rewrite Zle_Qle in H1, H2. push_inject H1. push_inject H2.
    change (inject_Z 2) with 2 in H1, H2.
    assert (HDq : inject_Z D == 2 ^ Zpos p) by (apply pow2_inject; lia).
    assert (Hinv : 2 ^ Zneg p * inject_Z D == 1).
    { rewrite HDq, <- pow2_add.
      replace (Z.neg p + Z.pos p)%Z with 0%Z by lia. reflexivity. }
    rewrite Zlt_Qlt in HD. change (inject_Z 0) with 0 in HD.
    set (a := inject_Z (Zpos m)) in *. set (t := inject_Z T) in *.
    set (dq := inject_Z D) in *. set (r := inject_Z R) in *.
    set (P := 2 ^ Zneg p) in *.
    assert (Ha : a * t == (a * P * t) * dq).
    { transitivity (a * t * (P * dq)); [rewrite Hinv; ring | ring]. }
    rewrite Ha in H1, H2.
    split; nra.
Qed.

Lemma integer_within_one (a b : Z) :
  inject_Z a < inject_Z b + 1 -> inject_Z b < inject_Z a + 1 -> a = b.
Proof.
  change 1 with (inject_Z 1). rewrite <- !inject_Z_plus, <- !Zlt_Qlt. lia.
Qed.

Lemma round_int_approx x q u lo hi :
  approx x q u lo hi ->
  exists K,
    Py.round_int x = Ok K /\ (0 <= K)%Z /\
    q * (1 - u) - (1 # 2) <= inject_Z K <= q * (1 + u) + (1 # 2).
Proof.
  unfold approx. destruct x as [[] | | | [] m e]; try tauto.
  - intros Hq. exists 0%Z. split; [reflexivity |]. split; [lia |].
    rewrite Hq. change (inject_Z 0) with 0. split; lra.
  - intros (_ & _ & Hq & Hl & Hu).
    exists (scaled_rhe m e 0). split; [reflexivity |].
    destruct (scaled_rhe_bounds m e 0 ltac:(lia)) as (H0 & H1 & H2).
    split; [assumption |].
    change (inject_Z (10 ^ 0)) with 1 in H1, H2. split; lra.
Qed.

(** When the approximated value is an integer and the error is below one
    half, [round] recovers it. *)
Lemma round_int_exact x K u lo hi :
  approx x (inject_Z K) u lo hi -> 0 <= u -> inject_Z K * u < 1 # 2 ->
  Py.round_int x = Ok K.
Proof.
  intros Happ Hu Herr.
  assert (HK : 0 <= inject_Z K).
  { revert Happ. unfold approx.
    destruct x as [[] | | | [] m e]; try tauto; intros; lra. }
  destruct (round_int_approx _ _ _ _ _ Happ) as (K' & -> & _ & H1 & H2).
  f_equal. apply integer_within_one; lra.
Qed.

Lemma round_ndigits_approx x q u lo hi n :
  approx x q u lo hi -> n = 2%Z \/ n = 4%Z ->
  q * inject_Z (10 ^ n) * (1 + u) + (1 # 2) < inject_Z (2 ^ 60) ->
  Py.round_ndigits x n = Ok (dec (units x n) n) /\
  (0 <= units x n < 2 ^ 60)%Z /\
  q * inject_Z (10 ^ n) * (1 - u) - (1 # 2)
    <= inject_Z (units x n)
    <= q * inject_Z (10 ^ n) * (1 + u) + (1 # 2).
Proof.
  intros Happ Hn Hsmall.
  assert (HT : 0 < inject_Z (10 ^ n))
    by (destruct Hn as [-> | ->]; reflexivity).
  revert Happ. unfold approx.
  destruct x as [[] | | | [] m e]; try tauto.
  - intros Hq. cbn [units Py.round_ndigits dec].
    split; [reflexivity |]. split; [lia |].
    rewrite Hq. change (inject_Z 0) with 0. split; lra.
  - intros (_ & _ & Hq & Hl & Hu). cbn [units Py.round_ndigits].
    destruct (scaled_rhe_bounds m e n ltac:(lia)) as (H0 & H1 & H2).
    set (v := to_Q _) in *. set (t := inject_Z (10 ^ n)) in *.
    set (K := scaled_rhe m e n) in *.
    assert (Hb : q * t * (1 - u) - (1 # 2) <= inject_Z K
                 <= q * t * (1 + u) + (1 # 2)) by (split; nra).
    assert (HK : (K < 2 ^ 60)%Z).
    { rewrite Zlt_Qlt. lra. }
    split; [| split; [lia | exact Hb]].
    destruct K as [| k | k] eqn:EK; [reflexivity | | lia].
    cbn [dec].
    assert (Hd1 : (0 < Zdigits2 (Zpos k) <= 60)%Z)
      by (apply (Zdigits2_range (Zpos k) 0 60); lia).
    assert (Hd2 : (Zdigits2 (10 ^ n) = 7 \/ Zdigits2 (10 ^ n) = 14)%Z)
      by (destruct Hn as [-> | ->]; [left | right]; reflexivity).
    destruct (of_decimal_error k n ltac:(lia) ltac:(lia) ltac:(lia))
      as (m' & e' & -> & _).
    reflexivity.
Qed.

Lemma approx_pow10 d :
  d = 2%Z \/ d = 4%Z ->
  approx (of_Z (10 ^ d)) (inject_Z (10 ^ d)) 0 (-46) (-39).
Proof.
  intros [-> | ->].
  - change (of_Z (10 ^ 2)) with (S754_finite false 7036874417766400 (-46)).
    unfold approx, normal. split; [lia |]. split; [lia |].
    assert (E : to_Q (S754_finite false 7036874417766400 (-46))
                == inject_Z (10 ^ 2)) by reflexivity.
    rewrite E. change (inject_Z (10 ^ 2)) with 100. repeat split; lra.
  - change (of_Z (10 ^ 4)) with (S754_finite false 5497558138880000 (-39)).
    unfold approx, normal. split; [lia |]. split; [lia |].
    assert (E : to_Q (S754_finite false 5497558138880000 (-39))
                == inject_Z (10 ^ 4)) by reflexivity.
    rewrite E. change (inject_Z (10 ^ 4)) with 10000. repeat split; lra.
Qed.

(** *** The inputs: doubles compared with ints *)

Lemma is_double_mantissa m e :
  is_double (S754_finite false m e) = true -> (Zpos m < 2 ^ 53)%Z.
Proof.
  unfold is_double, valid_binary, bounded, canonical_mantissa.
  intros Hb. apply andb_prop in Hb as [Hc _]. apply Z.eqb_eq in Hc.
  pose proof (digits2_pos_bounds m) as [_ Hm].
  assert (Hd : (Zpos (digits2_pos m) <= 53)%Z)
    by (revert Hc; unfold fexp, SpecFloat.emin, prec, emax; lia).
  assert (2 ^ Zpos (digits2_pos m) <= 2 ^ 53)%Z
    by (apply Z.pow_le_mono_r; lia).
  lia.
Qed.

(** On doubles, [x <= y] bounds the value of [x] by that of a normal [y]. *)
Lemma fleb_to_Q m e mB eB :
  is_double (S754_finite false m e) = true -> normal mB ->
  fleb (S754_finite false m e) (S754_finite false mB eB) = true ->
  to_Q (S754_finite false m e) <= to_Q (S754_finite false mB eB).
Proof.
  intros Hdbl HnB Hle. pose proof (is_double_mantissa m e Hdbl) as Hm.
  unfold normal in HnB. cbn [to_Q].
  unfold fleb, SFleb, SFcompare in Hle.
  pose proof (pow2_pos e) as He. pose proof (pow2_pos eB) as HeB.
  assert (Hmq : inject_Z (Zpos m) < inject_Z (2 ^ 53))
    by (rewrite <- Zlt_Qlt; exact Hm).
  assert (HmBq : inject_Z (2 ^ 52) <= inject_Z (Zpos mB))
    by (rewrite <- Zle_Qle; lia).
  change (inject_Z (2 ^ 53)) with 9007199254740992 in Hmq.
  change (inject_Z (2 ^ 52)) with 4503599627370496 in HmBq.
  destruct (Z.compare_spec e eB) as [E | E | E]; [| | discriminate].
  - subst eB.
    assert (Hpos : (Zpos m <= Zpos mB)%Z).
    { change (Pos.compare_cont Eq m mB) with (Pos.compare m mB) in Hle.
      destruct (Pos.compare_spec m mB); try lia; try discriminate. }
    rewrite Zle_Qle in Hpos. nra.
  - assert (Hpow : 2 ^ (1 + e) <= 2 ^ eB)
      by (apply Qpower_le_compat_l; [lia | discriminate]).
    rewrite pow2_add in Hpow. change (2 ^ 1) with 2 in Hpow.
    nra.
Qed.

(** A double in (0, B] is finite and positive, and holds at most
    [B * 10^n] units of [10^-n]. *)
Lemma input_units x B mB eB n :
  is_double x = true -> Py.lt_int 0 x = true -> Py.le_int x B = true ->
  of_Z B = S754_finite false mB eB -> normal mB ->
  to_Q (S754_finite false mB eB) == inject_Z B ->
  (0 <= n)%Z ->
  exists m e,
    x = S754_finite false m e /\
    to_Q x <= inject_Z B /\
    (0 <= units x n <= B * 10 ^ n)%Z.
Proof.
  intros Hdbl Hpos Hle HB HnB HBq Hn.
  unfold Py.lt_int, Py.le_int in *. rewrite HB in Hle.
  change (of_Z 0) with (S754_zero false) in Hpos.
  destruct x as [s | s | | s m e]; try discriminate Hpos.
  - destruct s; discriminate.
  - destruct s; [discriminate Hpos |].
    exists m, e. split; [reflexivity |].
    pose proof (fleb_to_Q m e mB eB Hdbl HnB Hle) as Hq.
    rewrite HBq in Hq. split; [exact Hq |].
    cbn [units].
    destruct (scaled_rhe_bounds m e n Hn) as (H0 & _ & H2).
    split; [exact H0 |].
    assert (HT : (0 < 10 ^ n)%Z) by (apply Z.pow_pos_nonneg; lia).
    rewrite Zlt_Qlt in HT. change (inject_Z 0) with 0 in HT.
    assert (Hlt : inject_Z (scaled_rhe m e n) < inject_Z (B * 10 ^ n + 1)).
    { rewrite inject_Z_plus, inject_Z_mult. change (inject_Z 1) with 1.
      set (v := to_Q _) in *. set (t := inject_Z (10 ^ n)) in *. nra. }
    rewrite <- Zlt_Qlt in Hlt. lia.
Qed.

(** *** The steps of the normalisation *)

Lemma round_ndigits_units m e n :
  (units (S754_finite false m e) n < 2 ^ 60)%Z -> n = 2%Z \/ n = 4%Z ->
  Py.round_ndigits (S754_finite false m e) n
    = Ok (dec (units (S754_finite false m e) n) n).
Proof.
  intros HK Hn. cbn [units Py.round_ndigits] in *.
  destruct (scaled_rhe_bounds m e n ltac:(lia)) as (H0 & _).
  destruct (scaled_rhe m e n) as [| k | k]; [reflexivity | | lia].
  cbn [dec].
  assert (Hd1 : (0 < Zdigits2 (Zpos k) <= 60)%Z)
    by (apply (Zdigits2_range (Zpos k) 0 60); lia).
  assert (Hd2 : (Zdigits2 (10 ^ n) = 7 \/ Zdigits2 (10 ^ n) = 14)%Z)
    by (destruct Hn as [-> | ->]; [left | right]; reflexivity).
  destruct (of_decimal_error k n ltac:(lia) ltac:(lia) ltac:(lia))
    as (m' & e' & -> & _).
  reflexivity.
Qed.

Lemma eps_cubed : (1 + eps) * (1 + eps) * (1 + eps) - 1 <= 4 * eps.
Proof. unfold eps. lra. Qed.

Lemma eps_squared : (1 + eps) * (1 + 0) * (1 + eps) - 1 <= 3 * eps.
Proof. unfold eps. lra. Qed.

Lemma eps_range : 0 <= eps <= 1.
Proof. unfold eps. split; lra. Qed.

(** [round(v * 10^d) * 10^(6-d)] on the double nearest to [K / 10^d]
    gives back [K] units. *)
Lemma base_units_dec K d :
  (0 <= K <= 10 ^ 15)%Z -> d = 2%Z \/ d = 4%Z ->
  Spec.base_units (dec K d) d = Ok (K * 10 ^ (6 - d))%Z.
Proof.
  intros HK Hd. unfold Spec.base_units, Py.mul_int.
  pose proof (approx_dec K d ltac:(lia) Hd) as HA.
  pose proof (approx_pow10 d Hd) as HB.
  pose proof (approx_mul _ _ _ _ _ _ _ _ _ _ HA HB eps_range
                ltac:(split; lra) ltac:(lia) ltac:(lia)) as HM.
  assert (Hq : inject_Z K / inject_Z (10 ^ d) * inject_Z (10 ^ d)
               == inject_Z K).
  { destruct Hd as [-> | ->]; field; discriminate. }
  apply (approx_proper _ _ _ _ _ _ Hq) in HM.
  apply (approx_weaken _ _ _ _ _ (3 * eps) (-200) 200) in HM;
    [| apply eps_squared | lia | lia].
  rewrite (round_int_exact _ K _ _ _ HM); [reflexivity | unfold eps; lra |].
  assert (HKq : inject_Z K <= inject_Z (10 ^ 15))
    by (rewrite <- Zle_Qle; lia).
  change (inject_Z (10 ^ 15)) with 1000000000000000 in HKq.
  assert (0 <= inject_Z K) by (change 0 with (inject_Z 0); rewrite <- Zle_Qle; lia).
  unfold eps. lra.
Qed.

Lemma inject_Z_range K B :
  (0 <= K <= B)%Z -> 0 <= inject_Z K <= inject_Z B.
Proof.
  intros [H0 HB]. change 0 with (inject_Z 0). rewrite <- !Zle_Qle. lia.
Qed.

(** The product of the rounded shares and the rounded price, before it
    is rounded to the quote ceiling. *)
Lemma approx_shares_times_price S P ds :
  (0 <= S <= 10 ^ 13)%Z -> (0 <= P <= 100)%Z -> ds = 2%Z \/ ds = 4%Z ->
  approx (fmul (dec S ds) (dec P 2))
    (inject_Z S / inject_Z (10 ^ ds) * (inject_Z P / inject_Z (10 ^ 2)))
    (4 * eps) (-200) 200.
Proof.
  intros HS HP Hds.
  pose proof (approx_dec S ds ltac:(lia) Hds) as HA.
  pose proof (approx_dec P 2 ltac:(lia) ltac:(auto)) as HB.
  pose proof (approx_mul _ _ _ _ _ _ _ _ _ _ HA HB eps_range eps_range
                ltac:(lia) ltac:(lia)) as HM.
  apply (approx_weaken _ _ _ _ _ (4 * eps) (-200) 200) in HM;
    [exact HM | apply eps_cubed | lia | lia].
Qed.

(** LIMIT BUY and SELL: two decimals of shares by two of price fit the
    four of the quote, which is exact. *)
Lemma quote_limit S P :
  (0 <= S <= 10 ^ 11)%Z -> (0 <= P <= 100)%Z ->
  Py.round_ndigits (fmul (dec S 2) (dec P 2)) 4 = Ok (dec (S * P) 4).
Proof.
  intros HS HP.
  pose proof (approx_shares_times_price S P 2 ltac:(lia) HP ltac:(auto))
    as HM.
  assert (HSP : (0 <= S * P <= 10 ^ 13)%Z) by nia.
  pose proof (inject_Z_range _ _ HSP) as [Hq0 Hq1].
  change (inject_Z (10 ^ 13)) with 10000000000000 in Hq1.
  assert (Hq : inject_Z S / inject_Z (10 ^ 2) * (inject_Z P / inject_Z (10 ^ 2))
               * inject_Z (10 ^ 4) == inject_Z (S * P)).
  { rewrite inject_Z_mult.
    change (inject_Z (10 ^ 2)) with 100. change (inject_Z (10 ^ 4)) with 10000.
    field. }
  destruct (round_ndigits_approx _ _ _ _ _ 4 HM ltac:(auto)) as (Hr & HK & Hl & Hu).
  { rewrite Hq. change (inject_Z (2 ^ 60)) with 1152921504606846976.
    unfold eps. lra. }
  rewrite Hr. f_equal. f_equal.
  rewrite Hq in Hl, Hu. unfold eps in Hl, Hu.
  apply integer_within_one; lra.
Qed.

(** MARKET BUY: four decimals of shares by two of price are cut to the
    two of the quote, within half a unit. *)
Lemma quote_market S P :
  (0 <= S <= 10 ^ 13)%Z -> (0 <= P <= 100)%Z ->
  exists K,
    Py.round_ndigits (fmul (dec S 4) (dec P 2)) 2 = Ok (dec K 2) /\
    (0 <= K <= 10 ^ 11)%Z /\
    (- 5000 <= K * 10 ^ 4 - S * P <= 5000)%Z.
Proof.
  intros HS HP.
  pose proof (approx_shares_times_price S P 4 HS HP ltac:(auto)) as HM.
  assert (HSP : (0 <= S * P <= 10 ^ 15)%Z) by nia.
  pose proof (inject_Z_range _ _ HSP) as [Hq0 Hq1].
  change (inject_Z (10 ^ 15)) with 1000000000000000 in Hq1.
  assert (Hq : inject_Z S / inject_Z (10 ^ 4) * (inject_Z P / inject_Z (10 ^ 2))
               * inject_Z (10 ^ 2) == inject_Z (S * P) * (1 # 10000)).
  { rewrite inject_Z_mult.
    change (inject_Z (10 ^ 2)) with 100. change (inject_Z (10 ^ 4)) with 10000.
    field. }
  destruct (round_ndigits_approx _ _ _ _ _ 2 HM ltac:(auto)) as (Hr & HK & Hl & Hu).
  { rewrite Hq. change (inject_Z (2 ^ 60)) with 1152921504606846976.
    unfold eps. lra. }
  set (K := units _ 2) in *. exists K. split; [exact Hr |].
  rewrite Hq in Hl, Hu. unfold eps in Hl, Hu.
  set (sp := inject_Z (S * P)) in *.
  assert (H1 : inject_Z K < inject_Z (10 ^ 11 + 1)).
  { change (inject_Z (10 ^ 11 + 1)) with 100000000001. lra. }
  assert (H2 : inject_Z (K * 10 ^ 4) < inject_Z (S * P + 5001)).
  { rewrite (inject_Z_mult K), inject_Z_plus. fold sp.
    change (inject_Z (10 ^ 4)) with 10000. change (inject_Z 5001) with 5001.
    lra. }
  assert (H3 : inject_Z (S * P) < inject_Z (K * 10 ^ 4 + 5001)).
  { rewrite inject_Z_plus, (inject_Z_mult K). fold sp.
    change (inject_Z (10 ^ 4)) with 10000. change (inject_Z 5001) with 5001.
    lra. }
  rewrite <- Zlt_Qlt in H1, H2, H3. lia.
Qed.

Local Close Scope Q_scope.

(** *** Signs *)

Lemma binary_round_aux_sign sx mx ex lx :
  match binary_round_aux prec emax sx mx ex lx with
  | S754_zero s | S754_finite s _ _ | S754_infinity s => s = sx
  | S754_nan => True
  end.
Proof.
  unfold binary_round_aux.
  destruct (shr_fexp prec emax mx ex lx) as [mrs1 e1].
  destruct (shr_fexp prec emax _ e1 loc_Exact) as [mrs2 e2].
  destruct (shr_m mrs2); [reflexivity | | exact I].
  destruct (e2 <=? emax - prec); reflexivity.
Qed.

Lemma fmul_not_negative x y :
  not_negative x -> not_negative y -> not_negative (fmul x y).
Proof.
  unfold fmul.
  destruct x as [sx | sx | | sx mx ex], y as [sy | sy | | sy my ey];
    cbn [SFmul not_negative]; try tauto; try (intros -> ->; reflexivity).
  intros -> ->. cbn [xorb].
  pose proof (binary_round_aux_sign false (Zpos (mx * my)) (ex + ey) loc_Exact)
    as Hs.
  destruct (binary_round_aux _ _ _ _ _ _); cbn; auto.
Qed.

Lemma of_decimal_not_negative k n : not_negative (of_decimal false k n).
Proof.
  unfold of_decimal, fdiv, SFdiv.
  destruct (SFdiv_core_binary _ _ _ _ _ _) as [[mz ez] lz]. cbn [xorb].
  pose proof (binary_round_aux_sign false mz ez lz) as Hs.
  destruct (binary_round_aux _ _ _ _ _ _); cbn; auto.
Qed.

Lemma round_ndigits_not_negative x n r :
  not_negative x -> Py.round_ndigits x n = Ok r -> not_negative r.
Proof.
  destruct x as [s | s | | s m e]; cbn [Py.round_ndigits not_negative].
  - intros _ [= <-]. exact I.
  - intros -> [= <-]. reflexivity.
  - intros _ [= <-]. exact I.
  - intros ->.
    destruct (scaled_rhe m e n) as [| k | k]; try (intros [= <-]; exact I).
    pose proof (of_decimal_not_negative k n) as Hk.
    destruct (of_decimal false k n); intros [= <-]; exact Hk.
Qed.

Lemma round_int_not_negative x k :
  not_negative x -> Py.round_int x = Ok k -> (0 <= k)%Z.
Proof.
  destruct x as [s | s | | s m e]; cbn [Py.round_int not_negative];
    try discriminate.
  - intros _ [= <-]. lia.
  - intros -> [= <-]. apply (scaled_rhe_bounds m e 0). lia.
Qed.

Lemma positive_not_negative x : Py.lt_int 0 x = true -> not_negative x.
Proof.
  unfold Py.lt_int, fltb, SFltb. change (of_Z 0) with (S754_zero false).
  destruct x as [s | [] | | [] m e]; cbn; congruence.
Qed.

Lemma base_units_not_negative x d k :
  not_negative x -> (d = 2 \/ d = 4)%Z -> Spec.base_units x d = Ok k ->
  (0 <= k)%Z.
Proof.
  intros Hx Hd. unfold Spec.base_units, Py.mul_int.
  destruct (Py.round_int _) as [j |] eqn:Ej; cbn [bind]; [| discriminate].
  intros [= <-].
  assert (Hc : not_negative (of_Z (10 ^ d)))
    by (destruct Hd as [-> | ->]; reflexivity).
  pose proof (round_int_not_negative _ _ (fmul_not_negative _ _ Hx Hc) Ej).
  assert (0 < 10 ^ (6 - d))%Z by (destruct Hd as [-> | ->]; reflexivity).
  nia.
Qed.

(** Whatever the size, the amounts of a positive price and size are not
    negative. *)
Lemma normalize_not_negative c sd p s n :
  Py.lt_int 0 p = true -> Py.lt_int 0 s = true ->
  Spec.normalize c sd p s = Ok n ->
  (0 <= Spec.norm_maker_amount n /\ 0 <= Spec.norm_taker_amount n)%Z.
Proof.
  intros Hp Hs. unfold Spec.normalize.
  destruct (Py.round_ndigits p 2) as [p' |] eqn:Ep; cbn [bind];
    [| discriminate].
  destruct (Py.round_ndigits s _) as [sh |] eqn:Es; cbn [bind];
    [| discriminate].
  destruct (Py.round_ndigits (fmul sh p') _) as [q |] eqn:Eq; cbn [bind];
    [| discriminate].
  pose proof (round_ndigits_not_negative _ _ _ (positive_not_negative _ Hp) Ep)
    as Hp'.
  pose proof (round_ndigits_not_negative _ _ _ (positive_not_negative _ Hs) Es)
    as Hsh.
  pose proof (round_ndigits_not_negative _ _ _
                (fmul_not_negative _ _ Hsh Hp') Eq) as Hq.
  destruct sd, c;
    cbn [fst snd Spec.shares_decimals Spec.quote_decimals] in *;
    cbv zeta; cbn [fst snd];
    destruct (Spec.base_units q _) as [kq |] eqn:Ekq;
    destruct (Spec.base_units sh _) as [ks |] eqn:Eks;
    cbn [bind]; try discriminate;
    intros [= <-];
    cbn [Spec.norm_maker_amount Spec.norm_taker_amount];
    split;
    (eapply base_units_not_negative; [| | eassumption]; [assumption | auto]).
Qed.

(** *** The whole normalisation, for sizes up to 1e9 *)

Lemma price_units p :
  is_double p = true -> price_in_range p ->
  0 <= units p 2 <= 100 /\
  Py.round_ndigits p 2 = Ok (dec (units p 2) 2).
Proof.
  intros Hdbl [Hp0 Hp1].
  destruct (input_units p 1 (2 ^ 52)%positive (-52) 2 Hdbl Hp0 Hp1
              eq_refl ltac:(unfold normal; lia) ltac:(reflexivity)
              ltac:(lia))
    as (m & e & -> & _ & HP).
  split; [lia |]. apply round_ndigits_units; [lia | auto].
Qed.

Lemma size_units s n :
  is_double s = true -> size_positive s -> Py.le_int s (10 ^ 9) = true ->
  n = 2 \/ n = 4 ->
  0 <= units s n <= 10 ^ 9 * 10 ^ n /\
  Py.round_ndigits s n = Ok (dec (units s n) n).
Proof.
  intros Hdbl Hs0 Hs1 Hn.
  destruct (input_units s (10 ^ 9) 8388608000000000%positive (-23) n
              Hdbl Hs0 Hs1 eq_refl ltac:(unfold normal; lia)
              ltac:(reflexivity) ltac:(lia))
    as (m & e & -> & _ & HS).
  split; [lia |]. apply round_ndigits_units; [| assumption].
  destruct Hn as [-> | ->]; lia.
Qed.

Lemma normalize_small c sd p s :
  is_double p = true -> price_in_range p ->
  is_double s = true -> size_positive s -> Py.le_int s (10 ^ 9) = true ->
  let P := units p 2 in
  let S := units s (Spec.shares_decimals sd c) in
  exists Q,
    0 <= P <= 100 /\
    0 <= S <= 10 ^ 9 * 10 ^ Spec.shares_decimals sd c /\
    0 <= Q <= 10 ^ 13 /\
    (Spec.quote_decimals sd c = 4 -> Q = S * P) /\
    (Spec.quote_decimals sd c = 2 -> - 5000 <= Q * 10 ^ 4 - S * P <= 5000) /\
    Spec.normalize c sd p s =
      Ok (Spec.mkNormalized (dec P 2)
            (match sd with
             | Spec.BUY => Q * 10 ^ (6 - Spec.quote_decimals sd c)
             | Spec.SELL => S * 10 ^ (6 - Spec.shares_decimals sd c)
             end)
            (match sd with
             | Spec.BUY => S * 10 ^ (6 - Spec.shares_decimals sd c)
             | Spec.SELL => Q * 10 ^ (6 - Spec.quote_decimals sd c)
             end)
            (Spec.side_code sd)).
Proof.
  intros Hpd Hp Hsd Hs Hsmall P S.
  destruct (price_units p Hpd Hp) as [HP HrP]. fold P in HP, HrP.
  assert (Hds : Spec.shares_decimals sd c = 2 \/ Spec.shares_decimals sd c = 4)
    by (destruct sd, c; cbn; auto).
  destruct (size_units s _ Hsd Hs Hsmall Hds) as [HS HrS]. fold S in HS, HrS.
  unfold Spec.normalize. rewrite HrP, HrS. cbn [bind].
  destruct sd, c; cbn [Spec.shares_decimals Spec.quote_decimals] in *.
  - (* LIMIT BUY *)
    exists (S * P). rewrite quote_limit by lia. cbn [bind fst snd].
    rewrite !base_units_dec by (auto; nia). cbn [bind].
    repeat split; try lia; try nia.
  - (* MARKET BUY *)
    destruct (quote_market S P ltac:(lia) HP) as (Q & HrQ & HQ & Herr).
    exists Q. rewrite HrQ. cbn [bind fst snd].
    rewrite !base_units_dec by (auto; lia). cbn [bind].
    repeat split; try lia.
  - (* LIMIT SELL *)
    exists (S * P). rewrite quote_limit by lia. cbn [bind fst snd].
    rewrite !base_units_dec by (auto; nia). cbn [bind].
    repeat split; try lia; try nia.
  - (* MARKET SELL *)
    exists (S * P). rewrite quote_limit by lia. cbn [bind fst snd].
    rewrite !base_units_dec by (auto; nia). cbn [bind].
    repeat split; try lia; try nia.
Qed.

End RoundingFacts.


(** ** The normalisation on large sizes

    Above 2^60 units the decimal read back by [round(x, n)] has more
    than 53 bits over its divisor: the division of [of_decimal] shifts
    nothing and rounds the integer quotient. *)

Module WideRange.
Import PyFloat Rounding RoundingFacts.

Lemma quotient_digits_large k D d1 d2 :
  2 ^ (d1 - 1) <= k < 2 ^ d1 -> 2 ^ (d2 - 1) <= D < 2 ^ d2 ->
  0 < d2 -> d2 + 53 < d1 ->
  2 ^ (d1 - d2 - 1) <= k / D < 2 ^ (d1 - d2 + 1).
Proof.
  intros Hk HD Hd2 Hd.
  assert (HD0 : 0 < D).
  { assert (0 < 2 ^ (d2 - 1)) by (apply Z.pow_pos_nonneg; lia). lia. }
  assert (H1 : 0 < 2 ^ (d1 - d2 - 1)) by (apply Z.pow_pos_nonneg; lia).
  assert (H2 : 0 < 2 ^ (d1 - d2 + 1)) by (apply Z.pow_pos_nonneg; lia).
  assert (E1 : 2 ^ (d1 - 1) = 2 ^ (d1 - d2 - 1) * 2 ^ d2).
  { rewrite <- Z.pow_add_r by lia. f_equal. lia. }
  assert (E2 : 2 ^ d1 = 2 ^ (d1 - d2 + 1) * 2 ^ (d2 - 1)).
  { rewrite <- Z.pow_add_r by lia. f_equal. lia. }
  split.
  - apply Z.div_le_lower_bound; [assumption |]. nia.
  - apply Z.div_lt_upper_bound; [assumption |]. nia.
Qed.

Lemma SFdiv_core_binary_large k D :
  0 < k -> 0 < D -> Zdigits2 D + 53 < Zdigits2 k ->
  SFdiv_core_binary prec emax k 0 D 0 =
    (k / D, 0, new_location D (k mod D)).
Proof.
  intros Hk HD Hd. unfold SFdiv_core_binary.
  assert (He : Z.min (fexp prec emax (Zdigits2 k + 0 - (Zdigits2 D + 0)))
                 (0 - 0) = 0)
    by (unfold fexp, SpecFloat.emin, prec, emax; lia).
  rewrite He. change (0 - 0 - 0) with 0. cbv iota.
  rewrite div_eucl_div_mod. reflexivity.
Qed.

Local Open Scope Q_scope.

Lemma of_decimal_error_large k n :
  let D := (10 ^ n)%Z in
  let d1 := Zdigits2 (Zpos k) in
  let d2 := Zdigits2 D in
  (0 <= n)%Z -> (d2 + 53 < d1)%Z -> (d1 - d2 <= 1022)%Z ->
  exists m e,
    of_decimal false k n = S754_finite false m e /\
    normal m /\
    (d1 - d2 - 53 <= e <= d1 - d2 - 51)%Z /\
    inject_Z (Zpos k) * (1 - eps)
      <= inject_Z D * to_Q (S754_finite false m e)
      <= inject_Z (Zpos k) * (1 + eps).
Proof.
  intros D d1 d2 Hn Hd1 Hd2.
  assert (HD : (0 < D)%Z) by (apply Z.pow_pos_nonneg; lia).
  assert (Hd2pos : (0 < d2)%Z) by (apply Zdigits2_pos; lia).
  unfold of_decimal, fdiv, SFdiv.
  rewrite Z2Pos.id by exact HD. fold D.
  rewrite (SFdiv_core_binary_large (Zpos k) D (Pos2Z.is_pos k) HD Hd1).
  cbn [xorb].
  set (N := Zpos k).
  assert (HN : (0 <= N)%Z) by (unfold N; lia).
  pose proof (quotient_digits_large N D d1 d2
                (Zdigits2_bounds _ (Pos2Z.is_pos k)) (Zdigits2_bounds _ HD)
                Hd2pos Hd1) as Hq.
  assert (Hp : (0 < 2 ^ (d1 - d2 - 1))%Z) by (apply Z.pow_pos_nonneg; lia).
  assert (Hq0 : (0 < N / D)%Z) by lia.
  pose proof (Zdigits2_range (N / D) (d1 - d2 - 1) (d1 - d2 + 1) Hq0
                ltac:(lia) Hq) as Hdq.
  assert (Hloc : located (shr_record_of_loc (N / D) (new_location D (N mod D)))
                   N D).
  { replace N with ((N / D) * D + N mod D)%Z at 3
      by (pose proof (Z.div_mod N D ltac:(lia)); lia).
    apply new_location_located; [assumption | | lia].
    apply Z.mod_pos_bound. assumption. }
  destruct (binary_round_aux_error false (N / D) 0 _ N D HD HN Hloc Hq0
              ltac:(lia) ltac:(lia) ltac:(lia))
    as (m & e & Hbra & Hnorm & He & Hval).
  exists m, e. split; [exact Hbra |]. split; [exact Hnorm |].
  split; [lia |].
  change (2 ^ 0) with 1 in Hval. rewrite !Qmult_1_r in Hval.
  revert Hval. cbn [to_Q]. intros Hval.
  split; [eapply Qle_trans; [| apply (proj1 Hval)]
         | eapply Qle_trans; [apply (proj2 Hval) |]]; lra.
Qed.

(** Reading a decimal, whatever its size, as long as the quotient is in
    the range of the normal doubles. *)
Lemma of_decimal_error_any k n :
  let D := (10 ^ n)%Z in
  let d1 := Zdigits2 (Zpos k) in
  let d2 := Zdigits2 D in
  (0 <= n)%Z -> (d2 <= 1000)%Z -> (d1 - d2 <= 1022)%Z ->
  exists m e,
    of_decimal false k n = S754_finite false m e /\
    normal m /\
    (d1 - d2 - 53 <= e <= d1 - d2 - 51)%Z /\
    inject_Z (Zpos k) * (1 - eps)
      <= inject_Z D * to_Q (S754_finite false m e)
      <= inject_Z (Zpos k) * (1 + eps).
Proof.
  intros D d1 d2 Hn Hd2 Hd1.
  destruct (Z_le_gt_dec d1 (d2 + 53)) as [Hs | Hl].
  - apply of_decimal_error; assumption.
  - apply of_decimal_error_large; [assumption | fold D d2 d1; lia | assumption].
Qed.

Lemma pow10_digits n :
  n = 2%Z \/ n = 4%Z ->
  (Zdigits2 (10 ^ n) = 7 /\ n = 2 \/ Zdigits2 (10 ^ n) = 14 /\ n = 4)%Z.
Proof. intros [-> | ->]; [left | right]; split; reflexivity. Qed.

Lemma pow2_nonneg_exponent K b : (0 <= K < 2 ^ b)%Z -> (0 <= b)%Z.
Proof.
  intros HK. destruct (Z_lt_le_dec b 0) as [Hb |]; [| assumption].
  rewrite (Z.pow_neg_r 2 b Hb) in HK. lia.
Qed.

Lemma approx_dec_wide K n b :
  (0 <= K < 2 ^ b)%Z -> (b <= 1021)%Z -> n = 2%Z \/ n = 4%Z ->
  approx (dec K n) (inject_Z K / inject_Z (10 ^ n)) eps (-66)
    (b - 51 - Zdigits2 (10 ^ n)).
Proof.
  intros HK Hb Hn.
  pose proof (pow2_nonneg_exponent K b HK) as Hb0.
  destruct K as [| k | k]; [| | lia].
  - cbn [dec approx]. unfold Qdiv. apply Qmult_0_l.
  - cbn [dec].
    assert (Hd1 : (0 < Zdigits2 (Zpos k) <= b)%Z)
      by (apply (Zdigits2_range (Zpos k) 0 b); lia).
    pose proof (pow10_digits n Hn) as Hd2.
    destruct (of_decimal_error_any k n ltac:(lia) ltac:(lia) ltac:(lia))
      as (m & e & -> & Hnorm & He & Hlo & Hhi).
    unfold approx. split; [assumption |]. split; [lia |].
    assert (Hk : 0 < inject_Z (Zpos k)) by reflexivity.
    destruct Hn as [-> | ->];
      [change (inject_Z (10 ^ 2)) with (100 # 1) in *
      | change (inject_Z (10 ^ 4)) with (10000 # 1) in *];
      set (v := to_Q _) in *; set (kq := inject_Z (Zpos k)) in *;
      rewrite eps_value in *; unfold Qdiv;
      [change (/ (100 # 1)) with (1 # 100)
      | change (/ (10000 # 1)) with (1 # 10000)];
      repeat split; lra.
Qed.

Lemma round_ndigits_units_wide m e n b :
  (units (S754_finite false m e) n < 2 ^ b)%Z -> (b <= 1021)%Z ->
  n = 2%Z \/ n = 4%Z ->
  Py.round_ndigits (S754_finite false m e) n
    = Ok (dec (units (S754_finite false m e) n) n).
Proof.
  intros HK Hb Hn. cbn [units Py.round_ndigits] in *.
  destruct (scaled_rhe_bounds m e n ltac:(lia)) as (H0 & _).
  pose proof (pow2_nonneg_exponent _ b (conj H0 HK)) as Hb0.
  destruct (scaled_rhe m e n) as [| k | k]; [reflexivity | | lia].
  cbn [dec].
  assert (Hd1 : (0 < Zdigits2 (Zpos k) <= b)%Z)
    by (apply (Zdigits2_range (Zpos k) 0 b); lia).
  pose proof (pow10_digits n Hn) as Hd2.
  destruct (of_decimal_error_any k n ltac:(lia) ltac:(lia) ltac:(lia))
    as (m' & e' & -> & _).
  reflexivity.
Qed.

Lemma round_ndigits_approx_wide x q u lo hi n b :
  approx x q u lo hi -> n = 2%Z \/ n = 4%Z -> (b <= 1021)%Z ->
  q * inject_Z (10 ^ n) * (1 + u) + (1 # 2) < inject_Z (2 ^ b) ->
  Py.round_ndigits x n = Ok (dec (units x n) n) /\
  (0 <= units x n < 2 ^ b)%Z /\
  q * inject_Z (10 ^ n) * (1 - u) - (1 # 2)
    <= inject_Z (units x n)
    <= q * inject_Z (10 ^ n) * (1 + u) + (1 # 2).
Proof.
  intros Happ Hn Hb Hsmall.
  assert (HT : 0 < inject_Z (10 ^ n))
    by (destruct Hn as [-> | ->]; reflexivity).
  revert Happ. unfold approx.
  destruct x as [[] | | | [] m e]; try tauto.
  - intros Hq. cbn [units Py.round_ndigits dec].
    split; [reflexivity |]. rewrite Hq in *.
    split; [| change (inject_Z 0) with 0; split; lra].
    split; [lia |]. rewrite Zlt_Qlt. change (inject_Z 0) with 0. lra.
  - intros (_ & _ & Hq & Hl & Hu).
    destruct (scaled_rhe_bounds m e n ltac:(lia)) as (H0 & H1 & H2).
    change (scaled_rhe m e n) with (units (S754_finite false m e) n) in *.
    set (v := to_Q _) in *. set (t := inject_Z (10 ^ n)) in *.
    set (K := units _ n) in *.
    assert (Hb' : q * t * (1 - u) - (1 # 2) <= inject_Z K
                 <= q * t * (1 + u) + (1 # 2)) by (split; nra).
    assert (HK : (K < 2 ^ b)%Z).
    { rewrite Zlt_Qlt. lra. }
    split; [| split; [lia | exact Hb']].
    apply (round_ndigits_units_wide m e n b); assumption.
Qed.

Lemma approx_pow10_fine d :
  d = 2%Z \/ d = 4%Z ->
  approx (of_Z (10 ^ d)) (inject_Z (10 ^ d)) 0
    (Zdigits2 (10 ^ d) - 53) (Zdigits2 (10 ^ d) - 53).
Proof.
  intros [-> | ->].
  - change (of_Z (10 ^ 2)) with (S754_finite false 7036874417766400 (-46)).
    unfold approx, normal. split; [lia |].
    split; [change (Zdigits2 (10 ^ 2)) with 7%Z; lia |].
    assert (E : to_Q (S754_finite false 7036874417766400 (-46))
                == inject_Z (10 ^ 2)) by reflexivity.
    rewrite E. change (inject_Z (10 ^ 2)) with 100. repeat split; lra.
  - change (of_Z (10 ^ 4)) with (S754_finite false 5497558138880000 (-39)).
    unfold approx, normal. split; [lia |].
    split; [change (Zdigits2 (10 ^ 4)) with 14%Z; lia |].
    assert (E : to_Q (S754_finite false 5497558138880000 (-39))
                == inject_Z (10 ^ 4)) by reflexivity.
    rewrite E. change (inject_Z (10 ^ 4)) with 10000. repeat split; lra.
Qed.

(** [round(v * 10^d) * 10^(6-d)] on the double nearest to [K / 10^d]
    gives [K] units back within three roundings and half a unit. *)
Lemma base_units_approx K d b :
  (0 <= K < 2 ^ b)%Z -> (b <= 1021)%Z -> d = 2%Z \/ d = 4%Z ->
  exists K',
    Spec.base_units (dec K d) d = Ok (K' * 10 ^ (6 - d))%Z /\
    (0 <= K')%Z /\
    inject_Z K' <= inject_Z K * (1 + 3 * eps) + (1 # 2).
Proof.
  intros HK Hb Hd. unfold Spec.base_units, Py.mul_int.
  pose proof (pow2_nonneg_exponent K b HK) as Hb0.
  pose proof (approx_dec_wide K d b HK Hb Hd) as HA.
  pose proof (approx_pow10_fine d Hd) as HB.
  pose proof (pow10_digits d Hd) as Hd2.
  pose proof (approx_mul _ _ _ _ _ _ _ _ _ _ HA HB eps_range
                ltac:(split; lra) ltac:(lia) ltac:(lia)) as HM.
  assert (Hq : inject_Z K / inject_Z (10 ^ d) * inject_Z (10 ^ d)
               == inject_Z K).
  { destruct Hd as [-> | ->]; field; discriminate. }
  apply (approx_proper _ _ _ _ _ _ Hq) in HM.
  destruct (round_int_approx _ _ _ _ _ HM) as (K' & -> & HK0 & _ & HK1).
  exists K'. cbn [bind]. split; [reflexivity |]. split; [assumption |].
  pose proof eps_squared as He.
  assert (H0 : 0 <= inject_Z K)
    by (change 0 with (inject_Z 0); rewrite <- Zle_Qle; lia).
  set (u := (1 + eps) * (1 + 0) * (1 + eps) - 1) in *.
  set (kq := inject_Z K) in *. nra.
Qed.

(** The product of the rounded shares and the rounded price. *)
Lemma approx_shares_times_price_wide S P ds b :
  (0 <= S < 2 ^ b)%Z -> (b <= 1021)%Z -> (0 <= P <= 100)%Z ->
  ds = 2%Z \/ ds = 4%Z ->
  approx (fmul (dec S ds) (dec P 2))
    (inject_Z S / inject_Z (10 ^ ds) * (inject_Z P / inject_Z (10 ^ 2)))
    (4 * eps) (-200) 971.
Proof.
  intros HS Hb HP Hds.
  pose proof (pow2_nonneg_exponent S b HS) as Hb0.
  pose proof (approx_dec_wide S ds b HS Hb Hds) as HA.
  pose proof (approx_dec_wide P 2 7 ltac:(lia) ltac:(lia) ltac:(auto)) as HB.
  pose proof (pow10_digits ds Hds) as Hd2.
  change (Zdigits2 (10 ^ 2)) with 7%Z in HB.
  pose proof (approx_mul _ _ _ _ _ _ _ _ _ _ HA HB eps_range eps_range
                ltac:(lia) ltac:(lia)) as HM.
  apply (approx_weaken _ _ _ _ _ (4 * eps) (-200) 971) in HM;
    [exact HM | apply eps_cubed | lia | lia].
Qed.

(** The quote of a large order: at most the shares, up to the roundings. *)
Lemma quote_wide S P ds dq B :
  (0 <= S <= B * 10 ^ ds)%Z -> (B <= 2 ^ 1007)%Z -> (0 <= P <= 100)%Z ->
  ds = 2%Z \/ ds = 4%Z -> dq = 2%Z \/ dq = 4%Z ->
  exists Q,
    Py.round_ndigits (fmul (dec S ds) (dec P 2)) dq = Ok (dec Q dq) /\
    (0 <= Q < 2 ^ 1021)%Z /\
    inject_Z Q <= inject_Z B * inject_Z (10 ^ dq) * (1 + 4 * eps) + (1 # 2).
Proof.
  intros HS HB HP Hds Hdq.
  assert (E14 : (2 ^ 1021 = 16384 * 2 ^ 1007)%Z) by reflexivity.
  assert (HB0 : (0 <= B)%Z) by (destruct Hds as [-> | ->]; lia).
  assert (HS' : (0 <= S < 2 ^ 1021)%Z).
  { rewrite E14. destruct Hds as [-> | ->]; lia. }
  pose proof (approx_shares_times_price_wide S P ds 1021 HS' ltac:(lia)
                HP Hds) as HM.
  set (q := inject_Z S / inject_Z (10 ^ ds) * (inject_Z P / inject_Z (10 ^ 2)))
    in *.
  assert (Hq : 0 <= q <= inject_Z B).
  { assert (Hs : 0 <= inject_Z S / inject_Z (10 ^ ds) <= inject_Z B).
    { assert (H1 : inject_Z S <= inject_Z (B * 10 ^ ds))
        by (rewrite <- Zle_Qle; lia).
      assert (H0 : 0 <= inject_Z S)
        by (change 0 with (inject_Z 0); rewrite <- Zle_Qle; lia).
      rewrite inject_Z_mult in H1. unfold Qdiv.
      destruct Hds as [-> | ->];
        [change (inject_Z (10 ^ 2)) with (100 # 1) in *;
         change (/ (100 # 1)) with (1 # 100)
        | change (inject_Z (10 ^ 4)) with (10000 # 1) in *;
          change (/ (10000 # 1)) with (1 # 10000)];
        split; lra. }
    assert (Hp : 0 <= inject_Z P / inject_Z (10 ^ 2) <= 1).
    { pose proof (inject_Z_range _ _ HP) as [H0 H1].
      change (inject_Z 100) with 100 in H1.
      change (inject_Z (10 ^ 2)) with (100 # 1). unfold Qdiv.
      change (/ (100 # 1)) with (1 # 100). split; lra. }
    unfold q. set (a := inject_Z S / _) in *. set (c := inject_Z P / _) in *.
    split; nra. }
  assert (HBq : inject_Z B <= inject_Z (2 ^ 1007))
    by (rewrite <- Zle_Qle; assumption).
  assert (HB0q : 0 <= inject_Z B)
    by (change 0 with (inject_Z 0); rewrite <- Zle_Qle; assumption).
  assert (E14q : inject_Z (2 ^ 1021) == 16384 * inject_Z (2 ^ 1007)).
  { rewrite E14, inject_Z_mult. reflexivity. }
  assert (Hbig : 1 <= inject_Z (2 ^ 1007)).
  { change 1 with (inject_Z 1). rewrite <- Zle_Qle.
    apply (Z.pow_le_mono_r 2 0 1007); lia. }
  assert (Ht : 0 < inject_Z (10 ^ dq) <= 10000)
    by (destruct Hdq as [-> | ->]; split; reflexivity || discriminate).
  destruct (round_ndigits_approx_wide _ _ _ _ _ dq 1021 HM Hdq ltac:(lia))
    as (Hr & HK & _ & Hu).
  { rewrite E14q. unfold eps.
    set (Bq := inject_Z B) in *. set (T := inject_Z (2 ^ 1007)) in *.
    set (t := inject_Z (10 ^ dq)) in *. nra. }
  eexists. split; [exact Hr |]. split; [exact HK |].
  unfold eps in *.
  set (Bq := inject_Z B) in *. set (t := inject_Z (10 ^ dq)) in *.
  set (Kq := inject_Z (units _ dq)) in *. nra.
Qed.

(** The whole normalisation of a size in (0, B], B up to 2^1007: it
    returns, and no amount exceeds [B] in base units by more than the
    roundings add. *)
Lemma normalize_wide c sd p s B mB eB :
  is_double p = true -> price_in_range p ->
  is_double s = true -> size_positive s -> Py.le_int s B = true ->
  of_Z B = S754_finite false mB eB -> normal mB ->
  to_Q (S754_finite false mB eB) == inject_Z B ->
  (B <= 2 ^ 1007)%Z ->
  exists n,
    Spec.normalize c sd p s = Ok n /\
    (0 <= Spec.norm_maker_amount n)%Z /\
    (0 <= Spec.norm_taker_amount n)%Z /\
    inject_Z (Spec.norm_maker_amount n)
      <= inject_Z B * 1000000 * (1 + 8 * eps) + 20000 /\
    inject_Z (Spec.norm_taker_amount n)
      <= inject_Z B * 1000000 * (1 + 8 * eps) + 20000.
Proof.
  intros Hpd Hp Hsd Hs HsB HB HnB HBq HBmax.
  destruct (price_units p Hpd Hp) as [HP HrP].
  assert (Hds : Spec.shares_decimals sd c = 2%Z \/
                Spec.shares_decimals sd c = 4%Z)
    by (destruct sd, c; cbn; auto).
  assert (Hdq : Spec.quote_decimals sd c = 2%Z \/
                Spec.quote_decimals sd c = 4%Z)
    by (destruct sd, c; cbn; auto).
  destruct (input_units s B mB eB (Spec.shares_decimals sd c)
              Hsd Hs HsB HB HnB HBq ltac:(destruct Hds as [E | E]; rewrite E; lia))
    as (m & e & -> & _ & HS).
  assert (E14 : (2 ^ 1021 = 16384 * 2 ^ 1007)%Z) by reflexivity.
  assert (HS' : (0 <= units (S754_finite false m e)
                        (Spec.shares_decimals sd c) < 2 ^ 1021)%Z).
  { rewrite E14. destruct Hds as [E | E]; rewrite E in *; lia. }
  pose proof (round_ndigits_units_wide m e _ 1021 (proj2 HS')
                ltac:(lia) Hds) as HrS.
  set (S := units (S754_finite false m e) (Spec.shares_decimals sd c)) in *.
  set (P := units p 2) in *.
  destruct (quote_wide S P _ _ B HS HBmax HP Hds Hdq)
    as (Q & HrQ & HQ & HQu).
  destruct (base_units_approx S _ 1021 HS' ltac:(lia) Hds)
    as (KS & HbS & HKS0 & HKSu).
  destruct (base_units_approx Q _ 1021 HQ ltac:(lia) Hdq)
    as (KQ & HbQ & HKQ0 & HKQu).
  assert (HSq : 0 <= inject_Z S <=
                inject_Z B * inject_Z (10 ^ Spec.shares_decimals sd c)).
  { rewrite <- inject_Z_mult. apply inject_Z_range. exact HS. }
  assert (HQ0 : 0 <= inject_Z Q)
    by (change 0 with (inject_Z 0); rewrite <- Zle_Qle; lia).
  assert (HKS0q : 0 <= inject_Z KS)
    by (change 0 with (inject_Z 0); rewrite <- Zle_Qle; lia).
  assert (HKQ0q : 0 <= inject_Z KQ)
    by (change 0 with (inject_Z 0); rewrite <- Zle_Qle; lia).
  assert (HB0 : 0 <= inject_Z B).
  { assert (0 <= B)%Z by (destruct Hds as [E | E]; rewrite E in *; lia).
    change 0 with (inject_Z 0). rewrite <- Zle_Qle. assumption. }
  assert (Hshares :
    (0 <= KS * 10 ^ (6 - Spec.shares_decimals sd c))%Z /\
    inject_Z (KS * 10 ^ (6 - Spec.shares_decimals sd c))
      <= inject_Z B * 1000000 * (1 + 8 * eps) + 20000).
  { split; [destruct Hds as [E | E]; rewrite E; lia |].
    rewrite inject_Z_mult. unfold eps in *.
    set (Bq := inject_Z B) in *. set (Sq := inject_Z S) in *.
    set (k := inject_Z KS) in *.
    destruct Hds as [E | E]; rewrite E in *;
      [change (inject_Z (10 ^ (6 - 2))) with 10000;
       change (inject_Z (10 ^ 2)) with 100 in *
      | change (inject_Z (10 ^ (6 - 4))) with 100;
        change (inject_Z (10 ^ 4)) with 10000 in *]; lra. }
  assert (Hquote :
    (0 <= KQ * 10 ^ (6 - Spec.quote_decimals sd c))%Z /\
    inject_Z (KQ * 10 ^ (6 - Spec.quote_decimals sd c))
      <= inject_Z B * 1000000 * (1 + 8 * eps) + 20000).
  { split; [destruct Hdq as [E | E]; rewrite E; lia |].
    rewrite inject_Z_mult. unfold eps in *.
    set (Bq := inject_Z B) in *. set (Qq := inject_Z Q) in *.
    set (k := inject_Z KQ) in *.
    destruct Hdq as [E | E]; rewrite E in *;
      [change (inject_Z (10 ^ (6 - 2))) with 10000;
       change (inject_Z (10 ^ 2)) with 100 in *
      | change (inject_Z (10 ^ (6 - 4))) with 100;
        change (inject_Z (10 ^ 4)) with 10000 in *]; lra. }
  unfold Spec.normalize. rewrite HrP, HrS. cbn [bind].
  rewrite HrQ. cbn [bind].
  destruct sd; cbn [fst snd]; rewrite ?HbS, ?HbQ; cbn [bind];
    rewrite ?HbS, ?HbQ; cbn [bind];
    eexists; (split; [reflexivity |]);
    cbn [Spec.norm_maker_amount Spec.norm_taker_amount]; tauto.
Qed.

Local Close Scope Q_scope.

End WideRange.


(** ** Validation and the precision table *)

Section Normalisation.
Import PyFloat.

Lemma side_of_string_upper s sd :
  Spec.side_of_string (Py.upper s) = Some sd ->
  string_in (Py.upper s) ["BUY"; "SELL"] = true /\
  String.eqb (Py.upper s) "BUY" = match sd with Spec.BUY => true | Spec.SELL => false end.
Proof.
  unfold Spec.side_of_string, string_in. cbn [existsb].
  destruct (String.eqb (Py.upper s) "BUY") eqn:Eb.
  - intros [= <-]. split; reflexivity.
  - destruct (String.eqb (Py.upper s) "SELL") eqn:Es; [| discriminate].
    intros [= <-]. split; reflexivity.
Qed.

Lemma class_of_order_type_market ot c :
  Spec.class_of_order_type ot = Some c ->
  string_in ot ["FOK"; "FAK"] = match c with Spec.MARKET => true | Spec.LIMIT => false end.
Proof.
  unfold Spec.class_of_order_type, string_in. cbn [existsb].
  destruct (String.eqb_spec ot "GTC") as [-> | _]; [intros [= <-]; reflexivity |].
  destruct (String.eqb_spec ot "GTD") as [-> | _]; [intros [= <-]; reflexivity |].
  cbn [orb].
  destruct (String.eqb ot "FOK"), (String.eqb ot "FAK"); cbn;
    intros [= <-]; reflexivity.
Qed.

(** A positive float is not [<= 0]: the size check lets it through. *)
Lemma positive_not_le_zero x : Py.lt_int 0 x = true -> Py.le_int x 0 = false.
Proof.
  unfold Py.lt_int, Py.le_int, fltb, fleb, SFltb, SFleb.
  change (of_Z 0) with (S754_zero false).
  destruct x as [s | [] | | [] m e]; cbn; congruence.
Qed.

(** On the inputs that pass the checks, [__post_init__] is the table-driven
    algorithm of the specification. *)
Lemma post_init_normalize o sd c :
  Spec.side_of_string (Py.upper (init_side o)) = Some sd ->
  Spec.class_of_order_type (init_order_type o) = Some c ->
  price_in_range (init_price o) ->
  Py.le_int (init_size o) 0 = false ->
  Order_post_init o =
    (do n <- Spec.normalize c sd (init_price o) (init_size o) in
     Ok (order_of o n)).
Proof.
  intros Hsd Hc [Hp0 Hp1] Hs.
  destruct (side_of_string_upper _ _ Hsd) as [Hin Hbuy].
  pose proof (class_of_order_type_market _ _ Hc) as Hm.
  unfold Order_post_init, Spec.normalize, order_of.
  rewrite Hin, Hp0, Hp1, Hs, Hbuy, Hm. cbn [negb andb].
  destruct (Py.round_ndigits (init_price o) 2) as [p |]; [| reflexivity].
  cbn [bind].
  destruct sd, c; cbn [Spec.shares_decimals Spec.quote_decimals];
    (destruct (Py.round_ndigits (init_size o) _) as [sh |]; [| reflexivity]);
    cbn [bind];
    (destruct (Py.round_ndigits (fmul sh p) _) as [q |]; [| reflexivity]);
    cbn [bind fst snd]; unfold Spec.base_units;
    (destruct (Py.round_int (Py.mul_int _ _)) as [k1 |]; [| reflexivity]);
    cbn [bind];
    (destruct (Py.round_int (Py.mul_int _ _)) as [k2 |]; [| reflexivity]);
    reflexivity.
Qed.

Lemma round_ndigits_raise x n e :
  Py.round_ndigits x n = Raise e -> e = Round_too_large.
Proof.
  unfold Py.round_ndigits. destruct x as [| | | s m e']; try discriminate.
  destruct (scaled_rhe m e' n); try discriminate.
  destruct (of_decimal s p n); congruence.
Qed.

Lemma round_int_raise x e :
  Py.round_int x = Raise e -> e = Float_nan_to_int \/ e = Float_inf_to_int.
Proof.
  destruct x; cbn; intros [=]; auto.
Qed.

(** Once the checks are passed, what can still be raised comes from the
    conversions of floats, never from the checks. *)
Lemma post_init_late_errors o e :
  string_in (Py.upper (init_side o)) ["BUY"; "SELL"] = true ->
  price_in_range (init_price o) ->
  Py.le_int (init_size o) 0 = false ->
  Order_post_init o = Raise e ->
  e = Round_too_large \/ e = Float_nan_to_int \/ e = Float_inf_to_int.
Proof.
  intros Hin [Hp0 Hp1] Hs. unfold Order_post_init.
  rewrite Hin, Hp0, Hp1, Hs. cbn [negb andb].
  repeat
    match goal with
    | |- context [if ?b then _ else _] => destruct b
    | |- context [bind (Py.round_ndigits ?x ?n) _] =>
        let E := fresh "E" in
        destruct (Py.round_ndigits x n) as [? |] eqn:E; cbn [bind];
        [| apply round_ndigits_raise in E; intros [= <-]; auto]
    | |- context [bind (Py.round_int ?x) _] =>
        let E := fresh "E" in
        destruct (Py.round_int x) as [? |] eqn:E; cbn [bind];
        [| apply round_int_raise in E; intros [= <-]; tauto]
    end;
    discriminate.
Qed.

End Normalisation.

(** ** Claims on [Order.__post_init__] *)

Section OrderClaims.
Import PyFloat.

(** C1. For a side in BUY/SELL, an order type in GTC/GTD/FOK/FAK, a price
    in (0,1] and a size above 0, [Order(...)] computes what the reference
    algorithm computes: price rounded to 2 places, shares rounded to the
    shares ceiling of the row, quote = round(shares * price, quote ceiling),
    maker/taker = (quote, shares) for BUY and (shares, quote) for SELL, side
    code 0 for BUY and 1 for SELL; it raises exactly when that algorithm
    does, with the same exception. *)
Theorem post_init_follows_reference o sd c :
  Spec.side_of_string (Py.upper (init_side o)) = Some sd ->
  Spec.class_of_order_type (init_order_type o) = Some c ->
  price_in_range (init_price o) ->
  size_positive (init_size o) ->
  Order_post_init o =
    (do n <- Spec.normalize c sd (init_price o) (init_size o) in
     Ok (order_of o n)).
Proof.
  intros Hsd Hc Hp Hs.
  apply post_init_normalize; auto using positive_not_le_zero.
Qed.

Lemma post_init_follows_reference_witness :
  Order_post_init market_sell =
    (do n <- Spec.normalize Spec.MARKET Spec.SELL
               (init_price market_sell) (init_size market_sell) in
     Ok (order_of market_sell n)).
Proof.
  apply (post_init_follows_reference market_sell Spec.SELL Spec.MARKET);
    [reflexivity | reflexivity | split; reflexivity | reflexivity].
Defined.

(** What a successful construction looks like, leg by leg. *)
Lemma post_init_legs o sd c ord :
  Spec.side_of_string (Py.upper (init_side o)) = Some sd ->
  Spec.class_of_order_type (init_order_type o) = Some c ->
  price_in_range (init_price o) ->
  Py.le_int (init_size o) 0 = false ->
  Order_post_init o = Ok ord ->
  exists p shares quote km kt,
    Py.round_ndigits (init_price o) 2 = Ok p /\
    Py.round_ndigits (init_size o) (Spec.shares_decimals sd c) = Ok shares /\
    Py.round_ndigits (fmul shares p) (Spec.quote_decimals sd c) = Ok quote /\
    Py.round_int
      (Py.mul_int (match sd with Spec.BUY => quote | Spec.SELL => shares end)
         (10 ^ maker_decimals sd c)) = Ok km /\
    Py.round_int
      (Py.mul_int (match sd with Spec.BUY => shares | Spec.SELL => quote end)
         (10 ^ taker_decimals sd c)) = Ok kt /\
    ord = order_of o
            (Spec.mkNormalized p (km * 10 ^ (6 - maker_decimals sd c))
               (kt * 10 ^ (6 - taker_decimals sd c)) (Spec.side_code sd)).
Proof.
  intros Hsd Hc Hp Hs Hok.
  rewrite (post_init_normalize o sd c Hsd Hc Hp Hs) in Hok.
  unfold Spec.normalize, Spec.base_units in Hok.
  destruct (Py.round_ndigits (init_price o) 2) as [p |] eqn:Ep;
    [| discriminate].
  cbn [bind] in Hok.
  destruct (Py.round_ndigits (init_size o) _) as [sh |] eqn:Esh;
    [| discriminate].
  cbn [bind] in Hok.
  destruct (Py.round_ndigits (fmul sh p) _) as [q |] eqn:Eq;
    [| discriminate].
  cbn [bind] in Hok.
  destruct sd; cbn [fst snd maker_decimals taker_decimals] in *;
    repeat
      match type of Hok with
      | context [Py.round_int ?x] =>
          let E := fresh "E" in
          destruct (Py.round_int x) as [? |] eqn:E; [| discriminate];
          cbn [bind] in Hok
      end;
    injection Hok as <-; eexists p, sh, q, _, _; repeat split; eassumption.
Qed.

(** The converse: when every rounding of the chain returns, so does the
    construction, with the amounts of the chain. *)
Lemma post_init_of_legs o sd c p shares quote km kt :
  Spec.side_of_string (Py.upper (init_side o)) = Some sd ->
  Spec.class_of_order_type (init_order_type o) = Some c ->
  price_in_range (init_price o) ->
  Py.le_int (init_size o) 0 = false ->
  Py.round_ndigits (init_price o) 2 = Ok p ->
  Py.round_ndigits (init_size o) (Spec.shares_decimals sd c) = Ok shares ->
  Py.round_ndigits (fmul shares p) (Spec.quote_decimals sd c) = Ok quote ->
  Py.round_int
    (Py.mul_int (match sd with Spec.BUY => quote | Spec.SELL => shares end)
       (10 ^ maker_decimals sd c)) = Ok km ->
  Py.round_int
    (Py.mul_int (match sd with Spec.BUY => shares | Spec.SELL => quote end)
       (10 ^ taker_decimals sd c)) = Ok kt ->
  Order_post_init o =
    Ok (order_of o
          (Spec.mkNormalized p (km * 10 ^ (6 - maker_decimals sd c))
             (kt * 10 ^ (6 - taker_decimals sd c)) (Spec.side_code sd))).
Proof.
  intros Hsd Hc Hp Hs Ep Esh Eq Ekm Ekt.
  rewrite (post_init_normalize o sd c Hsd Hc Hp Hs).
  unfold Spec.normalize, Spec.base_units.
  rewrite Ep. cbn [bind]. rewrite Esh. cbn [bind]. rewrite Eq. cbn [bind].
  destruct sd; cbn [fst snd maker_decimals taker_decimals] in *;
    rewrite ?Ekm, ?Ekt; cbn [bind]; rewrite ?Ekm, ?Ekt; reflexivity.
Qed.

(** C2. On a valid input, with [shares] the size rounded to the shares
    ceiling of the row and [quote] the rounded product of [shares] and the
    rounded price, each amount of the constructed order is the decimal
    string of [round(value * 10^d) * 10^(6-d)], where [value] is the quote
    or the shares of its leg (maker = quote and taker = shares for BUY, the
    reverse for SELL) and [d] the decimal ceiling of that leg; so it is a
    multiple of [10^(6-d)]: LIMIT BUY maker by 10^2 and taker by 10^4,
    MARKET BUY maker by 10^4 and taker by 10^2, SELL maker by 10^4 and taker
    by 10^2.  The construction returns exactly when these roundings do. *)
Theorem amounts_zero_low_digits o sd c :
  Spec.side_of_string (Py.upper (init_side o)) = Some sd ->
  Spec.class_of_order_type (init_order_type o) = Some c ->
  price_in_range (init_price o) ->
  size_positive (init_size o) ->
  (forall ord, Order_post_init o = Ok ord ->
     exists p shares quote km kt,
       Py.round_ndigits (init_price o) 2 = Ok p /\
       Py.round_ndigits (init_size o) (Spec.shares_decimals sd c)
         = Ok shares /\
       Py.round_ndigits (fmul shares p) (Spec.quote_decimals sd c)
         = Ok quote /\
       Py.round_int
         (Py.mul_int
            (match sd with Spec.BUY => quote | Spec.SELL => shares end)
            (10 ^ maker_decimals sd c)) = Ok km /\
       Py.round_int
         (Py.mul_int
            (match sd with Spec.BUY => shares | Spec.SELL => quote end)
            (10 ^ taker_decimals sd c)) = Ok kt /\
       maker_amount ord = Py.str (km * 10 ^ (6 - maker_decimals sd c)) /\
       taker_amount ord = Py.str (kt * 10 ^ (6 - taker_decimals sd c)) /\
       Py.int (maker_amount ord)
         = Ok (km * 10 ^ (6 - maker_decimals sd c)) /\
       Py.int (taker_amount ord)
         = Ok (kt * 10 ^ (6 - taker_decimals sd c)) /\
       match sd, c with
       | Spec.BUY, Spec.LIMIT =>
           (10 ^ 2 | km * 10 ^ (6 - maker_decimals sd c)) /\
           (10 ^ 4 | kt * 10 ^ (6 - taker_decimals sd c))
       | Spec.BUY, Spec.MARKET =>
           (10 ^ 4 | km * 10 ^ (6 - maker_decimals sd c)) /\
           (10 ^ 2 | kt * 10 ^ (6 - taker_decimals sd c))
       | Spec.SELL, _ =>
           (10 ^ 4 | km * 10 ^ (6 - maker_decimals sd c)) /\
           (10 ^ 2 | kt * 10 ^ (6 - taker_decimals sd c))
       end) /\
  (forall p shares quote km kt,
     Py.round_ndigits (init_price o) 2 = Ok p ->
     Py.round_ndigits (init_size o) (Spec.shares_decimals sd c) = Ok shares ->
     Py.round_ndigits (fmul shares p) (Spec.quote_decimals sd c) = Ok quote ->
     Py.round_int
       (Py.mul_int
          (match sd with Spec.BUY => quote | Spec.SELL => shares end)
          (10 ^ maker_decimals sd c)) = Ok km ->
     Py.round_int
       (Py.mul_int
          (match sd with Spec.BUY => shares | Spec.SELL => quote end)
          (10 ^ taker_decimals sd c)) = Ok kt ->
     exists ord,
       Order_post_init o = Ok ord /\
       maker_amount ord = Py.str (km * 10 ^ (6 - maker_decimals sd c)) /\
       taker_amount ord = Py.str (kt * 10 ^ (6 - taker_decimals sd c))).
Proof.
  intros Hsd Hc Hp Hs. split.
  - intros ord Hok.
    destruct (post_init_legs o sd c ord Hsd Hc Hp
                (positive_not_le_zero _ Hs) Hok)
      as (p & sh & q & km & kt & Ep & Esh & Eq & Hkm & Hkt & ->).
    exists p, sh, q, km, kt.
    do 5 (split; [assumption |]).
    cbn [order_of maker_amount taker_amount Spec.norm_maker_amount
           Spec.norm_taker_amount].
    rewrite !PyStrFacts.int_str.
    do 4 (split; [reflexivity |]).
    destruct sd, c; cbn [maker_decimals taker_decimals Spec.quote_decimals
                           Spec.shares_decimals];
      split; apply Z.divide_factor_r.
  - intros p sh q km kt Ep Esh Eq Hkm Hkt.
    eexists. split.
    + apply (post_init_of_legs o sd c p sh q km kt); auto.
      apply positive_not_le_zero, Hs.
    + split; reflexivity.
Qed.

Lemma amounts_zero_low_digits_witness :
  exists ord,
    Order_post_init market_buy = Ok ord /\
    maker_amount ord = "1020000" /\ taker_amount ord = "1680000" /\
    exists p shares quote km kt,
      Py.round_ndigits (init_price market_buy) 2 = Ok p /\
      Py.round_ndigits (init_size market_buy) 4 = Ok shares /\
      Py.round_ndigits (fmul shares p) 2 = Ok quote /\
      Py.round_int (Py.mul_int quote (10 ^ 2)) = Ok km /\
      Py.round_int (Py.mul_int shares (10 ^ 4)) = Ok kt /\
      maker_amount ord = Py.str (km * 10 ^ 4) /\
      taker_amount ord = Py.str (kt * 10 ^ 2) /\
      Py.int (maker_amount ord) = Ok (km * 10 ^ 4) /\
      Py.int (taker_amount ord) = Ok (kt * 10 ^ 2) /\
      (10 ^ 4 | km * 10 ^ 4) /\ (10 ^ 2 | kt * 10 ^ 2).
Proof.
  eexists. split; [vm_compute; reflexivity |].
  split; [reflexivity |]. split; [reflexivity |].
  apply (proj1 (amounts_zero_low_digits market_buy Spec.BUY Spec.MARKET
                  eq_refl eq_refl (conj eq_refl eq_refl) eq_refl)).
  vm_compute; reflexivity.
Defined.

(** C5 as the specification words it: maker_amount 10290000 for the LIMIT
    BUY at price 0.70 and size 1.47. The code yields 1029000. *)
Lemma scenario_1_maker_amount_is_not_10290000 :
  ~ (exists ord, Order_post_init limit_order = Ok ord /\
                 maker_amount ord = "10290000" /\
                 taker_amount ord = "1470000").
Proof.
  intros (ord & Hok & Hmk & _).
  vm_compute in Hok. injection Hok as <-. discriminate Hmk.
Qed.

(** C5, amended. For the LIMIT (GTC) BUY at price 0.70 and size 1.47 the
    shares round to 1.47, the quote is round(1.47 * 0.70, 4) = 1.029,
    maker_amount is 1029000 (1.029 in base units) and taker_amount is
    1470000. *)
Theorem scenario_1_amounts :
  Py.round_ndigits (init_price limit_order) 2 = Ok (of_decimal false 70 2) /\
  Py.round_ndigits (init_size limit_order) 2 = Ok (of_decimal false 147 2) /\
  Py.round_ndigits
    (fmul (of_decimal false 147 2) (of_decimal false 70 2)) 4
    = Ok (of_decimal false 1029 3) /\
  exists ord, Order_post_init limit_order = Ok ord /\
              maker_amount ord = "1029000" /\
              taker_amount ord = "1470000" /\
              Py.int (maker_amount ord) = Ok (10290 * 10 ^ 2) /\
              Py.int (taker_amount ord) = Ok (147 * 10 ^ 4).
Proof.
  repeat split; try (vm_compute; reflexivity).
  eexists. split; [vm_compute; reflexivity |].
  repeat split; vm_compute; reflexivity.
Qed.

(** The other two orders of test_decimal_precision.py. *)
Example scenario_2_amounts :
  exists ord, Order_post_init market_buy = Ok ord /\
              maker_amount ord = "1020000" /\ taker_amount ord = "1680000".
Proof. eexists. split; [vm_compute; reflexivity |]. split; reflexivity. Qed.

Example scenario_3_amounts :
  exists ord, Order_post_init market_sell = Ok ord /\
              maker_amount ord = "5560000" /\ taker_amount ord = "611600".
Proof. eexists. split; [vm_compute; reflexivity |]. split; reflexivity. Qed.

(** C8. Two constructions that agree on order type, side, price and size
    (whatever their other fields) end alike: both return, with the same
    maker_amount, taker_amount and side code, or both raise the same
    exception. *)
Theorem normalisation_is_deterministic o1 o2 :
  init_order_type o1 = init_order_type o2 ->
  init_side o1 = init_side o2 ->
  init_price o1 = init_price o2 ->
  init_size o1 = init_size o2 ->
  match Order_post_init o1, Order_post_init o2 with
  | Ok a, Ok b =>
      maker_amount a = maker_amount b /\
      taker_amount a = taker_amount b /\
      side_value a = side_value b
  | Raise e1, Raise e2 => e1 = e2
  | _, _ => False
  end.
Proof.
  intros Ht Hsd Hp Hs. unfold Order_post_init.
  rewrite <- Ht, <- Hsd, <- Hp, <- Hs.
  repeat
    match goal with
    | |- context [if ?b then _ else _] => destruct b; try reflexivity
    | |- context [bind ?c _] =>
        destruct c as [? |]; cbn [bind]; try reflexivity
    end;
    repeat split.
Qed.

Lemma normalisation_is_deterministic_witness :
  match Order_post_init limit_order,
        Order_post_init
          {| init_token_id := "42";
             init_price := init_price limit_order;
             init_size := init_size limit_order;
             init_side := init_side limit_order;
             init_maker := Eth.ZERO_ADDRESS;
             init_nonce := Some 7;
             init_fee_rate_bps := 0;
             init_signature_type := 2;
             init_order_type := init_order_type limit_order |} with
  | Ok a, Ok b =>
      maker_amount a = maker_amount b /\
      taker_amount a = taker_amount b /\
      side_value a = side_value b
  | Raise e1, Raise e2 => e1 = e2
  | _, _ => False
  end.
Proof.
  apply normalisation_is_deterministic; reflexivity.
Defined.

(** C3 as the specification words it ("for every price in (0,1] and
    size > 0 it never raises and both amounts fit 256 bits"): a LIMIT BUY of
    1e80 shares at 0.5 is constructed with a taker_amount above 2^256, and
    one of 1e305 shares raises OverflowError. *)
Lemma valid_orders_beyond_uint256 :
  (price_in_range (init_price huge_limit_buy) /\
   size_positive (init_size huge_limit_buy) /\
   exists ord tk,
     Order_post_init huge_limit_buy = Ok ord /\
     Py.int (taker_amount ord) = Ok tk /\
     2 ^ 256 <= tk) /\
  (price_in_range (init_price overflowing_limit_buy) /\
   size_positive (init_size overflowing_limit_buy) /\
   Order_post_init overflowing_limit_buy = Raise Float_inf_to_int /\
   class_of Float_inf_to_int = OverflowError).
Proof.
  split.
  - split; [split; reflexivity |]. split; [reflexivity |].
    eexists _, _. split; [vm_compute; reflexivity |].
    split; [vm_compute; reflexivity |].
    vm_compute. discriminate.
  - split; [split; reflexivity |]. split; [reflexivity |].
    split; [vm_compute; reflexivity | reflexivity].
Qed.

(** A NaN size is not [<= 0]: it passes the size check and is refused
    only when [int(round(...))] meets it. *)
Example nan_size_passes_the_size_check :
  Py.le_int (init_size nan_limit_buy) 0 = false /\
  Order_post_init nan_limit_buy = Raise Float_nan_to_int.
Proof. split; vm_compute; reflexivity. Qed.

(** The size bound of the 256-bit range cannot be moved by five doubles:
    a LIMIT BUY at 1.0 of 4722366482869645 * 2^184 shares, a size still
    below 2^256 / 10^6, has a maker_amount of 2^256 or more.  A LIMIT BUY
    of 1e70 shares at 0.5 is within the bounds. *)
Example uint256_size_bound_is_sharp :
  (price_in_range (init_price threshold_limit_buy) /\
   size_positive (init_size threshold_limit_buy) /\
   Py.le_int (init_size threshold_limit_buy)
     (4722366482869645 * 2 ^ 184) = true /\
   4722366482869645 * 2 ^ 184 * 10 ^ 6 < 2 ^ 256 /\
   exists ord mk,
     Order_post_init threshold_limit_buy = Ok ord /\
     Py.int (maker_amount ord) = Ok mk /\
     2 ^ 256 <= mk) /\
  (Py.le_int (init_size wide_limit_buy)
     (4722366482869641 * 2 ^ 184) = true /\
   exists ord mk tk,
     Order_post_init wide_limit_buy = Ok ord /\
     Py.int (maker_amount ord) = Ok mk /\
     Py.int (taker_amount ord) = Ok tk /\
     0 <= mk < 2 ^ 256 /\ 0 <= tk < 2 ^ 256).
Proof.
  split.
  - split; [split; reflexivity |]. split; [reflexivity |].
    split; [vm_compute; reflexivity |]. split; [reflexivity |].
    eexists _, _. split; [vm_compute; reflexivity |].
    split; [vm_compute; reflexivity |].
    vm_compute. discriminate.
  - split; [vm_compute; reflexivity |].
    eexists _, _, _. split; [vm_compute; reflexivity |].
    split; [vm_compute; reflexivity |].
    split; [vm_compute; reflexivity |].
    split; split; vm_compute; (reflexivity || discriminate).
Qed.

(** C3, amended. For a side in BUY/SELL and an order type in
    GTC/GTD/FOK/FAK: the invalid-price error is raised exactly when the
    price is not in (0,1], and the invalid-size error exactly when the
    price is in range and size <= 0, each carrying the value as it was
    passed (nothing is rounded or clamped first); for a price in (0,1]
    and a size > 0 the construction either returns, with both amounts
    non-negative integers, or raises from a rounding or an integer
    conversion of a value that is too large, infinite or NaN; for doubles
    with the price in (0,1] and 0 < size <= 2^1007 (1.3e303) it returns;
    and for 0 < size <= 4722366482869641 * 2^184 (1.15792e71, four
    doubles under 2^256 / 10^6) both amounts are below 2^256. *)
Theorem construction_errors_and_range o sd c :
  Spec.side_of_string (Py.upper (init_side o)) = Some sd ->
  Spec.class_of_order_type (init_order_type o) = Some c ->
  (forall v, Order_post_init o = Raise (Invalid_price v) <->
             ~ price_in_range (init_price o) /\ v = init_price o) /\
  (forall v, Order_post_init o = Raise (Invalid_size v) <->
             price_in_range (init_price o) /\
             Py.le_int (init_size o) 0 = true /\ v = init_size o) /\
  (price_in_range (init_price o) -> size_positive (init_size o) ->
   (forall ord, Order_post_init o = Ok ord ->
      exists mk tk,
        Py.int (maker_amount ord) = Ok mk /\
        Py.int (taker_amount ord) = Ok tk /\ 0 <= mk /\ 0 <= tk) /\
   (forall e, Order_post_init o = Raise e ->
      e = Round_too_large \/ e = Float_nan_to_int \/ e = Float_inf_to_int)) /\
  (is_double (init_price o) = true -> is_double (init_size o) = true ->
   price_in_range (init_price o) -> size_positive (init_size o) ->
   (Py.le_int (init_size o) (2 ^ 1007) = true ->
    exists ord mk tk,
      Order_post_init o = Ok ord /\
      Py.int (maker_amount ord) = Ok mk /\
      Py.int (taker_amount ord) = Ok tk /\ 0 <= mk /\ 0 <= tk) /\
   (Py.le_int (init_size o) (4722366482869641 * 2 ^ 184) = true ->
    exists ord mk tk,
      Order_post_init o = Ok ord /\
      Py.int (maker_amount ord) = Ok mk /\
      Py.int (taker_amount ord) = Ok tk /\
      0 <= mk < 2 ^ 256 /\ 0 <= tk < 2 ^ 256)).
Proof.
  intros Hsd Hc.
  destruct (side_of_string_upper _ _ Hsd) as [Hin _].
  assert (Hchecks :
    Order_post_init o =
      if negb (Py.lt_int 0 (init_price o) && Py.le_int (init_price o) 1)
      then Raise (Invalid_price (init_price o))
      else if Py.le_int (init_size o) 0
           then Raise (Invalid_size (init_size o))
           else Order_post_init o).
  { unfold Order_post_init. rewrite Hin. cbn [negb].
    destruct (negb _); [reflexivity |].
    destruct (Py.le_int (init_size o) 0); reflexivity. }
  assert (Hrange : price_in_range (init_price o) <->
                   Py.lt_int 0 (init_price o) && Py.le_int (init_price o) 1
                   = true).
  { unfold price_in_range. rewrite andb_true_iff. tauto. }
  split; [| split; [| split]].
  - intros v. rewrite Hchecks.
    destruct (Py.lt_int 0 (init_price o) && Py.le_int (init_price o) 1)
      eqn:Ep; cbn [negb].
    + assert (Hp : price_in_range (init_price o)) by (apply Hrange; reflexivity).
      destruct (Py.le_int (init_size o) 0) eqn:Es.
      * split; [discriminate | tauto].
      * split; [| tauto]. intros Hr.
        destruct (post_init_late_errors o _ Hin Hp Es Hr) as [E | [E | E]];
          discriminate E.
    + split.
      * intros [= <-]. split; [| reflexivity].
        rewrite Hrange. congruence.
      * intros [_ ->]. reflexivity.
  - intros v. rewrite Hchecks.
    destruct (Py.lt_int 0 (init_price o) && Py.le_int (init_price o) 1)
      eqn:Ep; cbn [negb].
    + assert (Hp : price_in_range (init_price o)) by (apply Hrange; reflexivity).
      destruct (Py.le_int (init_size o) 0) eqn:Es.
      * split; [intros [= <-]; auto | intros (_ & _ & ->); reflexivity].
      * split; [| intros (_ & [=] & _)]. intros Hr.
        destruct (post_init_late_errors o _ Hin Hp Es Hr) as [E | [E | E]];
          discriminate E.
    + split; [discriminate |]. rewrite Hrange. intros (Hp & _). congruence.
  - intros Hp Hs. split.
    + intros ord.
      rewrite (post_init_normalize o sd c Hsd Hc Hp
                 (positive_not_le_zero _ Hs)).
      destruct (Spec.normalize c sd _ _) as [n |] eqn:En; cbn [bind];
        [| discriminate].
      intros [= <-].
      destruct (RoundingFacts.normalize_not_negative _ _ _ _ _
                  (proj1 Hp) Hs En) as [Hmk Htk].
      cbn [order_of maker_amount taker_amount].
      rewrite !PyStrFacts.int_str. eexists _, _. auto.
    + intros e. apply post_init_late_errors; auto using positive_not_le_zero.
  - intros Hpd Hsdb Hp Hs.
    rewrite (post_init_normalize o sd c Hsd Hc Hp (positive_not_le_zero _ Hs)).
    split; intros Hle.
    + destruct (WideRange.normalize_wide c sd _ _ (2 ^ 1007)
                  (2 ^ 52)%positive 955 Hpd Hp Hsdb Hs Hle eq_refl
                  ltac:(unfold Rounding.normal; lia) ltac:(reflexivity) ltac:(lia))
        as (n & -> & Hmk & Htk & _).
      cbn [bind]. eexists _, _, _. split; [reflexivity |].
      cbn [order_of maker_amount taker_amount].
      rewrite !PyStrFacts.int_str. auto.
    + destruct (WideRange.normalize_wide c sd _ _
                  (4722366482869641 * 2 ^ 184) 4722366482869641%positive 184
                  Hpd Hp Hsdb Hs Hle eq_refl
                  ltac:(unfold Rounding.normal; lia) ltac:(reflexivity)
                  ltac:(vm_compute; discriminate))
        as (n & -> & Hmk & Htk & Hmq & Htq).
      cbn [bind]. eexists _, _, _. split; [reflexivity |].
      cbn [order_of maker_amount taker_amount].
      rewrite !PyStrFacts.int_str. split; [reflexivity |].
      split; [reflexivity |].
      assert (Hfit : (inject_Z (4722366482869641 * 2 ^ 184) * 1000000
                      * (1 + 8 * Rounding.eps) + 20000
                      < inject_Z (2 ^ 256))%Q) by reflexivity.
      split; (split; [assumption |]); rewrite Zlt_Qlt;
        eapply Qle_lt_trans; eassumption.
Qed.

Lemma construction_errors_and_range_witness :
  (forall v, Order_post_init market_buy = Raise (Invalid_price v) <->
             ~ price_in_range (init_price market_buy) /\
             v = init_price market_buy) /\
  (forall v, Order_post_init market_buy = Raise (Invalid_size v) <->
             price_in_range (init_price market_buy) /\
             Py.le_int (init_size market_buy) 0 = true /\
             v = init_size market_buy) /\
  ((forall ord, Order_post_init market_buy = Ok ord ->
      exists mk tk,
        Py.int (maker_amount ord) = Ok mk /\
        Py.int (taker_amount ord) = Ok tk /\ 0 <= mk /\ 0 <= tk) /\
   (forall e, Order_post_init market_buy = Raise e ->
      e = Round_too_large \/ e = Float_nan_to_int \/
      e = Float_inf_to_int)) /\
  (exists ord mk tk,
     Order_post_init market_buy = Ok ord /\
     Py.int (maker_amount ord) = Ok mk /\
     Py.int (taker_amount ord) = Ok tk /\ 0 <= mk /\ 0 <= tk) /\
  exists ord mk tk,
    Order_post_init market_buy = Ok ord /\
    Py.int (maker_amount ord) = Ok mk /\
    Py.int (taker_amount ord) = Ok tk /\
    0 <= mk < 2 ^ 256 /\ 0 <= tk < 2 ^ 256.
Proof.
  destruct (construction_errors_and_range market_buy Spec.BUY Spec.MARKET
              eq_refl eq_refl) as (Hprice & Hsize & Hany & Hok).
  split; [exact Hprice |]. split; [exact Hsize |].
  split; [apply Hany; [split |]; reflexivity |].
  destruct Hok as [Hret Hfit]; try reflexivity; [split; reflexivity |].
  split; [apply Hret | apply Hfit]; reflexivity.
Defined.




End OrderClaims.


(** ** Claims on [OrderSigner] *)

Section SignerClaims.
Context `{Backend}.

Lemma checksum_case_caseless body : forall hash,
  caseless body = true -> Eth.checksum_case body hash = body.
Proof.
  induction body as [| c body IH]; intros hash Hc; [reflexivity |].
  cbn [caseless] in Hc. apply andb_prop in Hc as [Hc1 Hc2].
  apply Ascii.eqb_eq in Hc1.
  destruct hash as [| h hash]; [reflexivity |].
  cbn [Eth.checksum_case]. rewrite IH, Hc1 by assumption.
  destruct (7 <? Eth.hex_val h); reflexivity.
Qed.

(** The zero address has no letter to capitalise, whatever the hash. *)
Lemma to_checksum_zero :
  Eth.to_checksum_address Eth.ZERO_ADDRESS = Ok Eth.ZERO_ADDRESS.
Proof.
  unfold Eth.to_checksum_address.
  replace (Eth.to_normalized_address Eth.ZERO_ADDRESS)
    with (@Ok string Eth.ZERO_ADDRESS) by (vm_compute; reflexivity).
  cbn [bind].
  replace (Py.drop 2 Eth.ZERO_ADDRESS)
    with "0000000000000000000000000000000000000000" by reflexivity.
  rewrite checksum_case_caseless by (vm_compute; reflexivity).
  reflexivity.
Qed.

Lemma randint_range a b g :
  a <= b -> a <= fst (Eth.randint a b g) <= b.
Proof.
  intros Hab. unfold Eth.randint.
  pose proof (randbelow_range (b - a + 1) g ltac:(lia)) as Hr.
  destruct (randbelow (b - a + 1) g) as [r g']. cbn [fst] in *. lia.
Qed.

Lemma init_inv pk self :
  OrderSigner_init pk = Ok self ->
  from_key ("0x" +:+ (if Py.startswith pk "0x" then Py.drop 2 pk else pk))
    = Ok (wallet self) /\
  address self = account_address (wallet self).
Proof.
  unfold OrderSigner_init.
  destruct (from_key _) as [w |]; cbn [reraise bind]; [| discriminate].
  intros [= <-]. split; reflexivity.
Qed.

Lemma build_order_message_inv self order salt msg :
  build_order_message self order salt = Ok msg ->
  exists mk sg tokenId ma ta,
    Eth.to_checksum_address (maker order) = Ok mk /\
    Eth.to_checksum_address (address self) = Ok sg /\
    Py.int (token_id order) = Ok tokenId /\
    Py.int (maker_amount order) = Ok ma /\
    Py.int (taker_amount order) = Ok ta /\
    msg = {[ "salt" := PyInt salt;
             "maker" := PyStr mk;
             "signer" := PyStr sg;
             "taker" := PyStr Eth.ZERO_ADDRESS;
             "tokenId" := PyInt tokenId;
             "makerAmount" := PyInt ma;
             "takerAmount" := PyInt ta;
             "expiration" := PyInt 0;
             "nonce" := PyInt (nonce order);
             "feeRateBps" := PyInt (fee_rate_bps order);
             "side" := PyInt (side_value order);
             "signatureType" := PyInt (signature_type order) ]}.
Proof.
  unfold build_order_message. rewrite to_checksum_zero.
  destruct (Eth.to_checksum_address (maker order)) as [mk |];
    cbn [bind]; [| discriminate].
  destruct (Eth.to_checksum_address (address self)) as [sg |];
    cbn [bind]; [| discriminate].
  destruct (Py.int (token_id order)) as [t |]; cbn [bind]; [| discriminate].
  destruct (Py.int (maker_amount order)) as [ma |];
    cbn [bind]; [| discriminate].
  destruct (Py.int (taker_amount order)) as [ta |];
    cbn [bind]; [| discriminate].
  intros [= <-]. exists mk, sg, t, ma, ta. repeat split; reflexivity.
Qed.

Lemma order_payload_of_message order salt mk sg tokenId ma ta sig :
  order_payload order
    {[ "salt" := PyInt salt;
       "maker" := PyStr mk;
       "signer" := PyStr sg;
       "taker" := PyStr Eth.ZERO_ADDRESS;
       "tokenId" := PyInt tokenId;
       "makerAmount" := PyInt ma;
       "takerAmount" := PyInt ta;
       "expiration" := PyInt 0;
       "nonce" := PyInt (nonce order);
       "feeRateBps" := PyInt (fee_rate_bps order);
       "side" := PyInt (side_value order);
       "signatureType" := PyInt (signature_type order) ]} sig =
  Ok {[ "salt" := PyInt salt;
        "maker" := PyStr mk;
        "signer" := PyStr sg;
        "taker" := PyStr Eth.ZERO_ADDRESS;
        "tokenId" := PyStr (Py.str tokenId);
        "makerAmount" := PyStr (Py.str ma);
        "takerAmount" := PyStr (Py.str ta);
        "expiration" := PyStr (Py.str 0);
        "nonce" := PyStr (Py.str (nonce order));
        "feeRateBps" := PyStr (Py.str (fee_rate_bps order));
        "side" := PyStr (side order);
        "signatureType" := PyInt (signature_type order);
        "signature" := PyStr ("0x" +:+ sig) ]}.
Proof. reflexivity. Qed.

Lemma sign_order_inv self order g payload g' :
  sign_order self order g = (Ok payload, g') ->
  exists salt msg signable sig,
    Eth.randint 1 (2 ^ 40 - 1) g = (salt, g') /\
    build_order_message self order salt = Ok msg /\
    encode_typed_data ORDER_DOMAIN ORDER_TYPES msg = Ok signable /\
    sign_message_hex (wallet self) signable = Ok sig /\
    exists body, order_payload order msg sig = Ok body /\
                 payload = {[ "order" := body ]}.
Proof.
  unfold sign_order.
  destruct (Eth.randint 1 (2 ^ 40 - 1) g) as [salt g1].
  destruct (build_order_message self order salt) as [msg |] eqn:Em;
    cbn [bind reraise]; [| discriminate].
  destruct (encode_typed_data ORDER_DOMAIN ORDER_TYPES msg) as [sb |] eqn:Es;
    cbn [bind reraise]; [| discriminate].
  destruct (sign_message_hex (wallet self) sb) as [sig |] eqn:Eg;
    cbn [bind reraise]; [| discriminate].
  destruct (order_payload order msg sig) as [body |] eqn:Eb;
    cbn [bind reraise]; [| discriminate].
  intros [= <- <-]. exists salt, msg, sb, sig.
  repeat split; try assumption. exists body. split; [assumption | reflexivity].
Qed.

(** C6. In every successful [sign_order], the struct that is hashed and
    signed has the zero address as taker, expiration 0, as signer the
    (checksummed) address of the account derived from the private key the
    signer was built from, and as salt the value drawn from the random
    state in this call, which lies in [1, 2^40 - 1]. *)
Theorem signed_struct_fields pk self order g payload g' :
  OrderSigner_init pk = Ok self ->
  sign_order self order g = (Ok payload, g') ->
  exists salt msg signable sig account sg,
    Eth.randint 1 (2 ^ 40 - 1) g = (salt, g') /\
    1 <= salt <= 2 ^ 40 - 1 /\
    build_order_message self order salt = Ok msg /\
    encode_typed_data ORDER_DOMAIN ORDER_TYPES msg = Ok signable /\
    sign_message_hex account signable = Ok sig /\
    from_key ("0x" +:+ (if Py.startswith pk "0x" then Py.drop 2 pk else pk))
      = Ok account /\
    Eth.to_checksum_address (account_address account) = Ok sg /\
    msg !! "salt" = Some (PyInt salt) /\
    msg !! "taker" = Some (PyStr "0x0000000000000000000000000000000000000000") /\
    msg !! "expiration" = Some (PyInt 0) /\
    msg !! "signer" = Some (PyStr sg).
Proof.
  intros Hinit Hsign.
  destruct (init_inv _ _ Hinit) as [Hkey Haddr].
  destruct (sign_order_inv _ _ _ _ _ Hsign)
    as (salt & msg & sb & sig & Hsalt & Hmsg & Henc & Hsig & _).
  destruct (build_order_message_inv _ _ _ _ Hmsg)
    as (mk & sg & t & ma & ta & _ & Hsg & _ & _ & _ & Emsg).
  exists salt, msg, sb, sig, (wallet self), sg.
  pose proof (randint_range 1 (2 ^ 40 - 1) g ltac:(lia)) as Hr.
  rewrite Hsalt in Hr. cbn [fst] in Hr. rewrite Haddr in Hsg.
  repeat split; try assumption; try lia; subst msg; reflexivity.
Qed.

Lemma post_init_side o order :
  Order_post_init o = Ok order ->
  (side order = "BUY" /\ side_value order = 0) \/
  (side order = "SELL" /\ side_value order = 1).
Proof.
  unfold Order_post_init, string_in. cbn [existsb].
  destruct (String.eqb_spec (Py.upper (init_side o)) "BUY") as [Eb | Eb];
    [| destruct (String.eqb_spec (Py.upper (init_side o)) "SELL")
         as [Es | Es]; [| discriminate]];
    cbn [orb negb];
    repeat
      match goal with
      | |- context [if ?b then _ else _] => destruct b; try discriminate
      | |- context [bind ?c _] =>
          destruct c as [? |]; cbn [bind]; try discriminate
      end;
    intros [= <-]; cbn [side side_value]; auto.
Qed.

(** C7. In the payload [sign_order] returns, tokenId, makerAmount,
    takerAmount, expiration, nonce and feeRateBps are the decimal strings
    of the integers of the signed struct, salt and signatureType are the
    integers themselves, and side is the string "BUY" or "SELL" where the
    signed struct has the code 0 or 1. *)
Theorem payload_wire_format o self order g payload g' :
  Order_post_init o = Ok order ->
  sign_order self order g = (Ok payload, g') ->
  exists salt msg signable sig body tokenId makerAmount takerAmount,
    build_order_message self order salt = Ok msg /\
    encode_typed_data ORDER_DOMAIN ORDER_TYPES msg = Ok signable /\
    sign_message_hex (wallet self) signable = Ok sig /\
    payload !! "order" = Some body /\
    msg !! "tokenId" = Some (PyInt tokenId) /\
    msg !! "makerAmount" = Some (PyInt makerAmount) /\
    msg !! "takerAmount" = Some (PyInt takerAmount) /\
    msg !! "expiration" = Some (PyInt 0) /\
    msg !! "nonce" = Some (PyInt (nonce order)) /\
    msg !! "feeRateBps" = Some (PyInt (fee_rate_bps order)) /\
    body !! "tokenId" = Some (PyStr (Py.str tokenId)) /\
    body !! "makerAmount" = Some (PyStr (Py.str makerAmount)) /\
    body !! "takerAmount" = Some (PyStr (Py.str takerAmount)) /\
    body !! "expiration" = Some (PyStr "0") /\
    body !! "nonce" = Some (PyStr (Py.str (nonce order))) /\
    body !! "feeRateBps" = Some (PyStr (Py.str (fee_rate_bps order))) /\
    body !! "salt" = Some (PyInt salt) /\
    body !! "signatureType" = Some (PyInt (signature_type order)) /\
    body !! "signature" = Some (PyStr ("0x" +:+ sig)) /\
    ((body !! "side" = Some (PyStr "BUY") /\ msg !! "side" = Some (PyInt 0)) \/
     (body !! "side" = Some (PyStr "SELL") /\ msg !! "side" = Some (PyInt 1))).
Proof.
  intros Hpost Hsign.
  destruct (sign_order_inv _ _ _ _ _ Hsign)
    as (salt & msg & sb & sig & Hsalt & Hmsg & Henc & Hsig
        & body & Hbody & ->).
  destruct (build_order_message_inv _ _ _ _ Hmsg)
    as (mk & sg & t & ma & ta & _ & _ & _ & _ & _ & Emsg).
  exists salt, msg, sb, sig, body, t, ma, ta.
  do 3 (split; [assumption |]). split; [reflexivity |].
  subst msg. rewrite order_payload_of_message in Hbody.
  injection Hbody as <-.
  do 15 (split; [reflexivity |]).
  destruct (post_init_side _ _ Hpost) as [[Hs Hv] | [Hs Hv]];
    [left | right]; split.
  - transitivity (Some (PyStr (side order))); [reflexivity | now rewrite Hs].
  - transitivity (Some (PyInt (side_value order)));
      [reflexivity | now rewrite Hv].
  - transitivity (Some (PyStr (side order))); [reflexivity | now rewrite Hs].
  - transitivity (Some (PyInt (side_value order)));
      [reflexivity | now rewrite Hv].
Qed.

(** C9. An order signed through [sign_order_dict] is built with order type
    "GTC" and signature type 2: the payload carries signatureType 2 and the
    amounts are those of the LIMIT row for its side, price and size. *)
Theorem sign_order_dict_uses_defaults
  self token price size side maker nonce fee g payload g' :
  sign_order_dict self token price size side maker nonce fee g
    = (Ok payload, g') ->
  exists order sd n body,
    Order_post_init
      (mkOrderInit token price size side maker nonce fee 2 "GTC") = Ok order /\
    sign_order self order g = (Ok payload, g') /\
    order_type order = "GTC" /\
    signature_type order = 2 /\
    Spec.side_of_string (Py.upper side) = Some sd /\
    Spec.normalize Spec.LIMIT sd price size = Ok n /\
    maker_amount order = Py.str (Spec.norm_maker_amount n) /\
    taker_amount order = Py.str (Spec.norm_taker_amount n) /\
    payload !! "order" = Some body /\
    body !! "signatureType" = Some (PyInt 2) /\
    body !! "makerAmount" = Some (PyStr (Py.str (Spec.norm_maker_amount n))) /\
    body !! "takerAmount" = Some (PyStr (Py.str (Spec.norm_taker_amount n))).
Proof.
  unfold sign_order_dict.
  set (o := {| init_token_id := token; init_order_type := "GTC" |}).
  destruct (Order_post_init o) as [order |] eqn:Hpost; [| discriminate].
  intros Hsign.
  assert (Hside : exists sd, Spec.side_of_string (Py.upper side) = Some sd).
  { destruct (post_init_side _ _ Hpost) as [[Hs _] | [Hs _]];
      revert Hpost; unfold Order_post_init, Spec.side_of_string, string_in;
      cbn [existsb init_side o];
      destruct (String.eqb (Py.upper side) "BUY"); eauto;
      destruct (String.eqb (Py.upper side) "SELL"); eauto;
      cbn; discriminate. }
  destruct Hside as [sd Hsd].
  assert (Hvalid : price_in_range price /\ Py.le_int size 0 = false).
  { revert Hpost. unfold Order_post_init, price_in_range. cbn [init_price init_size o].
    destruct (negb (string_in _ _)); [discriminate |].
    destruct (Py.lt_int 0 price), (Py.le_int price 1); cbn [andb negb];
      try discriminate.
    destruct (Py.le_int size 0); [discriminate |]. auto. }
  destruct Hvalid as [Hp Hs].
  pose proof (post_init_normalize o sd Spec.LIMIT Hsd eq_refl Hp Hs) as Href.
  rewrite Hpost in Href. cbn [init_price init_size o] in Href.
  destruct (Spec.normalize Spec.LIMIT sd price size) as [n |] eqn:Hn;
    cbn [bind] in Href; [| discriminate].
  injection Href as ->.
  destruct (sign_order_inv _ _ _ _ _ Hsign)
    as (salt & msg & sb & sig & Hsalt & Hmsg & Henc & Hsig
        & body & Hbody & ->).
  destruct (build_order_message_inv _ _ _ _ Hmsg)
    as (mk & sg & t & ma & ta & _ & _ & _ & Hma & Hta & Emsg).
  cbn [order_of maker_amount taker_amount] in Hma, Hta.
  rewrite PyStrFacts.int_str in Hma, Hta.
  injection Hma as <-. injection Hta as <-.
  exists (order_of o n), sd, n, body.
  subst msg. rewrite order_payload_of_message in Hbody.
  injection Hbody as <-.
  repeat split; try assumption; reflexivity.
Qed.

Lemma startswith_0x_hex k :
  Eth.all_hex k = true -> Py.startswith k "0x" = false.
Proof.
  destruct k as [| c [| d k]]; cbn [Py.startswith Eth.all_hex]; intros Hh.
  - reflexivity.
  - apply andb_false_r.
  - apply andb_prop in Hh as [_ Hh]. apply andb_prop in Hh as [Hd _].
    destruct (Ascii.eqb_spec "x" d) as [<- |]; [discriminate Hd |].
    cbn [andb]. apply andb_false_r.
Qed.

Lemma init_prefix_insensitive k :
  Py.startswith k "0x" = false ->
  OrderSigner_init ("0x" +:+ k) = OrderSigner_init k.
Proof.
  intros Hk. unfold OrderSigner_init. rewrite Hk. reflexivity.
Qed.

(** C10. For a key [k] that does not itself begin with 0x, as every key
    of 64 hexadecimal digits and malformed material such as abc,
    [OrderSigner(k)] and [OrderSigner("0x" + k)] end alike, and the
    outcome is the library's on [0x] followed by [k]: when [from_key]
    returns a wallet, both signers hold that wallet and its address; when
    it raises, both raise the ValueError that wraps its exception. *)
Theorem signer_init_ignores_0x_prefix k :
  is_hex_key k \/ Py.startswith k "0x" = false ->
  Py.startswith k "0x" = false /\
  OrderSigner_init ("0x" +:+ k) = OrderSigner_init k /\
  (forall w, from_key ("0x" +:+ k) = Ok w ->
     OrderSigner_init k
       = Ok {| wallet := w; address := account_address w |} /\
     OrderSigner_init ("0x" +:+ k)
       = Ok {| wallet := w; address := account_address w |}) /\
  (forall e, from_key ("0x" +:+ k) = Raise e ->
     OrderSigner_init k = Raise (Invalid_private_key e) /\
     OrderSigner_init ("0x" +:+ k) = Raise (Invalid_private_key e) /\
     class_of (Invalid_private_key e) = ValueError).
Proof.
  intros Hk.
  assert (Hs : Py.startswith k "0x" = false).
  { destruct Hk as [[_ Hhex] | Hs]; [| exact Hs].
    apply startswith_0x_hex. assumption. }
  split; [exact Hs |].
  split; [apply init_prefix_insensitive; exact Hs |].
  split.
  - intros w Hw. rewrite (init_prefix_insensitive k Hs).
    unfold OrderSigner_init. rewrite Hs, Hw. split; reflexivity.
  - intros e He. rewrite (init_prefix_insensitive k Hs).
    unfold OrderSigner_init. rewrite Hs, He. repeat split; reflexivity.
Qed.

End SignerClaims.

(** *** The claims on the test double *)

Lemma test_signer_init :
  @OrderSigner_init test_backend ("0x" +:+ test_key) = Ok test_signer.
Proof. vm_compute. reflexivity. Qed.

Lemma test_order_init : Order_post_init limit_order = Ok test_order.
Proof. vm_compute. reflexivity. Qed.

Lemma test_sign_order :
  @sign_order test_backend test_signer test_order 41 = (Ok test_payload, 42).
Proof. vm_compute. reflexivity. Qed.

Lemma signed_struct_fields_witness :
  exists salt msg signable sig account sg,
    @Eth.randint test_backend 1 (2 ^ 40 - 1) 41 = (salt, 42) /\
    1 <= salt <= 2 ^ 40 - 1 /\
    @build_order_message test_backend test_signer test_order salt = Ok msg /\
    @encode_typed_data test_backend ORDER_DOMAIN ORDER_TYPES msg = Ok signable /\
    @sign_message_hex test_backend account signable = Ok sig /\
    @from_key test_backend ("0x" +:+ Py.drop 2 ("0x" +:+ test_key)) = Ok account /\
    @Eth.to_checksum_address test_backend
      (@account_address test_backend account) = Ok sg /\
    msg !! "salt" = Some (PyInt salt) /\
    msg !! "taker" = Some (PyStr "0x0000000000000000000000000000000000000000") /\
    msg !! "expiration" = Some (PyInt 0) /\
    msg !! "signer" = Some (PyStr sg).
Proof.
  apply (@signed_struct_fields test_backend ("0x" +:+ test_key) test_signer
           test_order 41 test_payload 42);
    vm_compute; reflexivity.
Defined.

Lemma payload_wire_format_witness :
  exists salt msg signable sig body tokenId makerAmount takerAmount,
    @build_order_message test_backend test_signer test_order salt = Ok msg /\
    @encode_typed_data test_backend ORDER_DOMAIN ORDER_TYPES msg = Ok signable /\
    @sign_message_hex test_backend (wallet test_signer) signable = Ok sig /\
    test_payload !! "order" = Some body /\
    msg !! "tokenId" = Some (PyInt tokenId) /\
    msg !! "makerAmount" = Some (PyInt makerAmount) /\
    msg !! "takerAmount" = Some (PyInt takerAmount) /\
    msg !! "expiration" = Some (PyInt 0) /\
    msg !! "nonce" = Some (PyInt (nonce test_order)) /\
    msg !! "feeRateBps" = Some (PyInt (fee_rate_bps test_order)) /\
    body !! "tokenId" = Some (PyStr (Py.str tokenId)) /\
    body !! "makerAmount" = Some (PyStr (Py.str makerAmount)) /\
    body !! "takerAmount" = Some (PyStr (Py.str takerAmount)) /\
    body !! "expiration" = Some (PyStr "0") /\
    body !! "nonce" = Some (PyStr (Py.str (nonce test_order))) /\
    body !! "feeRateBps" = Some (PyStr (Py.str (fee_rate_bps test_order))) /\
    body !! "salt" = Some (PyInt salt) /\
    body !! "signatureType" = Some (PyInt (signature_type test_order)) /\
    body !! "signature" = Some (PyStr ("0x" +:+ sig)) /\
    ((body !! "side" = Some (PyStr "BUY") /\ msg !! "side" = Some (PyInt 0)) \/
     (body !! "side" = Some (PyStr "SELL") /\ msg !! "side" = Some (PyInt 1))).
Proof.
  apply (@payload_wire_format test_backend limit_order test_signer test_order
           41 test_payload 42);
    vm_compute; reflexivity.
Defined.

Lemma sign_order_dict_uses_defaults_witness :
  exists order sd n (body : gmap string pyval),
    Order_post_init
      (mkOrderInit (init_token_id limit_order) (init_price limit_order)
         (init_size limit_order) "buy" test_maker None 1000 2 "GTC")
      = Ok order /\
    @sign_order test_backend test_signer order 41
      = (Ok test_dict_payload, 42) /\
    order_type order = "GTC" /\
    signature_type order = 2 /\
    Spec.side_of_string (Py.upper "buy") = Some sd /\
    Spec.normalize Spec.LIMIT sd (init_price limit_order)
      (init_size limit_order) = Ok n /\
    maker_amount order = Py.str (Spec.norm_maker_amount n) /\
    taker_amount order = Py.str (Spec.norm_taker_amount n) /\
    test_dict_payload !! "order" = Some body /\
    body !! "signatureType" = Some (PyInt 2) /\
    body !! "makerAmount" = Some (PyStr (Py.str (Spec.norm_maker_amount n))) /\
    body !! "takerAmount" = Some (PyStr (Py.str (Spec.norm_taker_amount n))).
Proof.
  apply (@sign_order_dict_uses_defaults test_backend test_signer
           (init_token_id limit_order) (init_price limit_order)
           (init_size limit_order) "buy" test_maker None 1000 41
           test_dict_payload 42).
  vm_compute. reflexivity.
Defined.

Lemma signer_init_ignores_0x_prefix_witness :
  (@OrderSigner_init test_backend test_key = Ok test_signer /\
   @OrderSigner_init test_backend ("0x" +:+ test_key) = Ok test_signer) /\
  (@OrderSigner_init test_backend "abc"
     = Raise (Invalid_private_key (Library_error "invalid key")) /\
   @OrderSigner_init test_backend ("0x" +:+ "abc")
     = Raise (Invalid_private_key (Library_error "invalid key")) /\
   class_of (Invalid_private_key (Library_error "invalid key")) = ValueError).
Proof.
  split.
  - apply (proj1 (proj2 (proj2
      (@signer_init_ignores_0x_prefix test_backend test_key
         (or_introl (conj eq_refl eq_refl)))))).
    reflexivity.
  - apply (proj2 (proj2 (proj2
      (@signer_init_ignores_0x_prefix test_backend "abc"
         (or_intror eq_refl))))).
    reflexivity.
Defined.


(** * Further properties of the code *)

(** ** [Order.__post_init__]: sides, order types and errors *)

Section OrderEdges.
Import PyFloat Rounding.

Lemma upper_char_idempotent c : Py.upper_char (Py.upper_char c) = Py.upper_char c.
Proof. destruct c as [[] [] [] [] [] [] [] []]; reflexivity. Qed.

Lemma upper_lower_char c : Py.upper_char (Py.lower_char c) = Py.upper_char c.
Proof. destruct c as [[] [] [] [] [] [] [] []]; reflexivity. Qed.

Lemma upper_idempotent s : Py.upper (Py.upper s) = Py.upper s.
Proof.
  unfold Py.upper. induction s as [| c s IH]; cbn; [reflexivity |].
  rewrite upper_char_idempotent, IH. reflexivity.
Qed.

Lemma upper_lower s : Py.upper (Py.lower s) = Py.upper s.
Proof.
  unfold Py.upper, Py.lower. induction s as [| c s IH]; cbn; [reflexivity |].
  rewrite upper_lower_char, IH. reflexivity.
Qed.

(** The constructor reads the side through [upper()] only. *)
Lemma post_init_reads_upper_side o s :
  Py.upper s = Py.upper (init_side o) ->
  Order_post_init (with_side o s) = Order_post_init o.
Proof.
  intros Hs. unfold Order_post_init, with_side.
  cbn [init_side init_price init_size init_nonce init_order_type
         init_token_id init_maker init_fee_rate_bps init_signature_type].
  rewrite Hs. reflexivity.
Qed.

Lemma string_in_sides s :
  string_in s ["BUY"; "SELL"] = true -> s = "BUY" \/ s = "SELL".
Proof.
  unfold string_in. cbn [existsb].
  destruct (String.eqb_spec s "BUY"); [auto |].
  destruct (String.eqb_spec s "SELL"); [auto | discriminate].
Qed.

(** The side of a built order is the upper-cased side received. *)
Lemma post_init_stored_side o ord :
  Order_post_init o = Ok ord ->
  side ord = Py.upper (init_side o) /\
  string_in (Py.upper (init_side o)) ["BUY"; "SELL"] = true.
Proof.
  unfold Order_post_init.
  destruct (string_in (Py.upper (init_side o)) ["BUY"; "SELL"]);
    cbn [negb]; [| discriminate].
  repeat
    match goal with
    | |- context [if ?b then _ else _] => destruct b; try discriminate
    | |- context [bind ?c _] => destruct c; cbn [bind]; try discriminate
    end;
    intros [= <-]; split; reflexivity.
Qed.

(** X1. The side is case-insensitive: an order built with the side in
    lower case, or in upper case, is the order built with the side as
    given; and the side a built order stores is the upper-cased one, "BUY"
    or "SELL". *)
Theorem side_is_case_insensitive o :
  Order_post_init (with_side o (Py.lower (init_side o))) = Order_post_init o /\
  Order_post_init (with_side o (Py.upper (init_side o))) = Order_post_init o /\
  forall ord, Order_post_init o = Ok ord ->
    side ord = Py.upper (init_side o) /\
    (side ord = "BUY" \/ side ord = "SELL").
Proof.
  split; [| split].
  - apply post_init_reads_upper_side, upper_lower.
  - apply post_init_reads_upper_side, upper_idempotent.
  - intros ord Hok.
    destruct (post_init_stored_side _ _ Hok) as [Hside Hin].
    split; [assumption |]. rewrite Hside. apply string_in_sides, Hin.
Qed.

(** Every error of the constructor, by the check that raises it. *)
Lemma post_init_errors o e :
  Order_post_init o = Raise e ->
  (string_in (Py.upper (init_side o)) ["BUY"; "SELL"] = false /\
   e = Invalid_side (Py.upper (init_side o))) \/
  (string_in (Py.upper (init_side o)) ["BUY"; "SELL"] = true /\
   (e = Invalid_price (init_price o) \/ e = Invalid_size (init_size o) \/
    e = Round_too_large \/ e = Float_nan_to_int \/ e = Float_inf_to_int)).
Proof.
  intros Hr.
  destruct (string_in (Py.upper (init_side o)) ["BUY"; "SELL"]) eqn:Hin.
  - right. split; [reflexivity |].
    destruct (Py.lt_int 0 (init_price o) && Py.le_int (init_price o) 1)
      eqn:Hp.
    + apply andb_true_iff in Hp.
      destruct (Py.le_int (init_size o) 0) eqn:Hs.
      * unfold Order_post_init in Hr.
        rewrite Hin, (proj1 Hp), (proj2 Hp), Hs in Hr. cbn in Hr.
        injection Hr as <-. auto.
      * destruct (post_init_late_errors o e Hin Hp Hs Hr) as [-> | [-> | ->]];
          auto.
    + unfold Order_post_init in Hr. rewrite Hin, Hp in Hr. cbn in Hr.
      injection Hr as <-. auto.
  - left. split; [reflexivity |].
    unfold Order_post_init in Hr. rewrite Hin in Hr. cbn in Hr.
    injection Hr as <-. reflexivity.
Qed.

(** X2. The side is checked first: the invalid-side error is raised
    exactly when the upper-cased side is neither "BUY" nor "SELL", whatever
    the price and the size are, and it carries the upper-cased side; and
    every error of the constructor is a ValueError or an OverflowError. *)
Theorem invalid_side_is_reported_first o :
  (forall v, Order_post_init o = Raise (Invalid_side v) <->
             string_in (Py.upper (init_side o)) ["BUY"; "SELL"] = false /\
             v = Py.upper (init_side o)) /\
  (forall e, Order_post_init o = Raise e ->
             class_of e = ValueError \/ class_of e = OverflowError).
Proof.
  split.
  - intros v. split.
    + intros Hr. destruct (post_init_errors o _ Hr) as [[Hin [= ->]] | [_ H]].
      * auto.
      * destruct H as [H | [H | [H | [H | H]]]]; discriminate H.
    + intros [Hin ->]. unfold Order_post_init. rewrite Hin. reflexivity.
  - intros e Hr.
    destruct (post_init_errors o _ Hr)
      as [[_ ->] | [_ [-> | [-> | [-> | [-> | ->]]]]]]; cbn; auto.
Qed.

(** X3. The order type is not validated and only selects the precision of
    a BUY: when the order is not a BUY of type "FOK" or "FAK" (a SELL of
    any type, or any other type string, "fok" or "XYZ" included), the
    constructor does what it does for "GTC", and only the [order_type]
    field of the result differs. *)
Theorem order_type_only_matters_for_market_buy o t :
  String.eqb (Py.upper (init_side o)) "BUY" && string_in t ["FOK"; "FAK"]
    = false ->
  Order_post_init (with_order_type o t)
    = retyped_result t (Order_post_init (with_order_type o "GTC")).
Proof.
  intros Hnot. unfold Order_post_init, with_order_type.
  cbn [init_side init_price init_size init_nonce init_order_type
         init_token_id init_maker init_fee_rate_bps init_signature_type].
  change (string_in "GTC" ["FOK"; "FAK"]) with false.
  destruct (negb (string_in (Py.upper (init_side o)) ["BUY"; "SELL"]));
    [reflexivity |].
  destruct (negb (Py.lt_int 0 (init_price o) && Py.le_int (init_price o) 1));
    [reflexivity |].
  destruct (Py.le_int (init_size o) 0); [reflexivity |].
  destruct (Py.round_ndigits (init_price o) 2) as [p |]; [| reflexivity].
  cbn [bind].
  destruct (String.eqb (Py.upper (init_side o)) "BUY");
    cbn [andb] in Hnot; [rewrite Hnot |];
    repeat
      match goal with
      | |- context [bind ?c _] => destruct c; cbn [bind]; try reflexivity
      end.
Qed.

Lemma order_type_only_matters_for_market_buy_witness :
  Order_post_init (with_order_type market_sell "FOK")
    = retyped_result "FOK" (Order_post_init (with_order_type market_sell "GTC")).
Proof.
  apply (order_type_only_matters_for_market_buy market_sell "FOK").
  reflexivity.
Defined.

(** What a successful construction tells about the checks. *)
Lemma post_init_checks o ord :
  Order_post_init o = Ok ord ->
  string_in (Py.upper (init_side o)) ["BUY"; "SELL"] = true /\
  price_in_range (init_price o) /\
  Py.le_int (init_size o) 0 = false.
Proof.
  unfold Order_post_init, price_in_range.
  destruct (string_in (Py.upper (init_side o)) ["BUY"; "SELL"]);
    cbn [negb]; [| discriminate].
  destruct (Py.lt_int 0 (init_price o)); cbn [andb negb]; [| discriminate].
  destruct (Py.le_int (init_price o) 1); cbn [negb]; [| discriminate].
  destruct (Py.le_int (init_size o) 0); [discriminate |]. auto.
Qed.

Lemma string_in_side_of_string s :
  string_in s ["BUY"; "SELL"] = true -> exists sd, Spec.side_of_string s = Some sd.
Proof.
  unfold string_in, Spec.side_of_string. cbn [existsb].
  destruct (String.eqb s "BUY"); [eauto |].
  destruct (String.eqb s "SELL"); [eauto | discriminate].
Qed.

Lemma float_same_eq x y : float_same x y = true -> x = y.
Proof.
  destruct x as [s | s | | s m e], y as [s' | s' | | s' m' e'];
    cbn; try discriminate; try reflexivity.
  - intros Hs. apply Bool.eqb_prop in Hs. congruence.
  - intros Hs. apply Bool.eqb_prop in Hs. congruence.
  - rewrite !andb_true_iff. intros [[Hs Hm] He].
    apply Bool.eqb_prop in Hs. apply Pos.eqb_eq in Hm. apply Z.eqb_eq in He.
    congruence.
Qed.

(** Each of the hundred ticks is a price in (0,1] that [round(., 2)]
    leaves alone. *)
Lemma ticks_are_stable P :
  1 <= P <= 100 ->
  price_in_range (dec P 2) /\ Py.round_ndigits (dec P 2) 2 = Ok (dec P 2).
Proof.
  intros HP.
  assert (Hall : forallb tick_is_stable (seqZ 1 100) = true)
    by (vm_compute; reflexivity).
  rewrite forallb_forall in Hall.
  assert (Hin : In P (seqZ 1 100))
    by (apply list_elem_of_In, elem_of_seqZ; lia).
  specialize (Hall P Hin). unfold tick_is_stable in Hall.
  rewrite !andb_true_iff in Hall. destruct Hall as [[H0 H1] Hr].
  split; [split; assumption |].
  destruct (Py.round_ndigits (dec P 2) 2) as [r |]; [| discriminate].
  apply float_same_eq in Hr. congruence.
Qed.

Lemma normalize_price c sd p s n :
  Spec.normalize c sd p s = Ok n -> Py.round_ndigits p 2 = Ok (Spec.norm_price n).
Proof.
  unfold Spec.normalize.
  destruct (Py.round_ndigits p 2) as [p' |]; cbn [bind]; [| discriminate].
  repeat
    match goal with
    | |- context [bind ?c _] => destruct c; cbn [bind]; try discriminate
    end.
  intros [= <-]. reflexivity.
Qed.

Lemma normalize_of_rounded_price c sd p q s :
  Py.round_ndigits p 2 = Ok q -> Py.round_ndigits q 2 = Ok q ->
  Spec.normalize c sd q s = Spec.normalize c sd p s.
Proof. intros Hp Hq. unfold Spec.normalize. rewrite Hp, Hq. reflexivity. Qed.

End OrderEdges.

(** ** [Order.__post_init__]: what the rounding does to the price and
    the size *)

Section OrderTicks.
Import PyFloat Rounding.

Lemma price_is_finite p :
  price_in_range p -> exists m e, p = S754_finite false m e.
Proof.
  intros [H0 H1]. unfold Py.lt_int, Py.le_int in *.
  change (of_Z 0) with (S754_zero false) in H0.
  destruct p as [[] | [] | | [] m e]; try discriminate; eauto.
Qed.

(** The number of cents that [round(price, 2)] settles on is within half a
    cent of the price. *)
Lemma units_within_half x n :
  (0 <= n)%Z -> (exists m e, x = S754_finite false m e) ->
  (to_Q x * inject_Z (10 ^ n) - (1 # 2) <= inject_Z (units x n)
     <= to_Q x * inject_Z (10 ^ n) + (1 # 2))%Q.
Proof.
  intros Hn (m & e & ->). cbn [units].
  apply (RoundingFacts.scaled_rhe_bounds m e n Hn).
Qed.

Lemma order_of_rebuilt o n :
  order_of (fields_of (order_of o n)) n = order_of o n.
Proof.
  unfold order_of, fields_of.
  cbn [token_id price size side maker nonce fee_rate_bps signature_type
         order_type init_token_id init_size init_side init_maker init_nonce
         init_fee_rate_bps init_signature_type init_order_type].
  rewrite upper_idempotent. reflexivity.
Qed.

(** X4. A price below half a tick passes the price check and is stored as
    0.0: for a double price in (0, 0.005) and a double size in (0, 1e9],
    the order is built with price 0.0 and a quote amount of "0"; and the
    price it stores is one the constructor itself refuses. *)
Theorem price_below_half_a_tick_is_stored_as_zero o sd c :
  Spec.side_of_string (Py.upper (init_side o)) = Some sd ->
  Spec.class_of_order_type (init_order_type o) = Some c ->
  is_double (init_price o) = true -> price_in_range (init_price o) ->
  (to_Q (init_price o) < 1 # 200)%Q ->
  is_double (init_size o) = true -> size_positive (init_size o) ->
  Py.le_int (init_size o) (10 ^ 9) = true ->
  exists ord,
    Order_post_init o = Ok ord /\
    price ord = S754_zero false /\
    quote_leg sd ord = "0" /\
    Order_post_init (fields_of ord) = Raise (Invalid_price (S754_zero false)).
Proof.
  intros Hsd Hc Hpd Hp Hlow Hsdb Hs Hsmall.
  rewrite (post_init_normalize o sd c Hsd Hc Hp (positive_not_le_zero _ Hs)).
  destruct (RoundingFacts.normalize_small c sd _ _ Hpd Hp Hsdb Hs Hsmall)
    as (Q & HP & HS & HQ & H4 & H2 & ->).
  assert (HP0 : units (init_price o) 2 = 0).
  { pose proof (units_within_half (init_price o) 2 ltac:(lia)
                  (price_is_finite _ Hp)) as [_ Hup].
    change (inject_Z (10 ^ 2)) with (100 # 1)%Q in Hup.
    assert (Hlt : (inject_Z (units (init_price o) 2) < inject_Z 1)%Q).
    { change (inject_Z 1) with 1%Q.
      set (v := to_Q (init_price o)) in *. lra. }
    rewrite <- Zlt_Qlt in Hlt. lia. }
  rewrite HP0 in *.
  assert (HQ0 : Q = 0).
  { destruct sd, c; cbn [Spec.quote_decimals] in *;
      first [specialize (H4 eq_refl); lia | specialize (H2 eq_refl); lia]. }
  subst Q. cbn [bind]. eexists. split; [reflexivity |].
  split; [reflexivity |]. split.
  - destruct sd; reflexivity.
  - destruct (side_of_string_upper _ _ Hsd) as [Hin _].
    unfold Order_post_init, fields_of, order_of.
    cbn [init_side init_price side price Spec.norm_price].
    rewrite upper_idempotent, Hin. reflexivity.
Qed.

Lemma price_below_half_a_tick_is_stored_as_zero_witness :
  exists ord,
    Order_post_init sub_tick_buy = Ok ord /\
    price ord = S754_zero false /\
    quote_leg Spec.BUY ord = "0" /\
    Order_post_init (fields_of ord) = Raise (Invalid_price (S754_zero false)).
Proof.
  apply (price_below_half_a_tick_is_stored_as_zero sub_tick_buy
           Spec.BUY Spec.MARKET);
    try reflexivity; split; reflexivity.
Defined.

(** X5. Building an order again from the fields of a built order gives the
    same order, unless the price was stored as 0.0: for a double price,
    the tick-rounded price passes the price check and is left alone by
    the second rounding, so are the amounts. *)
Theorem rebuilding_an_order_changes_nothing o c ord :
  Spec.class_of_order_type (init_order_type o) = Some c ->
  is_double (init_price o) = true ->
  Order_post_init o = Ok ord ->
  price ord <> S754_zero false ->
  Order_post_init (fields_of ord) = Ok ord.
Proof.
  intros Hc Hpd Hok Hnz.
  destruct (post_init_checks _ _ Hok) as (Hin & Hp & Hs).
  destruct (string_in_side_of_string _ Hin) as [sd Hsd].
  rewrite (post_init_normalize o sd c Hsd Hc Hp Hs) in Hok.
  destruct (Spec.normalize c sd (init_price o) (init_size o)) as [n |] eqn:En;
    cbn [bind] in Hok; [| discriminate].
  injection Hok as <-.
  pose proof (normalize_price _ _ _ _ _ En) as Hround.
  destruct (RoundingFacts.price_units _ Hpd Hp) as [HP HrP].
  assert (Hprice : dec (units (init_price o) 2) 2 = Spec.norm_price n)
    by congruence.
  assert (HP1 : 1 <= units (init_price o) 2 <= 100).
  { destruct (Z.eq_dec (units (init_price o) 2) 0) as [E0 | ]; [| lia].
    exfalso. apply Hnz. cbn [order_of price]. rewrite <- Hprice, E0.
    reflexivity. }
  destruct (ticks_are_stable _ HP1) as [Hrange Hstable].
  rewrite Hprice in Hrange, Hstable.
  rewrite (post_init_normalize (fields_of (order_of o n)) sd c).
  - cbn [fields_of init_price init_size order_of price size].
    rewrite (normalize_of_rounded_price c sd (init_price o)
               (Spec.norm_price n) (init_size o) Hround Hstable).
    rewrite En. cbn [bind]. f_equal. apply order_of_rebuilt.
  - cbn [fields_of init_side order_of side].
    rewrite upper_idempotent. assumption.
  - exact Hc.
  - exact Hrange.
  - exact Hs.
Qed.

Lemma rebuilding_an_order_changes_nothing_witness :
  Order_post_init (fields_of test_order) = Ok test_order.
Proof.
  apply (rebuilding_an_order_changes_nothing limit_order Spec.LIMIT);
    [reflexivity | reflexivity | vm_compute; reflexivity | discriminate].
Defined.

(** X6. The shares amount is the size rounded to the decimals of its leg,
    on the exact value of the double: for a double price in (0,1] and a
    double size in (0, 1e9], it is a multiple of 10^(6-d) base units that
    differs from size * 10^6 by at most half of 10^(6-d), where d is 4 for
    a market BUY and 2 otherwise. *)
Theorem shares_amount_is_the_size_rounded o sd c :
  Spec.side_of_string (Py.upper (init_side o)) = Some sd ->
  Spec.class_of_order_type (init_order_type o) = Some c ->
  is_double (init_price o) = true -> price_in_range (init_price o) ->
  is_double (init_size o) = true -> size_positive (init_size o) ->
  Py.le_int (init_size o) (10 ^ 9) = true ->
  exists ord A,
    Order_post_init o = Ok ord /\
    Py.int (shares_leg sd ord) = Ok A /\
    A mod 10 ^ (6 - Spec.shares_decimals sd c) = 0 /\
    (Qabs (inject_Z A - to_Q (init_size o) * inject_Z (10 ^ 6))
       <= (1 # 2) * inject_Z (10 ^ (6 - Spec.shares_decimals sd c)))%Q.
Proof.
  intros Hsd Hc Hpd Hp Hsdb Hs Hsmall.
  rewrite (post_init_normalize o sd c Hsd Hc Hp (positive_not_le_zero _ Hs)).
  destruct (RoundingFacts.normalize_small c sd _ _ Hpd Hp Hsdb Hs Hsmall)
    as (Q & HP & HS & HQ & _ & _ & ->).
  cbn [bind].
  set (d := Spec.shares_decimals sd c) in *.
  set (S := units (init_size o) d) in *.
  exists (order_of o
            (Spec.mkNormalized (dec (units (init_price o) 2) 2)
               (match sd with
                | Spec.BUY => Q * 10 ^ (6 - Spec.quote_decimals sd c)
                | Spec.SELL => S * 10 ^ (6 - d)
                end)
               (match sd with
                | Spec.BUY => S * 10 ^ (6 - d)
                | Spec.SELL => Q * 10 ^ (6 - Spec.quote_decimals sd c)
                end)
               (Spec.side_code sd))), (S * 10 ^ (6 - d)).
  split; [reflexivity |]. split.
  { destruct sd; cbn [shares_leg order_of maker_amount taker_amount
                        Spec.norm_maker_amount Spec.norm_taker_amount];
      apply PyStrFacts.int_str. }
  split; [apply Z.mod_mul; destruct sd, c; discriminate |].
  assert (Hd : d = 2 \/ d = 4) by (destruct sd, c; cbn; auto).
  assert (Hfin : exists m e, init_size o = S754_finite false m e).
  { unfold size_positive, Py.lt_int in Hs.
    change (of_Z 0) with (S754_zero false) in Hs.
    unfold Py.le_int in Hsmall.
    destruct (init_size o) as [[] | [] | | [] m e]; try discriminate; eauto. }
  pose proof (units_within_half (init_size o) d ltac:(lia) Hfin) as [Hlo Hhi].
  fold S in Hlo, Hhi. rewrite inject_Z_mult.
  set (v := to_Q (init_size o)) in *. set (k := inject_Z S) in *.
  apply Qabs_Qle_condition.
  destruct Hd as [-> | ->].
  - change (inject_Z (10 ^ 2)) with (100 # 1)%Q in *.
    change (inject_Z (10 ^ (6 - 2))) with (10000 # 1)%Q.
    change (inject_Z (10 ^ 6)) with (1000000 # 1)%Q.
    split; lra.
  - change (inject_Z (10 ^ 4)) with (10000 # 1)%Q in *.
    change (inject_Z (10 ^ (6 - 4))) with (100 # 1)%Q.
    change (inject_Z (10 ^ 6)) with (1000000 # 1)%Q.
    split; lra.
Qed.

Lemma shares_amount_is_the_size_rounded_witness :
  exists ord A,
    Order_post_init market_sell = Ok ord /\
    Py.int (shares_leg Spec.SELL ord) = Ok A /\
    A mod 10 ^ (6 - Spec.shares_decimals Spec.SELL Spec.MARKET) = 0 /\
    (Qabs (inject_Z A - to_Q (init_size market_sell) * inject_Z (10 ^ 6))
       <= (1 # 2)
          * inject_Z (10 ^ (6 - Spec.shares_decimals Spec.SELL Spec.MARKET)))%Q.
Proof.
  apply (shares_amount_is_the_size_rounded market_sell Spec.SELL Spec.MARKET);
    try reflexivity; split; reflexivity.
Defined.

End OrderTicks.


(** ** [sign_order] and [sign_order_dict]: where errors come from *)

Section SignerErrors.
Context `{Backend}.

(** The amounts of a built order are decimal numerals. *)
Lemma post_init_amounts o ord :
  Order_post_init o = Ok ord ->
  exists mk tk, maker_amount ord = Py.str mk /\ taker_amount ord = Py.str tk.
Proof.
  unfold Order_post_init.
  destruct (negb (string_in _ _)); [discriminate |].
  destruct (negb (_ && _)); [discriminate |].
  destruct (Py.le_int _ 0); [discriminate |].
  destruct (Py.round_ndigits (init_price o) 2) as [p |]; cbn [bind];
    [| discriminate].
  destruct (String.eqb _ "BUY"); [destruct (string_in _ _) |];
    repeat
      match goal with
      | |- context [Py.round_ndigits ?x ?n] =>
          destruct (Py.round_ndigits x n); cbn [bind]; [| discriminate]
      | |- context [Py.round_int ?x] =>
          destruct (Py.round_int x); cbn [bind]; [| discriminate]
      end;
    intros [= <-]; cbn [maker_amount taker_amount fst snd]; eauto.
Qed.

(** Whatever fails in [sign_order] is raised as a SignerError, after the
    salt has been drawn. *)
Lemma sign_order_raise self ord g e g' :
  sign_order self ord g = (Raise e, g') ->
  g' = snd (Eth.randint 1 (2 ^ 40 - 1) g) /\
  exists cause, e = Failed_to_sign cause.
Proof.
  unfold sign_order.
  destruct (Eth.randint 1 (2 ^ 40 - 1) g) as [salt g1]. cbn [snd].
  match goal with
  | |- (reraise _ ?c, _) = _ -> _ => destruct c as [? | e0]
  end; cbn [reraise]; [discriminate |].
  intros [= <- <-]. eauto.
Qed.

(** X7. Signing a built order fails only through the maker address, the
    signer address, the token id or the libraries, and always as a
    SignerError: the amounts of a built order always convert and the
    payload is always complete. The salt is drawn before anything can
    fail, so the random state has advanced all the same. *)
Theorem sign_order_fails_only_for o ord self g e g' :
  Order_post_init o = Ok ord ->
  sign_order self ord g = (Raise e, g') ->
  g' = snd (Eth.randint 1 (2 ^ 40 - 1) g) /\
  exists cause,
    e = Failed_to_sign cause /\
    (Eth.to_checksum_address (maker ord) = Raise cause \/
     Eth.to_checksum_address (address self) = Raise cause \/
     Py.int (token_id ord) = Raise cause \/
     (exists msg,
        build_order_message self ord (fst (Eth.randint 1 (2 ^ 40 - 1) g))
          = Ok msg /\
        encode_typed_data ORDER_DOMAIN ORDER_TYPES msg = Raise cause) \/
     (exists signable, sign_message_hex (wallet self) signable = Raise cause)).
Proof.
  intros Hok. destruct (post_init_amounts _ _ Hok) as (mk & tk & Hmk & Htk).
  unfold sign_order.
  destruct (Eth.randint 1 (2 ^ 40 - 1) g) as [salt g1]. cbn [fst snd].
  destruct (build_order_message self ord salt) as [msg | e0] eqn:Em;
    cbn [bind reraise].
  - destruct (build_order_message_inv _ _ _ _ Em)
      as (a & sg & t & ma & ta & _ & _ & _ & _ & _ & ->).
    destruct (encode_typed_data ORDER_DOMAIN ORDER_TYPES _) as [sb | e1] eqn:Es;
      cbn [bind reraise].
    + destruct (sign_message_hex (wallet self) sb) as [sig | e2] eqn:Eg;
        cbn [bind reraise].
      * rewrite order_payload_of_message. cbn [bind reraise]. discriminate.
      * intros [= <- <-]. split; [reflexivity |]. exists e2.
        split; [reflexivity |]. do 4 right. eauto.
    + intros [= <- <-]. split; [reflexivity |]. exists e1.
      split; [reflexivity |]. do 3 right. left. eauto.
  - intros [= <- <-]. split; [reflexivity |]. exists e0.
    split; [reflexivity |].
    unfold build_order_message in Em. rewrite to_checksum_zero in Em.
    rewrite Hmk, Htk, !PyStrFacts.int_str in Em.
    destruct (Eth.to_checksum_address (maker ord)) as [a |];
      cbn [bind] in Em; [| left; congruence].
    destruct (Eth.to_checksum_address (address self)) as [sg |];
      cbn [bind] in Em; [| right; left; congruence].
    destruct (Py.int (token_id ord)) as [t |];
      cbn [bind] in Em; [discriminate | right; right; left; congruence].
Qed.

(** Errors of the constructor are never SignerErrors. *)
Lemma post_init_never_signer_error o e :
  Order_post_init o = Raise e -> class_of e <> SignerError.
Proof.
  intros Hr.
  destruct (post_init_errors o _ Hr)
    as [[_ ->] | [_ [-> | [-> | [-> | [-> | ->]]]]]]; discriminate.
Qed.

(** X8. [sign_order_dict] does not wrap the errors of the constructor: an
    error that is no SignerError is the one [Order(...)] raised, with the
    defaults signature_type 2 and order_type "GTC", and then no salt has
    been drawn; a SignerError means that the order was built and a salt
    drawn. *)
Theorem sign_order_dict_error_origin self token_id price size side maker
    nonce fee_rate_bps g e g' :
  sign_order_dict self token_id price size side maker nonce fee_rate_bps g
    = (Raise e, g') ->
  let o := {| init_token_id := token_id;
              init_price := price;
              init_size := size;
              init_side := side;
              init_maker := maker;
              init_nonce := nonce;
              init_fee_rate_bps := fee_rate_bps;
              init_signature_type := 2;
              init_order_type := "GTC" |} in
  (class_of e = SignerError /\
   (exists ord, Order_post_init o = Ok ord) /\
   g' = snd (Eth.randint 1 (2 ^ 40 - 1) g)) \/
  (class_of e <> SignerError /\ Order_post_init o = Raise e /\ g' = g).
Proof.
  intros Hs o. unfold sign_order_dict in Hs. fold o in Hs.
  destruct (Order_post_init o) as [ord | e0] eqn:Ho.
  - left.
    destruct (sign_order_raise self ord g e g' Hs) as [-> [c ->]].
    split; [reflexivity |]. split; [eauto | reflexivity].
  - injection Hs as <- <-. right.
    split; [apply (post_init_never_signer_error o), Ho |].
    split; reflexivity.
Qed.

End SignerErrors.

(** *** On the test double *)

Lemma sign_order_fails_only_for_witness :
  42 = snd (@Eth.randint test_backend 1 (2 ^ 40 - 1) 41) /\
  exists cause,
    Failed_to_sign not_an_address = Failed_to_sign cause /\
    (@Eth.to_checksum_address test_backend (maker nobody_order)
       = Raise cause \/
     @Eth.to_checksum_address test_backend (address test_signer)
       = Raise cause \/
     Py.int (token_id nobody_order) = Raise cause \/
     (exists msg,
        @build_order_message test_backend test_signer nobody_order
          (fst (@Eth.randint test_backend 1 (2 ^ 40 - 1) 41)) = Ok msg /\
        @encode_typed_data test_backend ORDER_DOMAIN ORDER_TYPES msg
          = Raise cause) \/
     (exists signable,
        @sign_message_hex test_backend (wallet test_signer) signable
          = Raise cause)).
Proof.
  apply (@sign_order_fails_only_for test_backend order_of_nobody nobody_order
           test_signer 41 (Failed_to_sign not_an_address) 42);
    vm_compute; reflexivity.
Defined.

Lemma sign_order_dict_error_origin_witness :
  let o := mkOrderInit "1" (init_price limit_order) (init_size limit_order)
             "HOLD" test_maker None 0 2 "GTC" in
  (class_of (Invalid_side "HOLD") = SignerError /\
   (exists ord, Order_post_init o = Ok ord) /\
   41 = snd (@Eth.randint test_backend 1 (2 ^ 40 - 1) 41)) \/
  (class_of (Invalid_side "HOLD") <> SignerError /\
   Order_post_init o = Raise (Invalid_side "HOLD") /\ 41 = 41).
Proof.
  apply (@sign_order_dict_error_origin test_backend test_signer "1"
           (init_price limit_order) (init_size limit_order) "HOLD" test_maker
           None 0 41 (Invalid_side "HOLD") 41).
  vm_compute. reflexivity.
Defined.


(** ** [ApiClient]: the URL of a request *)

Section RequestUrl.

Lemma lstrip_char_no_lead c s :
  Py.startswith (PyStr.lstrip_char c s) (String c EmptyString) = false.
Proof.
  induction s as [| a s IH]; [reflexivity |].
  cbn [PyStr.lstrip_char].
  destruct (Ascii.eqb a c) eqn:E; [exact IH |].
  cbn [Py.startswith]. rewrite Ascii.eqb_sym, E. reflexivity.
Qed.

Lemma rstrip_char_no_trail c s :
  PyStr.ends_with_char c (PyStr.rstrip_char c s) = false.
Proof.
  induction s as [| a s IH]; [reflexivity |].
  cbn [PyStr.rstrip_char].
  destruct (PyStr.rstrip_char c s) as [| b r] eqn:Er.
  - destruct (Ascii.eqb a c) eqn:E; [reflexivity |].
    cbn [PyStr.ends_with_char]. exact E.
  - cbn [PyStr.ends_with_char] in *. exact IH.
Qed.

Lemma rstrip_char_app_char c s :
  PyStr.rstrip_char c (s +:+ String c EmptyString) = PyStr.rstrip_char c s.
Proof.
  induction s as [| a s IH].
  - change (PyStr.rstrip_char c (String c EmptyString) = EmptyString).
    cbn [PyStr.rstrip_char]. rewrite Ascii.eqb_refl. reflexivity.
  - change (PyStr.rstrip_char c (String a (s +:+ String c EmptyString))
            = PyStr.rstrip_char c (String a s)).
    cbn [PyStr.rstrip_char]. rewrite IH. reflexivity.
Qed.

Lemma rstrip_char_fixed c s :
  PyStr.ends_with_char c s = false -> PyStr.rstrip_char c s = s.
Proof.
  induction s as [| a s IH]; [reflexivity |].
  cbn [PyStr.ends_with_char PyStr.rstrip_char].
  destruct s as [| b s'].
  - cbn. intros ->. reflexivity.
  - intros Hs. rewrite (IH Hs). reflexivity.
Qed.

(** X9. The URL of a request is the base URL without its trailing
    slashes, one slash, and the endpoint without its leading slashes:
    slashes added at the end of the base URL or in front of the endpoint
    change nothing, and stripping is done once and for all. *)
Theorem request_url_has_one_joining_slash base endpoint timeout retry_count :
  let self := ApiClient.init base timeout retry_count in
  let b := PyStr.rstrip_char "/" base in
  let e := PyStr.lstrip_char "/" endpoint in
  ApiClient.url_of self endpoint = b +:+ "/" +:+ e /\
  PyStr.ends_with_char "/" b = false /\
  Py.startswith e "/" = false /\
  ApiClient.url_of (ApiClient.init (base +:+ "/") timeout retry_count) endpoint
    = ApiClient.url_of self endpoint /\
  ApiClient.url_of self ("/" +:+ endpoint) = ApiClient.url_of self endpoint /\
  ApiClient.url_of (ApiClient.init b timeout retry_count) e
    = ApiClient.url_of self endpoint.
Proof.
  cbv zeta. unfold ApiClient.url_of, ApiClient.init.
  cbn [ApiClient.base_url].
  repeat split.
  - apply rstrip_char_no_trail.
  - apply (lstrip_char_no_lead "/").
  - rewrite (rstrip_char_app_char "/"). reflexivity.
  - rewrite (rstrip_char_fixed "/" (PyStr.rstrip_char "/" base))
      by apply rstrip_char_no_trail.
    f_equal. f_equal.
    pose proof (lstrip_char_no_lead "/" endpoint) as Hl.
    destruct (PyStr.lstrip_char "/" endpoint) as [| a r]; [reflexivity |].
    cbn [Py.startswith] in Hl. cbn [PyStr.lstrip_char].
    rewrite Ascii.eqb_sym. rewrite andb_true_r in Hl. rewrite Hl.
    reflexivity.
Qed.

End RequestUrl.

(** ** [ApiClient._request]: attempts and pauses *)

Section RetryLoop.
Context `{Services}.
Local Open Scope list_scope.

Lemma seconds_slept_app w1 w2 :
  seconds_slept (w1 ++ w2) = seconds_slept w1 + seconds_slept w2.
Proof.
  unfold seconds_slept. induction w1 as [| e w1 IH]; [reflexivity |].
  cbn [app fold_right]. destruct e; lia.
Qed.

Lemma requests_sent_app w1 w2 :
  requests_sent (w1 ++ w2) = requests_sent w1 ++ requests_sent w2.
Proof. unfold requests_sent. apply omap_app. Qed.

Lemma backoff_trace_succ r k a :
  backoff_trace r (S (S k)) a = Sent r :: Slept (2 ^ a) :: backoff_trace r (S k) (a + 1).
Proof. reflexivity. Qed.

Lemma seconds_slept_backoff r k : forall a,
  0 <= a ->
  seconds_slept (backoff_trace r k a) = 2 ^ a * backoff_seconds k.
Proof.
  induction k as [| k IH]; intros a Ha; [cbn; lia |].
  destruct k as [| k]; [cbn; lia |].
  rewrite backoff_trace_succ.
  change (seconds_slept (Sent r :: Slept (2 ^ a) :: ?t))
    with (2 ^ a + seconds_slept t).
  rewrite IH by lia. unfold backoff_seconds.
  rewrite Z.pow_add_r by lia. rewrite Nat2Z.inj_succ, Z.pow_succ_r by lia.
  lia.
Qed.

Lemma requests_sent_backoff r k : forall a,
  requests_sent (backoff_trace r k a) = replicate k r.
Proof.
  induction k as [| k IH]; intros a; [reflexivity |].
  destruct k as [| k]; [reflexivity |].
  rewrite backoff_trace_succ.
  change (requests_sent (Sent r :: Slept (2 ^ a) :: ?t))
    with (r :: requests_sent t).
  rewrite IH. reflexivity.
Qed.

Lemma failed_then_backoff r i : forall a k,
  failed_attempts r i a ++ backoff_trace r (S k) (a + Z.of_nat i)
    = backoff_trace r (i + S k) a.
Proof.
  induction i as [| i IH]; intros a k.
  - cbn [failed_attempts app Nat.add]. replace (a + Z.of_nat 0) with a by lia.
    reflexivity.
  - cbn [failed_attempts app]. replace (a + Z.of_nat (S i)) with (a + 1 + Z.of_nat i) by lia.
    rewrite IH. replace (S i + S k)%nat with (S (S (i + k))) by lia.
    rewrite backoff_trace_succ. replace (i + S k)%nat with (S (i + k)) by lia.
    reflexivity.
Qed.

(** The loop over the [len] attempts that remain, for a supported method:
    [k] requests leave, all the same, with the pauses between them. *)
Lemma attempts_shape self method url hdrs data params r len :
  ApiClient.session_call self method url hdrs data params = Some r ->
  forall a last w res w',
    a + Z.of_nat len = ApiClient.retry_count self ->
    ApiClient.attempts self method url hdrs data params
      (seqZ a (Z.of_nat len)) last w = (res, w') ->
    exists k, (k <= len)%nat /\ (len <> 0 -> k <> 0)%nat /\
              w' = w ++ backoff_trace r k a /\
              loop_outcome self len k res.
Proof.
  intros Hcall. induction len as [| len IH]; intros a last w res w' Hn.
  - cbn. intros [= <- <-]. exists 0%nat.
    rewrite app_nil_r. repeat split; try lia; try reflexivity.
  - rewrite seqZ_cons by lia.
    replace (Z.pred (Z.of_nat (S len))) with (Z.of_nat len) by lia.
    cbn [ApiClient.attempts]. rewrite Hcall.
    destruct (ApiClient.read_reply (session_send w r)) as [[what | what] | v].
    + intros Hrec. apply IH in Hrec; [| lia].
      destruct Hrec as (k & Hk & Hk0 & -> & Hout).
      exists (S k). split; [lia |]. split; [lia |].
      destruct len as [| len].
      * replace (a <? ApiClient.retry_count self - 1) with false
          by (symmetry; apply Z.ltb_ge; lia).
        assert (k = 0%nat) by lia. subst k.
        rewrite app_nil_r. split; [reflexivity |].
        destruct res as [v | [m | m e | | m]]; cbn in *; try tauto;
          try (destruct Hout as [-> _]; split; [reflexivity | lia]).
      * replace (a <? ApiClient.retry_count self - 1) with true
          by (symmetry; apply Z.ltb_lt; lia).
        destruct k as [| k]; [exfalso; apply Hk0; [lia | reflexivity] |].
        rewrite backoff_trace_succ, <- !app_assoc. split; [reflexivity |].
        destruct res as [v | [m | m e | | m]]; cbn in *; try tauto;
          try (destruct Hout as [-> Hk']; split; [reflexivity | lia]).
    + intros [= <- <-]. exists 1%nat.
      repeat split; try lia; try reflexivity.
    + intros [= <- <-]. exists 1%nat.
      repeat split; try lia; try reflexivity.
Qed.

(** [_request] as a whole. *)
Lemma request_shape self method endpoint data headers params w res w' :
  ApiClient.request self method endpoint data headers params w = (res, w') ->
  exists k : nat,
    (k <= Z.to_nat (ApiClient.retry_count self))%nat /\
    (ApiClient.call_of self method endpoint data headers params = None ->
     k = 0%nat) /\
    w' = w ++ match ApiClient.call_of self method endpoint data headers params
              with
              | Some r => backoff_trace r k 0
              | None => []
              end /\
    match res with
    | Return _ | Raises (Uncaught _) => (1 <= k)%nat
    | Raises (Request_failed m _) =>
        m = ApiClient.retry_count self /\
        k = Z.to_nat (ApiClient.retry_count self)
    | Raises (Unsupported_method m) =>
        m = method /\ k = 0%nat /\ 1 <= ApiClient.retry_count self /\
        ApiClient.call_of self method endpoint data headers params = None
    | Raises Builder_credentials_required => False
    end.
Proof.
  unfold ApiClient.request, ApiClient.call_of.
  set (n := ApiClient.retry_count self).
  destruct (Z.le_gt_cases n 0) as [Hn | Hn].
  - rewrite seqZ_nil by lia. cbn. intros [= <- <-]. exists 0%nat.
    replace (Z.to_nat n) with 0%nat by lia.
    split; [lia |]. split; [reflexivity |]. split; [| split; reflexivity].
    destruct (ApiClient.session_call _ _ _ _ _ _); rewrite app_nil_r;
      reflexivity.
  - destruct (ApiClient.session_call self method _ _ data params)
      as [r |] eqn:Hcall.
    + replace n with (Z.of_nat (Z.to_nat n)) at 1 by lia. intros Hrun.
      apply (attempts_shape _ _ _ _ _ _ r _ Hcall) in Hrun; [| fold n; lia].
      destruct Hrun as (k & Hk & Hk0 & -> & Hout).
      exists k. split; [assumption |]. split; [discriminate |].
      split; [reflexivity |].
      destruct res as [v | [m | m e | | m]]; cbn in *; try tauto; lia.
    + rewrite seqZ_cons by lia. cbn [ApiClient.attempts]. rewrite Hcall.
      intros [= <- <-]. exists 0%nat. rewrite app_nil_r.
      repeat split; lia.
Qed.

(** X10. Whatever the network answers, [_request] sends the same request
    [k] times, with [k] at most [retry_count], pauses 1, 2, 4, ... seconds
    between two attempts and never after the last one, so 2^(k-1) - 1
    seconds in all; it returns or lets an exception through only after a
    request, gives up with an ApiError only after [retry_count] requests,
    and refuses another method than GET, POST or DELETE, in any case,
    before anything is sent. *)
Theorem request_retry_discipline self method endpoint data headers params
    w res w' :
  ApiClient.request self method endpoint data headers params w = (res, w') ->
  exists k : nat,
    (k <= Z.to_nat (ApiClient.retry_count self))%nat /\
    w' = w ++ match ApiClient.call_of self method endpoint data headers params
              with
              | Some r => backoff_trace r k 0
              | None => []
              end /\
    seconds_slept w' = seconds_slept w + backoff_seconds k /\
    match res with
    | Return _ | Raises (Uncaught _) => (1 <= k)%nat
    | Raises (Request_failed m _) =>
        m = ApiClient.retry_count self /\
        k = Z.to_nat (ApiClient.retry_count self)
    | Raises (Unsupported_method m) =>
        m = method /\ k = 0%nat /\ 1 <= ApiClient.retry_count self /\
        ApiClient.call_of self method endpoint data headers params = None
    | Raises Builder_credentials_required => False
    end.
Proof.
  intros Hrun.
  destruct (request_shape _ _ _ _ _ _ _ _ _ Hrun)
    as (k & Hk & Hnone & Hw & Hres).
  exists k. split; [assumption |]. split; [assumption |].
  split; [| assumption].
  rewrite Hw, seconds_slept_app.
  destruct (ApiClient.call_of self method endpoint data headers params)
    as [r |] eqn:Hcall.
  - rewrite seconds_slept_backoff by lia. lia.
  - rewrite (Hnone eq_refl). reflexivity.
Qed.

(** After [j] attempts that fail with a RequestException, while attempts
    remain, the loop goes on from the trace of these failures. *)
Lemma attempts_after_failures self method url hdrs data params r :
  ApiClient.session_call self method url hdrs data params = Some r ->
  forall j (e : nat -> string) len a last w,
    a + Z.of_nat (j + S len) = ApiClient.retry_count self ->
    (forall i, (i < j)%nat ->
       ApiClient.read_reply (session_send (w ++ failed_attempts r i a) r)
         = inl (Request_exception (e i))) ->
    ApiClient.attempts self method url hdrs data params
      (seqZ a (Z.of_nat (j + S len))) last w
    = ApiClient.attempts self method url hdrs data params
        (seqZ (a + Z.of_nat j) (Z.of_nat (S len)))
        (match j with O => last | S j' => Some (e j') end)
        (w ++ failed_attempts r j a).
Proof.
  intros Hcall. induction j as [| j IH]; intros e len a last w Hn Hfail.
  - cbn [failed_attempts Nat.add]. rewrite app_nil_r.
    replace (a + Z.of_nat 0) with a by lia. reflexivity.
  - rewrite seqZ_cons by lia.
    replace (Z.pred (Z.of_nat (S j + S len))) with (Z.of_nat (j + S len))
      by lia.
    cbn [ApiClient.attempts]. rewrite Hcall.
    pose proof (Hfail 0%nat ltac:(lia)) as H0.
    cbn [failed_attempts] in H0. rewrite app_nil_r in H0. rewrite H0.
    replace (a <? ApiClient.retry_count self - 1) with true
      by (symmetry; apply Z.ltb_lt; lia).
    rewrite (IH (fun i => e (S i)) len (Z.succ a) (Some (e 0%nat))); [| lia |].
    + replace (Z.succ a + Z.of_nat j) with (a + Z.of_nat (S j)) by lia.
      cbn [failed_attempts]. rewrite <- !app_assoc.
      replace (a + 1) with (Z.succ a) by lia.
      destruct j; reflexivity.
    + intros i Hi. specialize (Hfail (S i) ltac:(lia)).
      cbn [failed_attempts] in Hfail. rewrite <- !app_assoc.
      replace (Z.succ a) with (a + 1) by lia. exact Hfail.
Qed.

(** X11. The first reply that is no RequestException decides: when the
    first [j] attempts fail with a RequestException, [j] being less than
    [retry_count], and the next reply is a response without HTTP error,
    [_request] returns its JSON ([{}] for an empty text), and when it is
    another exception, that exception goes through; either way [j + 1]
    requests have left and the pauses 1, ..., 2^(j-1) have been made. *)
Theorem first_conclusive_reply_decides self method endpoint data headers
    params r (j : nat) (e : nat -> string) w :
  ApiClient.call_of self method endpoint data headers params = Some r ->
  Z.of_nat j < ApiClient.retry_count self ->
  (forall i, (i < j)%nat ->
     ApiClient.read_reply (session_send (w ++ failed_attempts r i 0) r)
       = inl (Request_exception (e i))) ->
  let w' := w ++ failed_attempts r j 0 in
  (forall v,
     ApiClient.read_reply (session_send w' r) = inr v ->
     ApiClient.request self method endpoint data headers params w
       = (Return v, w' ++ [Sent r])) /\
  (forall what,
     ApiClient.read_reply (session_send w' r) = inl (Other_exception what) ->
     ApiClient.request self method endpoint data headers params w
       = (Raises (Uncaught what), w' ++ [Sent r])).
Proof.
  intros Hcall Hj Hfail w'. unfold ApiClient.request.
  set (n := ApiClient.retry_count self) in *.
  assert (Hlen : exists len, n = Z.of_nat (j + S len)).
  { exists (Z.to_nat (n - Z.of_nat j - 1)). lia. }
  destruct Hlen as [len Hlen]. rewrite Hlen.
  rewrite (attempts_after_failures _ _ _ _ _ _ r Hcall j e len 0 None w)
    by (fold n; lia || assumption).
  fold w'. replace (0 + Z.of_nat j) with (Z.of_nat j) by lia.
  rewrite seqZ_cons by lia. cbn [ApiClient.attempts].
  unfold ApiClient.call_of in Hcall. rewrite Hcall.
  split; [intros v Hv | intros what Hv]; rewrite Hv; reflexivity.
Qed.

(** X12. When all the [retry_count] attempts fail with a RequestException,
    [_request] raises the ApiError that tells the number of attempts and
    the last of these exceptions, after [retry_count] requests and the
    pauses 1, ..., 2^(retry_count-2): none follows the last failure. *)
Theorem request_gives_up_after_retry_count_failures self method endpoint
    data headers params r (n : nat) (e : nat -> string) w :
  ApiClient.call_of self method endpoint data headers params = Some r ->
  ApiClient.retry_count self = Z.of_nat (S n) ->
  (forall i, (i <= n)%nat ->
     ApiClient.read_reply (session_send (w ++ failed_attempts r i 0) r)
       = inl (Request_exception (e i))) ->
  ApiClient.request self method endpoint data headers params w
    = (Raises (Request_failed (Z.of_nat (S n)) (Some (e n))),
       w ++ failed_attempts r n 0 ++ [Sent r]) /\
  seconds_slept (failed_attempts r n 0 ++ [Sent r]) = 2 ^ Z.of_nat n - 1.
Proof.
  intros Hcall Hn Hfail. split.
  - unfold ApiClient.request. rewrite Hn.
    replace (S n) with (n + 1)%nat at 1 by lia.
    rewrite (attempts_after_failures _ _ _ _ _ _ r Hcall n e 0 0 None w)
      by (lia || (intros i Hi; apply Hfail; lia)).
    replace (0 + Z.of_nat n) with (Z.of_nat n) by lia.
    rewrite seqZ_cons by lia. cbn [ApiClient.attempts].
    unfold ApiClient.call_of in Hcall. rewrite Hcall.
    rewrite (Hfail n) by lia.
    replace (Z.of_nat n <? ApiClient.retry_count self - 1) with false
      by (symmetry; apply Z.ltb_ge; lia).
    replace (Z.pred (Z.of_nat 1)) with 0 by lia.
    rewrite seqZ_nil by lia. cbn [ApiClient.attempts].
    rewrite Hn, <- app_assoc. reflexivity.
  - replace (failed_attempts r n 0 ++ [Sent r])
      with (backoff_trace r (S n) 0).
    + rewrite seconds_slept_backoff by lia. cbn [backoff_seconds]. lia.
    + replace (S n) with (n + 1)%nat by lia.
      rewrite <- (failed_then_backoff r n 0 0). reflexivity.
Qed.

(** X13. Some calls never reach the network: with a [retry_count] of 0 or
    less, [_request] raises the ApiError of the loop, for any method,
    after 0 attempts and with no last error; otherwise a method that is
    not GET, POST or DELETE, in any case, raises the ApiError for an
    unsupported method at once. Neither sends, pauses or reads the
    clock. *)
Theorem requests_that_never_leave self method endpoint data headers params w :
  (ApiClient.retry_count self <= 0 ->
   ApiClient.request self method endpoint data headers params w
     = (Raises (Request_failed (ApiClient.retry_count self) None), w)) /\
  (1 <= ApiClient.retry_count self ->
   Py.upper method <> "GET" -> Py.upper method <> "POST" ->
   Py.upper method <> "DELETE" ->
   ApiClient.request self method endpoint data headers params w
     = (Raises (Unsupported_method method), w)).
Proof.
  unfold ApiClient.request. split.
  - intros Hn. rewrite seqZ_nil by lia. reflexivity.
  - intros Hn Hg Hp Hd. rewrite seqZ_cons by lia.
    cbn [ApiClient.attempts]. unfold ApiClient.session_call.
    apply String.eqb_neq in Hg, Hp, Hd. rewrite Hg, Hp, Hd. reflexivity.
Qed.

End RetryLoop.

(** *** On the test double *)

Local Open Scope list_scope.

Lemma request_retry_discipline_witness :
  exists k : nat,
    (k <= Z.to_nat (ApiClient.retry_count test_client))%nat /\
    (failed_attempts price_request 2 0 ++ [Sent price_request])%list
      = ([] ++ match ApiClient.call_of test_client "get" "/price/1"
                       None None None with
               | Some r => backoff_trace r k 0
               | None => []
               end)%list /\
    seconds_slept (failed_attempts price_request 2 0 ++ [Sent price_request])
      = seconds_slept [] + backoff_seconds k /\
    (1 <= k)%nat.
Proof.
  apply (@request_retry_discipline test_services test_client "get" "/price/1"
           None None None [] (Return (JList []))
           (failed_attempts price_request 2 0 ++ [Sent price_request])%list).
  vm_compute. reflexivity.
Defined.

Lemma first_conclusive_reply_decides_witness :
  let w' := ([] ++ failed_attempts price_request 2 0)%list in
  (forall v,
     ApiClient.read_reply (@session_send test_services w' price_request)
       = inr v ->
     @ApiClient.request test_services test_client "get" "/price/1"
       None None None []
       = (Return v, (w' ++ [Sent price_request])%list)) /\
  (forall what,
     ApiClient.read_reply (@session_send test_services w' price_request)
       = inl (Other_exception what) ->
     @ApiClient.request test_services test_client "get" "/price/1"
       None None None []
       = (Raises (Uncaught what), (w' ++ [Sent price_request])%list)).
Proof.
  apply (@first_conclusive_reply_decides test_services test_client "get"
           "/price/1" None None None price_request 2
           (fun _ => "timed out") []).
  - vm_compute. reflexivity.
  - vm_compute. reflexivity.
  - intros [| [| i]] Hi; [reflexivity | reflexivity | lia].
Defined.

Lemma request_gives_up_after_retry_count_failures_witness :
  @ApiClient.request test_services impatient_client "GET" "price/1"
    None None None []
    = (Raises (Request_failed (Z.of_nat 2) (Some "timed out")),
       ([] ++ failed_attempts price_request 1 0 ++ [Sent price_request])%list)
  /\
  seconds_slept (failed_attempts price_request 1 0 ++ [Sent price_request])
    = 2 ^ Z.of_nat 1 - 1.
Proof.
  apply (@request_gives_up_after_retry_count_failures test_services
           impatient_client "GET" "price/1" None None None price_request 1
           (fun _ => "timed out") []).
  - vm_compute. reflexivity.
  - reflexivity.
  - intros [| [| i]] Hi; [reflexivity | reflexivity | lia].
Defined.

Lemma requests_that_never_leave_witness :
  (@ApiClient.request test_services (ApiClient.init "h" 30 0) "GET" "/x"
     None None None []
   = (Raises (Request_failed 0 None), [])) /\
  (@ApiClient.request test_services test_client "PATCH" "/x"
     None None None []
   = (Raises (Unsupported_method "PATCH"), [])).
Proof.
  split.
  - apply (@requests_that_never_leave test_services (ApiClient.init "h" 30 0)
             "GET" "/x" None None None []).
    vm_compute. discriminate.
  - apply (@requests_that_never_leave test_services test_client
             "PATCH" "/x" None None None []);
      [vm_compute; discriminate | discriminate ..].
Defined.


(** ** [ClobClient] and [RelayerClient]: credentials *)

Section Credentials.
Context `{Services}.
Local Open Scope list_scope.

Lemma clob_headers_ignore_api_creds self creds method path body w :
  ClobClient.build_headers (with_api_creds self creds) method path body w
    = ClobClient.build_headers self method path body w.
Proof.
  unfold ClobClient.build_headers, with_api_creds.
  cbn [ClobClient.builder_creds ClobClient.api_creds].
  destruct (ClobClient.builder_creds self) as [c |].
  - destruct (BuilderConfig.as_bool c && BuilderConfig.is_configured c).
    + destruct (builder_headers c method path body w) as [added w1].
      destruct creds as [u |], (ClobClient.api_creds self) as [u' |];
        repeat match goal with
               | |- context [ApiCredentials.is_valid ?x] =>
                   destruct (ApiCredentials.is_valid x)
               end; reflexivity.
    + destruct creds as [u |], (ClobClient.api_creds self) as [u' |];
        repeat match goal with
               | |- context [ApiCredentials.is_valid ?x] =>
                   destruct (ApiCredentials.is_valid x)
               end; reflexivity.
  - destruct creds as [u |], (ClobClient.api_creds self) as [u' |];
      repeat match goal with
             | |- context [ApiCredentials.is_valid ?x] =>
                 destruct (ApiCredentials.is_valid x)
             end; reflexivity.
Qed.

(** X14. The user credentials of a [ClobClient] are never used: whatever
    [api_creds] is, valid or not or absent, each operation of the client
    sends the same requests with the same headers and gives the same
    result. *)
Theorem clob_client_never_uses_api_creds self creds w :
  let self' := with_api_creds self creds in
  (forall method path body,
     ClobClient.build_headers self' method path body w
       = ClobClient.build_headers self method path body w) /\
  (forall token_id,
     ClobClient.get_order_book self' token_id w
       = ClobClient.get_order_book self token_id w) /\
  (forall token_id,
     ClobClient.get_market_price self' token_id w
       = ClobClient.get_market_price self token_id w) /\
  ClobClient.get_open_orders self' w = ClobClient.get_open_orders self w /\
  (forall order_id,
     ClobClient.get_order self' order_id w
       = ClobClient.get_order self order_id w) /\
  (forall token_id limit,
     ClobClient.get_trades self' token_id limit w
       = ClobClient.get_trades self token_id limit w) /\
  (forall signed_order order_type,
     ClobClient.post_order self' signed_order order_type w
       = ClobClient.post_order self signed_order order_type w) /\
  (forall order_id,
     ClobClient.cancel_order self' order_id w
       = ClobClient.cancel_order self order_id w) /\
  (forall token_id,
     ClobClient.cancel_all_orders self' token_id w
       = ClobClient.cancel_all_orders self token_id w).
Proof.
  cbv zeta.
  repeat split; intros;
    unfold ClobClient.get_open_orders, ClobClient.get_trades,
      ClobClient.post_order, ClobClient.cancel_order,
      ClobClient.cancel_all_orders, ClobClient.order_body;
    rewrite ?clob_headers_ignore_api_creds; reflexivity.
Qed.

Lemma relayer_headers_without_creds self method path body w :
  builder_ready (RelayerClient.builder_creds self) = false ->
  RelayerClient.build_headers self method path body w
    = (Raises Builder_credentials_required, w).
Proof.
  unfold builder_ready, RelayerClient.build_headers.
  destruct (RelayerClient.builder_creds self) as [c |]; [| reflexivity].
  destruct (BuilderConfig.as_bool c), (BuilderConfig.is_configured c);
    cbn; intros; reflexivity || discriminate.
Qed.

(** X15. Without Builder credentials that are configured, every operation
    of the [RelayerClient] raises the AuthenticationError before anything
    happens: no request is sent, the clock is not read. *)
Theorem relayer_requires_builder_credentials self w :
  builder_ready (RelayerClient.builder_creds self) = false ->
  (forall safe_address,
     RelayerClient.deploy_safe self safe_address w
       = (Raises Builder_credentials_required, w)) /\
  (forall safe_address spender amount,
     RelayerClient.approve_usdc self safe_address spender amount w
       = (Raises Builder_credentials_required, w)) /\
  (forall safe_address token_id spender amount,
     RelayerClient.approve_token self safe_address token_id spender amount w
       = (Raises Builder_credentials_required, w)).
Proof.
  intros Hno.
  repeat split; intros;
    unfold RelayerClient.deploy_safe, RelayerClient.approve_usdc,
      RelayerClient.approve_token, RelayerClient.post;
    rewrite relayer_headers_without_creds by assumption; reflexivity.
Qed.

End Credentials.

(** ** [ClobClient]: what is posted, and how often *)

Section Posting.
Context `{Services}.
Local Open Scope list_scope.

Lemma clob_headers_cases self method path body w :
  ClobClient.build_headers self method path body w
  = match ClobClient.builder_creds self with
    | Some c =>
        if BuilderConfig.as_bool c && BuilderConfig.is_configured c
        then builder_headers c method path body w
        else (∅, w)
    | None => (∅, w)
    end.
Proof.
  unfold ClobClient.build_headers.
  destruct (ClobClient.builder_creds self) as [c |].
  - destruct (BuilderConfig.as_bool c && BuilderConfig.is_configured c).
    + destruct (builder_headers c method path body w) as [added w1].
      rewrite (right_id_L ∅ (∪)).
      destruct (ClobClient.api_creds self) as [u |];
        [destruct (ApiCredentials.is_valid u) |]; reflexivity.
    + destruct (ClobClient.api_creds self) as [u |];
        [destruct (ApiCredentials.is_valid u) |]; reflexivity.
  - destruct (ClobClient.api_creds self) as [u |];
      [destruct (ApiCredentials.is_valid u) |]; reflexivity.
Qed.

Lemma backoff_seconds_le_3 k : (k <= 3)%nat -> backoff_seconds k <= 3.
Proof.
  intros Hk. destruct k as [| [| [| [| k]]]]; cbn; lia.
Qed.

(** X16. [post_order] of a client built by [ClobClient.__init__] sends one
    and the same POST request to [<host>/order], at most three times and
    with at most 3 seconds of pauses: the body is the dict
    [{order, owner, orderType}], passed as it is to the session, whereas
    the Builder signature, when Builder credentials are configured, is the
    HMAC of timestamp + "POST" + "/order" + the compact JSON text of that
    body, with the timestamp read once, before the first attempt. Without
    such credentials the request has no other header than Content-Type. *)
Theorem post_order_sends_one_request_at_most_three_times
    host chain_id signature_type funder api_creds builder timeout
    signed_order order_type w res w' :
  let self :=
    ClobClient.init host chain_id signature_type funder api_creds builder
      timeout in
  let body := ClobClient.order_body self signed_order order_type in
  ClobClient.post_order self signed_order order_type w = (res, w') ->
  exists (k : nat) (auth : gmap string string) (w0 : World),
    (k <= 3)%nat /\
    w' = w0 ++ backoff_trace
                 (mkRequest "POST" (PyStr.rstrip_char "/" host +:+ "/order")
                    (ApiClient.headers_of (Some auth)) None (Some body)
                    timeout) k 0 /\
    seconds_slept w' <= seconds_slept w + 3 /\
    match builder with
    | Some c =>
        if BuilderConfig.as_bool c && BuilderConfig.is_configured c then
          w0 = w ++ [Clock_read] /\
          auth = {[ "POLY_BUILDER_API_KEY" := BuilderConfig.api_key c;
                    "POLY_BUILDER_TIMESTAMP" := Py.str (clock_seconds w);
                    "POLY_BUILDER_PASSPHRASE" := BuilderConfig.api_passphrase c;
                    "POLY_BUILDER_SIGNATURE" :=
                      hmac_sha256_hex (BuilderConfig.api_secret c)
                        (Py.str (clock_seconds w) +:+ "POST" +:+ "/order"
                         +:+ json_dumps_compact body) ]}
        else w0 = w /\ auth = ∅
    | None => w0 = w /\ auth = ∅
    end /\
    match res with
    | Return _ | Raises (Uncaught _) => (1 <= k)%nat
    | Raises (Request_failed m _) => m = 3 /\ k = 3%nat
    | Raises _ => False
    end.
Proof.
  intros self body. unfold ClobClient.post_order. fold body.
  rewrite clob_headers_cases.
  set (hw := match ClobClient.builder_creds self with
             | Some c =>
                 if BuilderConfig.as_bool c && BuilderConfig.is_configured c
                 then builder_headers c "POST" "/order"
                        (json_dumps_compact body) w
                 else (∅, w)
             | None => (∅, w)
             end).
  destruct hw as [auth w0] eqn:Ehw. intros Hrun.
  destruct (request_shape _ _ _ _ _ _ _ _ _ Hrun)
    as (k & Hk & _ & Hw & Hres).
  change (ApiClient.call_of (ClobClient.api self) "POST" "/order" (Some body)
            (Some auth) None)
    with (Some (mkRequest "POST" (PyStr.rstrip_char "/" host +:+ "/order")
                  (ApiClient.headers_of (Some auth)) None (Some body)
                  timeout)) in Hw.
  change (ApiClient.retry_count (ClobClient.api self)) with 3 in *.
  change (Z.to_nat 3) with 3%nat in *.
  assert (Hauth :
    match builder with
    | Some c =>
        if BuilderConfig.as_bool c && BuilderConfig.is_configured c then
          w0 = w ++ [Clock_read] /\
          auth = {[ "POLY_BUILDER_API_KEY" := BuilderConfig.api_key c;
                    "POLY_BUILDER_TIMESTAMP" := Py.str (clock_seconds w);
                    "POLY_BUILDER_PASSPHRASE" := BuilderConfig.api_passphrase c;
                    "POLY_BUILDER_SIGNATURE" :=
                      hmac_sha256_hex (BuilderConfig.api_secret c)
                        (Py.str (clock_seconds w) +:+ "POST" +:+ "/order"
                         +:+ json_dumps_compact body) ]}
        else w0 = w /\ auth = ∅
    | None => w0 = w /\ auth = ∅
    end).
  { subst hw. change (ClobClient.builder_creds self) with builder in Ehw.
    destruct builder as [c |]; [| injection Ehw as <- <-; auto].
    destruct (BuilderConfig.as_bool c && BuilderConfig.is_configured c);
      [| injection Ehw as <- <-; auto].
    unfold builder_headers in Ehw. injection Ehw as <- <-. auto. }
  exists k, auth, w0. split; [assumption |]. split; [assumption |].
  split; [| split; [assumption |]].
  - rewrite Hw, seconds_slept_app, seconds_slept_backoff by lia.
    pose proof (backoff_seconds_le_3 k Hk).
    assert (seconds_slept w0 = seconds_slept w).
    { destruct builder as [c |];
        [destruct (BuilderConfig.as_bool c && BuilderConfig.is_configured c) |];
        destruct Hauth as [-> _]; rewrite ?seconds_slept_app; cbn; lia. }
    lia.
  - destruct res as [v | [m | m e | | m]]; try assumption.
    + destruct Hres as (_ & _ & _ & Hnone). discriminate Hnone.
Qed.

End Posting.

Section PostedOrder.
Context `{Backend}.

(** X17. What [post_order] posts for a payload of [sign_order]: the body
    has the three keys order, owner and orderType and no signature of its
    own; its order is the signed order, thirteen fields in the order of
    the payload, the signature last; the owner is the funder of the
    client; and the orderType is the argument of [post_order], whatever
    order type the order was built with. *)
Theorem posted_body_of_a_signed_order self ord g payload g'
    (client : ClobClient.t) order_type :
  sign_order self ord g = (Ok payload, g') ->
  exists salt mk sg tokenId ma ta sig,
    Eth.to_checksum_address (maker ord) = Ok mk /\
    Eth.to_checksum_address (address self) = Ok sg /\
    Py.int (token_id ord) = Ok tokenId /\
    Py.int (maker_amount ord) = Ok ma /\
    Py.int (taker_amount ord) = Ok ta /\
    ClobClient.order_body client (json_of_payload payload) order_type
      = [ ("order",
           JDict [ ("salt", JInt salt);
                   ("maker", JStr mk);
                   ("signer", JStr sg);
                   ("taker", JStr Eth.ZERO_ADDRESS);
                   ("tokenId", JStr (Py.str tokenId));
                   ("makerAmount", JStr (Py.str ma));
                   ("takerAmount", JStr (Py.str ta));
                   ("expiration", JStr "0");
                   ("nonce", JStr (Py.str (nonce ord)));
                   ("feeRateBps", JStr (Py.str (fee_rate_bps ord)));
                   ("side", JStr (side ord));
                   ("signatureType", JInt (signature_type ord));
                   ("signature", JStr ("0x" +:+ sig)) ]);
          ("owner", JStr (ClobClient.funder client));
          ("orderType", JStr order_type) ].
Proof.
  intros Hsign.
  destruct (sign_order_inv _ _ _ _ _ Hsign)
    as (salt & msg & sb & sig & _ & Hmsg & _ & _ & body & Hbody & ->).
  destruct (build_order_message_inv _ _ _ _ Hmsg)
    as (mk & sg & t & ma & ta & Hmk & Hsg & Ht & Hma & Hta & ->).
  rewrite order_payload_of_message in Hbody. injection Hbody as <-.
  exists salt, mk, sg, t, ma, ta, sig.
  repeat (split; [assumption |]).
  reflexivity.
Qed.

End PostedOrder.

(** ** Empty answers and missing keys *)

Section EmptyAnswers.
Context `{Services}.
Local Open Scope list_scope.

(** A first reply that is a value ends [_request]. *)
Lemma request_first_reply self method endpoint data headers params r w v :
  ApiClient.call_of self method endpoint data headers params = Some r ->
  1 <= ApiClient.retry_count self ->
  ApiClient.read_reply (session_send w r) = inr v ->
  ApiClient.request self method endpoint data headers params w
    = (Return v, w ++ [Sent r]).
Proof.
  intros Hcall Hn Hv. unfold ApiClient.request.
  rewrite seqZ_cons by lia. cbn [ApiClient.attempts].
  unfold ApiClient.call_of in Hcall. rewrite Hcall, Hv. reflexivity.
Qed.

(** X18. A response without HTTP error and with an empty text is read as
    the empty dict by [_request], so by [get_order_book], and turned into
    the empty list by [get_open_orders]: the one returns [{}] where the
    other returns [[]]. *)
Theorem empty_response_is_an_empty_dict_or_list self token_id w auth w0 resp :
  1 <= ApiClient.retry_count (ClobClient.api self) ->
  http_error resp = None -> text resp = "" ->
  let book :=
    mkRequest "GET"
      (ApiClient.url_of (ClobClient.api self) ("/orderbook/" +:+ token_id))
      {[ "Content-Type" := "application/json" ]} None None
      (ApiClient.timeout (ClobClient.api self)) in
  let orders :=
    mkRequest "GET" (ApiClient.url_of (ClobClient.api self) "/orders")
      (ApiClient.headers_of (Some auth))
      (Some {[ "maker" := ClobClient.funder self ]}) None
      (ApiClient.timeout (ClobClient.api self)) in
  (session_send w book = Responded resp ->
   ClobClient.get_order_book self token_id w
     = (Return (JDict []), w ++ [Sent book])) /\
  (ClobClient.build_headers self "GET" "/orders" "" w = (auth, w0) ->
   session_send w0 orders = Responded resp ->
   ClobClient.get_open_orders self w
     = (Return (JList []), w0 ++ [Sent orders])).
Proof.
  intros Hn Hok Hempty book orders.
  assert (Hread : ApiClient.read_reply (Responded resp) = inr (JDict [])).
  { unfold ApiClient.read_reply. rewrite Hok, Hempty. reflexivity. }
  split.
  - intros Hsend. unfold ClobClient.get_order_book.
    apply request_first_reply; [reflexivity | assumption |].
    fold book. rewrite Hsend. exact Hread.
  - intros Hauth Hsend. unfold ClobClient.get_open_orders.
    rewrite Hauth.
    rewrite (request_first_reply _ _ _ _ _ _ orders w0 (JDict []));
      [reflexivity | reflexivity | assumption |].
    rewrite Hsend. exact Hread.
Qed.

End EmptyAnswers.

Section LoadedCredentials.

Lemma default_truthy o :
  truthy (default (JStr "") o) = true <-> exists v, o = Some v /\ truthy v = true.
Proof.
  destruct o as [v |]; cbn.
  - split; [eauto | intros (v' & [= <-] & Hv); assumption].
  - split; [discriminate | intros (v' & [=] & _)].
Qed.

(** X19. Credentials loaded from a JSON object are valid exactly when the
    object has the three keys apiKey, secret and passphrase, each with a
    value that is true in Python: a missing key, read as the empty string,
    like an empty string, a null or a zero, makes them invalid. *)
Theorem loaded_credentials_are_valid_iff data :
  ApiCredentials.is_valid (ApiCredentials.load data) = true <->
  exists k s p,
    Dict.get data "apiKey" = Some k /\ truthy k = true /\
    Dict.get data "secret" = Some s /\ truthy s = true /\
    Dict.get data "passphrase" = Some p /\ truthy p = true.
Proof.
  unfold ApiCredentials.is_valid, ApiCredentials.load.
  cbn [ApiCredentials.api_key ApiCredentials.secret ApiCredentials.passphrase].
  pose proof (default_truthy (Dict.get data "apiKey")) as Hk.
  pose proof (default_truthy (Dict.get data "secret")) as Hs.
  pose proof (default_truthy (Dict.get data "passphrase")) as Hp.
  destruct (truthy (default (JStr "") (Dict.get data "apiKey"))) eqn:Ek.
  - destruct (truthy (default (JStr "") (Dict.get data "secret"))) eqn:Es.
    + rewrite Hp. split.
      * intros (p & Hgp & Htp).
        destruct (proj1 Hk eq_refl) as (k & Hgk & Htk).
        destruct (proj1 Hs eq_refl) as (s & Hgs & Hts).
        exists k, s, p. auto 10.
      * intros (k & s & p & _ & _ & _ & _ & Hgp & Htp). eauto.
    + rewrite Es. split; [discriminate |].
      intros (k & s & p & _ & _ & Hgs & Hts & _).
      assert (false = true) by (apply Hs; eauto). discriminate.
  - rewrite Ek. split; [discriminate |].
    intros (k & s & p & Hgk & Htk & _).
    assert (false = true) by (apply Hk; eauto). discriminate.
Qed.

End LoadedCredentials.

(** *** On the test doubles *)

Local Open Scope list_scope.

Lemma relayer_requires_builder_credentials_witness :
  (forall safe_address,
     @RelayerClient.deploy_safe test_services test_relayer safe_address []
       = (Raises Builder_credentials_required, [])) /\
  (forall safe_address spender amount,
     @RelayerClient.approve_usdc test_services test_relayer safe_address
        spender amount []
       = (Raises Builder_credentials_required, [])) /\
  (forall safe_address token_id spender amount,
     @RelayerClient.approve_token test_services test_relayer safe_address
        token_id spender amount []
       = (Raises Builder_credentials_required, [])).
Proof.
  apply (@relayer_requires_builder_credentials test_services test_relayer []).
  reflexivity.
Defined.

Lemma post_order_sends_one_request_at_most_three_times_witness :
  let body :=
    ClobClient.order_body test_clob (json_of_payload test_payload) "GTC" in
  exists (k : nat) (auth : gmap string string) (w0 : World),
    (k <= 3)%nat /\
    snd (@ClobClient.post_order test_services test_clob
           (json_of_payload test_payload) "GTC" [])
    = w0 ++ backoff_trace
              (mkRequest "POST"
                 (PyStr.rstrip_char "/" "https://clob.polymarket.com"
                  +:+ "/order")
                 (ApiClient.headers_of (Some auth)) None (Some body) 30) k 0 /\
    seconds_slept
      (snd (@ClobClient.post_order test_services test_clob
              (json_of_payload test_payload) "GTC" []))
      <= seconds_slept [] + 3 /\
    (w0 = [] ++ [Clock_read] /\
     auth = {[ "POLY_BUILDER_API_KEY" := "key";
               "POLY_BUILDER_TIMESTAMP" :=
                 Py.str (@clock_seconds test_services []);
               "POLY_BUILDER_PASSPHRASE" := "phrase";
               "POLY_BUILDER_SIGNATURE" :=
                 @hmac_sha256_hex test_services "secret"
                   (Py.str (@clock_seconds test_services []) +:+ "POST"
                    +:+ "/order"
                    +:+ @json_dumps_compact test_services body) ]}) /\
    (1 <= k)%nat.
Proof.
  apply (@post_order_sends_one_request_at_most_three_times test_services
           "https://clob.polymarket.com" 137 2 test_maker None
           (Some test_builder) 30 (json_of_payload test_payload) "GTC" []
           (Return (JList []))
           (snd (@ClobClient.post_order test_services test_clob
                   (json_of_payload test_payload) "GTC" []))).
  vm_compute. reflexivity.
Defined.

Lemma posted_body_of_a_signed_order_witness :
  exists salt mk sg tokenId ma ta sig,
    @Eth.to_checksum_address test_backend (maker test_order) = Ok mk /\
    @Eth.to_checksum_address test_backend (address test_signer) = Ok sg /\
    Py.int (token_id test_order) = Ok tokenId /\
    Py.int (maker_amount test_order) = Ok ma /\
    Py.int (taker_amount test_order) = Ok ta /\
    ClobClient.order_body test_clob (json_of_payload test_payload) "FOK"
      = [ ("order",
           JDict [ ("salt", JInt salt);
                   ("maker", JStr mk);
                   ("signer", JStr sg);
                   ("taker", JStr Eth.ZERO_ADDRESS);
                   ("tokenId", JStr (Py.str tokenId));
                   ("makerAmount", JStr (Py.str ma));
                   ("takerAmount", JStr (Py.str ta));
                   ("expiration", JStr "0");
                   ("nonce", JStr (Py.str (nonce test_order)));
                   ("feeRateBps", JStr (Py.str (fee_rate_bps test_order)));
                   ("side", JStr (side test_order));
                   ("signatureType", JInt (signature_type test_order));
                   ("signature", JStr ("0x" +:+ sig)) ]);
          ("owner", JStr (ClobClient.funder test_clob));
          ("orderType", JStr "FOK") ].
Proof.
  apply (@posted_body_of_a_signed_order test_backend test_signer test_order
           41 test_payload 42 test_clob "FOK").
  vm_compute. reflexivity.
Defined.

Lemma empty_response_is_an_empty_dict_or_list_witness :
  let auth :=
    fst (@ClobClient.build_headers quiet_services test_clob "GET" "/orders"
           "" []) in
  let book :=
    mkRequest "GET"
      (ApiClient.url_of (ClobClient.api test_clob) ("/orderbook/" +:+ "1"))
      {[ "Content-Type" := "application/json" ]} None None
      (ApiClient.timeout (ClobClient.api test_clob)) in
  let orders :=
    mkRequest "GET" (ApiClient.url_of (ClobClient.api test_clob) "/orders")
      (ApiClient.headers_of (Some auth))
      (Some {[ "maker" := ClobClient.funder test_clob ]}) None
      (ApiClient.timeout (ClobClient.api test_clob)) in
  @ClobClient.get_order_book quiet_services test_clob "1" []
    = (Return (JDict []), [] ++ [Sent book]) /\
  @ClobClient.get_open_orders quiet_services test_clob []
    = (Return (JList []), [Clock_read] ++ [Sent orders]).
Proof.
  pose proof (@empty_response_is_an_empty_dict_or_list quiet_services
                test_clob "1" []
                (fst (@ClobClient.build_headers quiet_services test_clob
                        "GET" "/orders" "" []))
                [Clock_read] empty_response
                ltac:(vm_compute; discriminate) eq_refl eq_refl) as [Hb Ho].
  split; [apply Hb; reflexivity | apply Ho; reflexivity].
Defined.


(** ** [Order.__post_init__]: the amounts grow with the size and the
    price *)

Section Monotone.
Import PyFloat Rounding.

(** At a tie the quotient is rounded to the even neighbour. *)
Lemma rhe_div_tie_even N D :
  0 < D ->
  2 * rhe_div N D * D - 2 * N = D \/ 2 * N - 2 * rhe_div N D * D = D ->
  Z.even (rhe_div N D) = true.
Proof.
  intros HD Htie. unfold rhe_div in *.
  pose proof (Z.div_mod N D ltac:(lia)) as Hdm.
  pose proof (Z.mod_pos_bound N D ltac:(lia)) as Hr.
  set (q := N / D) in *. set (r := N mod D) in *.
  destruct (Z.compare_spec (2 * r) D) as [He | Hl | Hg].
  - destruct (Z.even q) eqn:Eq; [assumption |].
    rewrite Z.even_add, Eq. reflexivity.
  - exfalso. nia.
  - exfalso. nia.
Qed.

Lemma rhe_div_monotone N1 D1 N2 D2 :
  0 < D1 -> 0 < D2 -> N1 * D2 <= N2 * D1 ->
  rhe_div N1 D1 <= rhe_div N2 D2.
Proof.
  intros H1 H2 Hle.
  pose proof (RoundingFacts.rhe_div_err N1 D1 H1) as [_ Hup].
  pose proof (RoundingFacts.rhe_div_err N2 D2 H2) as [Hlo _].
  pose proof (rhe_div_tie_even N1 D1 H1) as Hev1.
  pose proof (rhe_div_tie_even N2 D2 H2) as Hev2.
  set (K1 := rhe_div N1 D1) in *. set (K2 := rhe_div N2 D2) in *.
  destruct (Z_le_gt_dec K1 K2) as [| Hgt]; [assumption | exfalso].
  assert (Hprod : 0 < D1 * D2) by nia.
  assert (Hd : 2 * (K1 - K2) * (D1 * D2) <= 2 * (D1 * D2)) by nia.
  assert (HK : K1 = K2 + 1) by nia.
  assert (Ht1 : 2 * K1 * D1 - 2 * N1 = D1) by nia.
  assert (Ht2 : 2 * N2 - 2 * K2 * D2 = D2) by nia.
  specialize (Hev1 (or_introl Ht1)). specialize (Hev2 (or_intror Ht2)).
  rewrite HK, Z.even_add, Hev2 in Hev1. discriminate.
Qed.

(** The scaled value of a positive double as a fraction of integers. *)
Lemma scaled_fraction m e n :
  0 <= n ->
  exists N D,
    0 < D /\ scaled_rhe m e n = rhe_div N D /\
    (to_Q (S754_finite false m e) * inject_Z (10 ^ n) * inject_Z D
       == inject_Z N)%Q.
Proof.
  intros Hn. cbn [to_Q scaled_rhe].
  destruct e as [| p | p].
  - exists (Zpos m * 2 ^ 0 * 10 ^ n), 1. split; [lia |]. split.
    + unfold rhe_div. rewrite Z.mod_1_r, Z.div_1_r. reflexivity.
    + rewrite !inject_Z_mult. change (inject_Z (2 ^ 0)) with 1%Q.
      change (2 ^ 0)%Q with 1%Q. change (inject_Z 1) with 1%Q. ring.
  - exists (Zpos m * 2 ^ Zpos p * 10 ^ n), 1. split; [lia |]. split.
    + unfold rhe_div. rewrite Z.mod_1_r, Z.div_1_r. reflexivity.
    + rewrite !inject_Z_mult, RoundingFacts.pow2_inject by lia.
      change (inject_Z 1) with 1%Q. ring.
  - exists (Zpos m * 10 ^ n), (2 ^ Zpos p).
    assert (HD : 0 < 2 ^ Zpos p) by (apply Z.pow_pos_nonneg; lia).
    split; [assumption |]. split; [reflexivity |].
    rewrite inject_Z_mult, RoundingFacts.pow2_inject by lia.
    assert (Hinv : (2 ^ Zneg p * 2 ^ Zpos p == 1)%Q).
    { rewrite <- RoundingFacts.pow2_add.
      replace (Z.neg p + Z.pos p) with 0 by lia. reflexivity. }
    set (a := inject_Z (Zpos m)) in *. set (t := inject_Z (10 ^ n)) in *.
    transitivity (a * t * (2 ^ Zneg p * 2 ^ Zpos p))%Q;
      [ring | rewrite Hinv; ring].
Qed.

(** The number of units that rounding settles on grows with the value. *)
Lemma units_monotone m1 e1 m2 e2 n :
  0 <= n ->
  (to_Q (S754_finite false m1 e1) <= to_Q (S754_finite false m2 e2))%Q ->
  units (S754_finite false m1 e1) n <= units (S754_finite false m2 e2) n.
Proof.
  intros Hn Hle. cbn [units].
  destruct (scaled_fraction m1 e1 n Hn) as (N1 & D1 & HD1 & -> & HN1).
  destruct (scaled_fraction m2 e2 n Hn) as (N2 & D2 & HD2 & -> & HN2).
  apply rhe_div_monotone; [assumption | assumption |].
  rewrite Zle_Qle, !inject_Z_mult, <- HN1, <- HN2.
  assert (HT : (0 < inject_Z (10 ^ n))%Q).
  { change 0%Q with (inject_Z 0). rewrite <- Zlt_Qlt.
    apply Z.pow_pos_nonneg; lia. }
  assert (Hd1 : (0 < inject_Z D1)%Q)
    by (change 0%Q with (inject_Z 0); rewrite <- Zlt_Qlt; assumption).
  assert (Hd2 : (0 < inject_Z D2)%Q)
    by (change 0%Q with (inject_Z 0); rewrite <- Zlt_Qlt; assumption).
  set (x := to_Q (S754_finite false m1 e1)) in *.
  set (y := to_Q (S754_finite false m2 e2)) in *.
  set (t := inject_Z (10 ^ n)) in *.
  set (d1 := inject_Z D1) in *. set (d2 := inject_Z D2) in *.
  assert (Hxy : (x * t <= y * t)%Q) by nra.
  assert (Hdd : (0 < d1 * d2)%Q) by nra.
  nra.
Qed.

Lemma size_is_finite s :
  size_positive s -> Py.le_int s (10 ^ 9) = true ->
  exists m e, s = S754_finite false m e.
Proof.
  unfold size_positive, Py.lt_int, Py.le_int.
  change (of_Z 0) with (S754_zero false).
  destruct s as [[] | [] | | [] m e]; try discriminate; eauto.
Qed.

(** X20. The amounts grow with the size and the price: of two orders of
    the same side and class, with double prices in (0,1] and double sizes
    in (0, 1e9], the one with the larger size has the larger (or the same)
    shares amount; and, for a limit BUY or a SELL, if its price is also
    the larger one, the larger (or the same) quote amount. *)
Theorem amounts_grow_with_size_and_price o1 o2 sd c :
  Spec.side_of_string (Py.upper (init_side o1)) = Some sd ->
  Spec.side_of_string (Py.upper (init_side o2)) = Some sd ->
  Spec.class_of_order_type (init_order_type o1) = Some c ->
  Spec.class_of_order_type (init_order_type o2) = Some c ->
  is_double (init_price o1) = true -> price_in_range (init_price o1) ->
  is_double (init_price o2) = true -> price_in_range (init_price o2) ->
  is_double (init_size o1) = true -> size_positive (init_size o1) ->
  Py.le_int (init_size o1) (10 ^ 9) = true ->
  is_double (init_size o2) = true -> size_positive (init_size o2) ->
  Py.le_int (init_size o2) (10 ^ 9) = true ->
  (to_Q (init_size o1) <= to_Q (init_size o2))%Q ->
  exists ord1 ord2 A1 A2 B1 B2,
    Order_post_init o1 = Ok ord1 /\ Order_post_init o2 = Ok ord2 /\
    Py.int (shares_leg sd ord1) = Ok A1 /\
    Py.int (shares_leg sd ord2) = Ok A2 /\
    Py.int (quote_leg sd ord1) = Ok B1 /\
    Py.int (quote_leg sd ord2) = Ok B2 /\
    A1 <= A2 /\
    (Spec.quote_decimals sd c = 4 ->
     (to_Q (init_price o1) <= to_Q (init_price o2))%Q -> B1 <= B2).
Proof.
  intros Hsd1 Hsd2 Hc1 Hc2 Hpd1 Hp1 Hpd2 Hp2 Hsdb1 Hs1 Hsm1 Hsdb2 Hs2 Hsm2 Hle.
  rewrite (post_init_normalize o1 sd c Hsd1 Hc1 Hp1 (positive_not_le_zero _ Hs1)).
  rewrite (post_init_normalize o2 sd c Hsd2 Hc2 Hp2 (positive_not_le_zero _ Hs2)).
  destruct (RoundingFacts.normalize_small c sd _ _ Hpd1 Hp1 Hsdb1 Hs1 Hsm1)
    as (Q1 & HP1 & HS1 & HQ1 & H41 & _ & ->).
  destruct (RoundingFacts.normalize_small c sd _ _ Hpd2 Hp2 Hsdb2 Hs2 Hsm2)
    as (Q2 & HP2 & HS2 & HQ2 & H42 & _ & ->).
  cbn [bind].
  set (d := Spec.shares_decimals sd c) in *.
  set (dq := Spec.quote_decimals sd c) in *.
  assert (Hd : d = 2 \/ d = 4) by (destruct sd, c; cbn; auto).
  assert (HS : units (init_size o1) d <= units (init_size o2) d).
  { destruct (size_is_finite _ Hs1 Hsm1) as (m1 & e1 & E1).
    destruct (size_is_finite _ Hs2 Hsm2) as (m2 & e2 & E2).
    rewrite E1, E2 in *. apply units_monotone; [lia | assumption]. }
  assert (HP : (to_Q (init_price o1) <= to_Q (init_price o2))%Q ->
               units (init_price o1) 2 <= units (init_price o2) 2).
  { destruct (price_is_finite _ Hp1) as (m1 & e1 & E1).
    destruct (price_is_finite _ Hp2) as (m2 & e2 & E2).
    rewrite E1, E2 in *. apply units_monotone; lia. }
  set (S1 := units (init_size o1) d) in *.
  set (S2 := units (init_size o2) d) in *.
  set (P1 := units (init_price o1) 2) in *.
  set (P2 := units (init_price o2) 2) in *.
  assert (H10 : 0 < 10 ^ (6 - d)) by (destruct Hd as [-> | ->]; reflexivity).
  assert (H10q : 0 < 10 ^ (6 - dq)) by (destruct sd, c; reflexivity).
  eexists _, _, (S1 * 10 ^ (6 - d)), (S2 * 10 ^ (6 - d)),
    (Q1 * 10 ^ (6 - dq)), (Q2 * 10 ^ (6 - dq)).
  split; [reflexivity |]. split; [reflexivity |].
  repeat (split;
          [destruct sd;
           cbn [shares_leg quote_leg order_of maker_amount taker_amount
                  Spec.norm_maker_amount Spec.norm_taker_amount];
           apply PyStrFacts.int_str |]).
  split; [apply Z.mul_le_mono_nonneg_r; lia |].
  intros H4 Hprice. specialize (HP Hprice).
  rewrite (H41 H4), (H42 H4).
  apply Z.mul_le_mono_nonneg_r; [lia |].
  apply Z.mul_le_mono_nonneg; lia.
Qed.

Lemma amounts_grow_with_size_and_price_witness :
  exists ord1 ord2 A1 A2 B1 B2,
    Order_post_init limit_order = Ok ord1 /\
    Order_post_init larger_limit_order = Ok ord2 /\
    Py.int (shares_leg Spec.BUY ord1) = Ok A1 /\
    Py.int (shares_leg Spec.BUY ord2) = Ok A2 /\
    Py.int (quote_leg Spec.BUY ord1) = Ok B1 /\
    Py.int (quote_leg Spec.BUY ord2) = Ok B2 /\
    A1 <= A2 /\
    (Spec.quote_decimals Spec.BUY Spec.LIMIT = 4 ->
     (to_Q (init_price limit_order) <= to_Q (init_price larger_limit_order))%Q ->
     B1 <= B2).
Proof.
  apply (amounts_grow_with_size_and_price limit_order larger_limit_order
           Spec.BUY Spec.LIMIT);
    try reflexivity; try (split; reflexivity).
  vm_compute. discriminate.
Defined.

(** X21. A size below half a unit of the last kept decimal passes the
    size check and gives an order for nothing: for a double price in (0,1]
    and a double size in (0, 0.005), or in (0, 0.00005) for a market BUY,
    the order is built, and both its amounts are "0". *)
Theorem size_below_half_a_unit_gives_an_empty_order o sd c :
  Spec.side_of_string (Py.upper (init_side o)) = Some sd ->
  Spec.class_of_order_type (init_order_type o) = Some c ->
  is_double (init_price o) = true -> price_in_range (init_price o) ->
  is_double (init_size o) = true -> size_positive (init_size o) ->
  Py.le_int (init_size o) (10 ^ 9) = true ->
  (to_Q (init_size o) * inject_Z (10 ^ Spec.shares_decimals sd c) < 1 # 2)%Q ->
  exists ord,
    Order_post_init o = Ok ord /\
    maker_amount ord = "0" /\ taker_amount ord = "0".
Proof.
  intros Hsd Hc Hpd Hp Hsdb Hs Hsmall Hlow.
  pose proof (size_is_finite _ Hs Hsmall) as Hfin.
  rewrite (post_init_normalize o sd c Hsd Hc Hp (positive_not_le_zero _ Hs)).
  destruct (RoundingFacts.normalize_small c sd _ _ Hpd Hp Hsdb Hs Hsmall)
    as (Q & HP & HS & HQ & H4 & H2 & ->).
  set (d := Spec.shares_decimals sd c) in *.
  assert (Hd : d = 2 \/ d = 4) by (destruct sd, c; cbn; auto).
  assert (HS0 : units (init_size o) d = 0).
  { pose proof (units_within_half (init_size o) d ltac:(lia) Hfin) as [_ Hup].
    assert (Hlt : (inject_Z (units (init_size o) d) < inject_Z 1)%Q).
    { change (inject_Z 1) with 1%Q.
      set (v := (to_Q (init_size o) * inject_Z (10 ^ d))%Q) in *. lra. }
    rewrite <- Zlt_Qlt in Hlt. lia. }
  rewrite HS0 in *.
  assert (HQ0 : Q = 0).
  { destruct sd, c; cbn [Spec.quote_decimals] in *;
      first [specialize (H4 eq_refl); lia | specialize (H2 eq_refl); lia]. }
  subst Q. cbn [bind]. eexists. split; [reflexivity |].
  destruct sd; split; reflexivity.
Qed.

Lemma size_below_half_a_unit_gives_an_empty_order_witness :
  exists ord,
    Order_post_init dust_sell = Ok ord /\
    maker_amount ord = "0" /\ taker_amount ord = "0".
Proof.
  apply (size_below_half_a_unit_gives_an_empty_order dust_sell
           Spec.SELL Spec.LIMIT);
    try reflexivity; split; reflexivity.
Defined.

End Monotone.

(** ** [RelayerClient] with credentials, and the headers of a request *)

Section RelayerPosting.
Context `{Services}.
Local Open Scope list_scope.

(** X22. With configured Builder credentials, an operation of a
    [RelayerClient] built by [__init__] ([deploy_safe], [approve_usdc] and
    [approve_token] are [post] with their endpoint and body) reads the
    clock once, then sends one and the same POST to [<host>/<endpoint>] at
    most three times, with at most 3 seconds of pauses: the body is the
    dict itself, the four Builder headers go with every attempt, and the
    signature is the HMAC of timestamp + "POST" + endpoint + the compact
    JSON text of the body. *)
Theorem relayer_operations_sign_then_post host chain_id c tx_type timeout
    endpoint body w res w' :
  BuilderConfig.as_bool c && BuilderConfig.is_configured c = true ->
  let self := RelayerClient.init host chain_id (Some c) tx_type timeout in
  RelayerClient.post self endpoint body w = (res, w') ->
  let auth : gmap string string :=
    {[ "POLY_BUILDER_API_KEY" := BuilderConfig.api_key c;
       "POLY_BUILDER_TIMESTAMP" := Py.str (clock_seconds w);
       "POLY_BUILDER_PASSPHRASE" := BuilderConfig.api_passphrase c;
       "POLY_BUILDER_SIGNATURE" :=
         hmac_sha256_hex (BuilderConfig.api_secret c)
           (Py.str (clock_seconds w) +:+ "POST" +:+ endpoint
            +:+ json_dumps_compact body) ]} in
  exists k : nat,
    (k <= 3)%nat /\
    w' = w ++ Clock_read ::
           backoff_trace
             (mkRequest "POST"
                (PyStr.rstrip_char "/" host +:+ "/"
                 +:+ PyStr.lstrip_char "/" endpoint)
                (ApiClient.headers_of (Some auth)) None (Some body) timeout)
             k 0 /\
    seconds_slept w' <= seconds_slept w + 3 /\
    match res with
    | Return _ | Raises (Uncaught _) => (1 <= k)%nat
    | Raises (Request_failed m _) => m = 3 /\ k = 3%nat
    | Raises _ => False
    end.
Proof.
  intros Hready self Hrun auth.
  unfold RelayerClient.post, RelayerClient.build_headers in Hrun.
  cbn [RelayerClient.builder_creds self RelayerClient.init] in Hrun.
  apply andb_true_iff in Hready as [Hb Hc]. rewrite Hb, Hc in Hrun.
  cbn [negb orb] in Hrun. unfold builder_headers in Hrun. fold auth in Hrun.
  destruct (request_shape _ _ _ _ _ _ _ _ _ Hrun)
    as (k & Hk & _ & Hw & Hres).
  change (ApiClient.retry_count (ApiClient.init host timeout 3)) with 3 in *.
  change (Z.to_nat 3) with 3%nat in *.
  assert (Hcall :
    ApiClient.call_of (RelayerClient.api self) "POST" endpoint (Some body)
      (Some auth) None
    = Some (mkRequest "POST"
              (PyStr.rstrip_char "/" host +:+ "/"
               +:+ PyStr.lstrip_char "/" endpoint)
              (ApiClient.headers_of (Some auth)) None (Some body) timeout))
    by reflexivity.
  change (ApiClient.call_of _ _ _ _ _ _)
    with (Some (mkRequest "POST"
                  (PyStr.rstrip_char "/" host +:+ "/"
                   +:+ PyStr.lstrip_char "/" endpoint)
                  (ApiClient.headers_of (Some auth)) None (Some body) timeout))
    in Hw.
  clear Hcall.
  exists k. split; [assumption |]. split; [| split].
  - rewrite Hw, <- app_assoc. reflexivity.
  - rewrite Hw, !seconds_slept_app, seconds_slept_backoff by lia.
    pose proof (backoff_seconds_le_3 k Hk). cbn [seconds_slept fold_right].
    lia.
  - destruct res as [v | [m | m e | | m]]; try assumption.
    destruct Hres as (_ & _ & _ & Hnone). discriminate Hnone.
Qed.

End RelayerPosting.

Section RequestHeaders.

(** X23. The headers of a request are the caller's headers, all of them
    unchanged, and Content-Type: it is application/json unless the caller
    gives a Content-Type, which then replaces it, and nothing else is
    added. *)
Theorem request_headers_keep_content_type
    (headers : option (gmap string string)) :
  ApiClient.headers_of headers !! "Content-Type"
    = Some (default "application/json" (headers ≫= (.!! "Content-Type"))) /\
  forall k, k <> "Content-Type" ->
    ApiClient.headers_of headers !! k = headers ≫= (.!! k).
Proof.
  unfold ApiClient.headers_of.
  destruct headers as [h |]; cbn [mbind option_bind].
  - destruct (bool_decide (h = ∅)) eqn:Eh.
    + apply bool_decide_eq_true in Eh. subst h. split.
      * rewrite lookup_empty. apply lookup_singleton_eq.
      * intros k Hk. rewrite lookup_empty. apply lookup_singleton_ne.
        congruence.
    + split.
      * rewrite lookup_union. destruct (h !! "Content-Type") as [v |];
          rewrite lookup_singleton_eq; reflexivity.
      * intros k Hk. rewrite lookup_union, lookup_singleton_ne by congruence.
        destruct (h !! k); reflexivity.
  - split; [apply lookup_singleton_eq |].
    intros k Hk. apply lookup_singleton_ne. congruence.
Qed.

End RequestHeaders.

(** ** [sign_auth_message] *)

Section AuthSigning.
Context `{Backend} `{Services}.
Local Open Scope list_scope.

(** X24. In every successful [sign_auth_message], what is hashed, under
    the authentication domain (which names no verifying contract), and
    signed is the struct of the four fields address, timestamp, nonce and
    message; the address is that of the account derived from the private
    key the signer was built from, the account that signs; the timestamp
    is the one given, and then the clock is not read, or else the whole
    seconds of the clock, read once, in decimal; and the result is "0x"
    and the signature. *)
Theorem auth_message_fields pk self timestamp nonce w sig w' :
  OrderSigner_init pk = Ok self ->
  sign_auth_message self timestamp nonce w = (Ok sig, w') ->
  exists account signable s t,
    from_key ("0x" +:+ (if Py.startswith pk "0x" then Py.drop 2 pk else pk))
      = Ok account /\
    encode_typed_data AUTH_DOMAIN AUTH_TYPES
      {[ "address" := PyStr (account_address account);
         "timestamp" := PyStr t;
         "nonce" := PyInt nonce;
         "message" :=
           PyStr "This message attests that I control the given wallet" ]}
      = Ok signable /\
    sign_message_hex account signable = Ok s /\
    sig = "0x" +:+ s /\
    AUTH_DOMAIN !! "verifyingContract" = None /\
    match timestamp with
    | Some given => t = given /\ w' = w
    | None =>
        t = Py.str (clock_seconds w) /\ Py.int t = Ok (clock_seconds w) /\
        w' = w ++ [Clock_read]
    end.
Proof.
  intros Hinit. destruct (init_inv _ _ Hinit) as [Hkey Haddr].
  unfold sign_auth_message, auth_message_data. rewrite Haddr.
  destruct timestamp as [given |].
  - destruct (encode_typed_data _ _ _) as [signable |] eqn:Es;
      cbn [bind]; [| discriminate].
    destruct (sign_message_hex (wallet self) signable) as [s |] eqn:Eg;
      cbn [bind]; [| discriminate].
    intros [= <- <-]. exists (wallet self), signable, s, given.
    repeat split; assumption.
  - destruct (encode_typed_data _ _ _) as [signable |] eqn:Es;
      cbn [bind]; [| discriminate].
    destruct (sign_message_hex (wallet self) signable) as [s |] eqn:Eg;
      cbn [bind]; [| discriminate].
    intros [= <- <-].
    exists (wallet self), signable, s, (Py.str (clock_seconds w)).
    repeat split; try assumption. apply PyStrFacts.int_str.
Qed.

End AuthSigning.

(** *** On the test double *)

Local Open Scope list_scope.

Lemma relayer_operations_sign_then_post_witness :
  let body := [("safeAddress", JStr test_maker)] in
  let auth : gmap string string :=
    {[ "POLY_BUILDER_API_KEY" := "key";
       "POLY_BUILDER_TIMESTAMP" := Py.str (@clock_seconds test_services []);
       "POLY_BUILDER_PASSPHRASE" := "phrase";
       "POLY_BUILDER_SIGNATURE" :=
         @hmac_sha256_hex test_services "secret"
           (Py.str (@clock_seconds test_services []) +:+ "POST" +:+ "/deploy"
            +:+ @json_dumps_compact test_services body) ]} in
  exists k : nat,
    (k <= 3)%nat /\
    snd (@RelayerClient.deploy_safe test_services
           (RelayerClient.init "https://relayer-v2.polymarket.com" 137
              (Some test_builder) "SAFE" 60) test_maker [])
    = [] ++ Clock_read ::
        backoff_trace
          (mkRequest "POST"
             (PyStr.rstrip_char "/" "https://relayer-v2.polymarket.com"
              +:+ "/" +:+ PyStr.lstrip_char "/" "/deploy")
             (ApiClient.headers_of (Some auth)) None (Some body) 60) k 0 /\
    seconds_slept
      (snd (@RelayerClient.deploy_safe test_services
              (RelayerClient.init "https://relayer-v2.polymarket.com" 137
                 (Some test_builder) "SAFE" 60) test_maker []))
      <= seconds_slept [] + 3 /\
    (1 <= k)%nat.
Proof.
  apply (@relayer_operations_sign_then_post test_services
           "https://relayer-v2.polymarket.com" 137 test_builder "SAFE" 60
           "/deploy" [("safeAddress", JStr test_maker)] []
           (Return (JList []))
           (snd (@RelayerClient.deploy_safe test_services
                   (RelayerClient.init "https://relayer-v2.polymarket.com" 137
                      (Some test_builder) "SAFE" 60) test_maker []))).
  - reflexivity.
  - vm_compute. reflexivity.
Defined.

Lemma auth_message_fields_witness :
  exists account signable s t,
    @from_key test_backend ("0x" +:+ Py.drop 2 ("0x" +:+ test_key))
      = Ok account /\
    @encode_typed_data test_backend AUTH_DOMAIN AUTH_TYPES
      {[ "address" := PyStr (@account_address test_backend account);
         "timestamp" := PyStr t;
         "nonce" := PyInt 0;
         "message" :=
           PyStr "This message attests that I control the given wallet" ]}
      = Ok signable /\
    @sign_message_hex test_backend account signable = Ok s /\
    "0x1b" = "0x" +:+ s /\
    AUTH_DOMAIN !! "verifyingContract" = None /\
    t = Py.str (@clock_seconds test_services []) /\
    Py.int t = Ok (@clock_seconds test_services []) /\
    [Clock_read] = [] ++ [Clock_read].
Proof.
  apply (@auth_message_fields test_backend test_services ("0x" +:+ test_key)
           test_signer None 0 [] "0x1b" [Clock_read]);
    vm_compute; reflexivity.
Defined.
